(** * cosmos/converter.py: configuration reconciliation for DbtToAirflowConverter

    A shallow embedding of [src/cosmos/converter.py].  Python objects that are
    passed by reference (the four configuration objects) live in a store of
    typed cells; functions that only read their arguments take the records
    themselves, functions that copy or mutate take references.  Warnings,
    calls to external collaborators and raised exceptions are threaded
    through a small state-and-error monad. *)

From stdpp Require Import base option gmap strings list fin_maps.
From Stdlib Require Import ZArith.

#[local] Set Warnings "-clear-no-such-hyp".

Open Scope string_scope.

(** ** Python values *)

Definition loc := positive.

(** [cosmos.constants.InvocationMode]. *)
Inductive InvocationMode := SUBPROCESS | DBT_RUNNER.

(** Modelled from the spec: the members of [cosmos.constants.ExecutionMode]
    (the enum is imported, not defined, by the converter).  The spec names
    LOCAL, VIRTUALENV, KUBERNETES and DOCKER and leaves the rest open;
    [OTHER_MODE] stands for any further member. *)
Inductive ExecutionMode :=
  | LOCAL | VIRTUALENV | KUBERNETES | DOCKER | OTHER_MODE (name : string).

#[global] Instance ExecutionMode_eq_dec : EqDecision ExecutionMode.
Proof. solve_decision. Defined.

(** The values an [Any]-typed slot (an operator argument, an entry of the
    task-argument bundle) can hold.  [VProfile l] is a reference to a
    [ProfileConfig] object. *)
Inductive value :=
  | VNone
  | VBool (b : bool)
  | VInt (n : Z)
  | VStr (s : string)
  | VPath (p : string)
  | VDict (d : gmap string string)
  | VInvocation (m : InvocationMode)
  | VProfile (l : loc).

(** Python truthiness, as used by [if x], [not x] and [x or y].  [Path] objects,
    enum members and plain objects define neither [__bool__] nor [__len__]
    and are always true. *)
Definition truthy (v : value) : bool :=
  match v with
  | VNone => false
  | VBool b => b
  | VInt n => negb (n =? 0)%Z
  | VStr s => negb (String.eqb s "")
  | VPath _ => true
  | VDict d => negb (bool_decide (d = ∅))
  | VInvocation _ => true
  | VProfile _ => true
  end.

(** [x or y]. *)
Definition py_or (x y : value) : value := if truthy x then x else y.

(** [d.get(k)]: the value, or [None] for an absent key. *)
Definition dict_get (d : gmap string value) (k : string) : value :=
  default VNone (d !! k).

(** [k in d]. *)
Definition dict_contains (d : gmap string value) (k : string) : bool :=
  bool_decide (is_Some (d !! k)).

(** Optional fields seen as values. *)
Definition of_path (p : option string) : value :=
  match p with Some s => VPath s | None => VNone end.

Definition of_dict (d : option (gmap string string)) : value :=
  match d with Some m => VDict m | None => VNone end.

Definition of_invocation (m : option InvocationMode) : value :=
  match m with Some i => VInvocation i | None => VNone end.

Definition of_profile (p : option loc) : value :=
  match p with Some l => VProfile l | None => VNone end.

(** ** Configuration objects (the fields the converter touches)

    The classes live in [cosmos.config]; the converter only reads and writes
    the attributes below. *)

Record ProjectConfig := {
  dbt_project_path : option string;
  manifest_path : option string;
  project_name : string;
  project_env_vars : option (gmap string string);
  dbt_vars : option (gmap string string);
  partial_parse : bool
}.

Record RenderConfig := {
  render_project_path : option string;
  select : list string;
  exclude : list string;
  render_env_vars : option (gmap string string);
  load_method : string;
  emit_datasets : bool
}.

Record ExecutionConfig := {
  execution_mode : ExecutionMode;
  execution_project_path : option string;
  dbt_executable_path : value;
  invocation_mode : option InvocationMode;
  test_indirect_selection : string
}.

Record ProfileMapping := {
  profile_args : gmap string value
}.

Record ProfileConfig := {
  profile_name : string;
  target_name : string;
  profile_mapping : option ProfileMapping
}.

(** Airflow's [DAG] and [TaskGroup], as far as the converter looks. *)
Record DAG := { dag_id : string }.
Record TaskGroup := { group_id : string; task_group_dag : option DAG }.

(** ** The object store *)

Record Heap := {
  projects : gmap loc ProjectConfig;
  profiles : gmap loc ProfileConfig;
  executions : gmap loc ExecutionConfig;
  renders : gmap loc RenderConfig
}.

Definition set_profiles (f : gmap loc ProfileConfig → gmap loc ProfileConfig) (h : Heap) : Heap :=
  {| projects := projects h; profiles := f (profiles h);
     executions := executions h; renders := renders h |}.

Definition set_executions (f : gmap loc ExecutionConfig → gmap loc ExecutionConfig) (h : Heap) : Heap :=
  {| projects := projects h; profiles := profiles h;
     executions := f (executions h); renders := renders h |}.

Definition set_renders (f : gmap loc RenderConfig → gmap loc RenderConfig) (h : Heap) : Heap :=
  {| projects := projects h; profiles := profiles h;
     executions := executions h; renders := f (renders h) |}.

(** ** Exceptions, warnings and calls to collaborators *)

(** The messages of [CosmosValueError], one constructor per [raise] of the
    module, in source order.  [SameInSelectAndExclude label values] is
    "Can't specify the same {label} in `select` and `exclude`: {values}". *)
Inductive message :=
  | SameInSelectAndExclude (label : string) (values : gset string)
  | ProfileConfigMandatory (mode : ExecutionMode)
  | ProjectPathMutuallyExclusive
  | EnvMutuallyExclusive
  | VarsMutuallyExclusive
  | BothEnvVarsProvided
  | ExecutionProjectPathRequired
  | RenderProjectPathRequired
  | EitherDagOrTaskGroup.

(** [AttributeError attr] is an attribute access on [None];
    [ExternalError] is whatever a collaborator raises that is not a
    [CosmosValueError]; [NoSuchObject] marks a reference without an object,
    which Python cannot produce. *)
Inductive exn :=
  | CosmosValueError (m : message)
  | AttributeError (attr : string)
  | ExternalError (what : string)
  | NoSuchObject.

Inductive deprecation := OperatorArgsEnv | OperatorArgsVars.

(** The node set handed from the loader to the builder is opaque here. *)
Definition Nodes := list string.

(** Arguments of [DbtGraph(...).load(...)]. *)
Record GraphRequest := {
  gr_project : loc;
  gr_render_config : loc;
  gr_execution_config : loc;
  gr_profile_config : option loc;
  gr_dbt_vars : value;
  gr_method : string;
  gr_execution_mode : ExecutionMode
}.

(** Arguments of [build_airflow_graph(...)]. *)
Record BuildRequest := {
  br_nodes : Nodes;
  br_dag : DAG;
  br_task_group : option TaskGroup;
  br_execution_mode : ExecutionMode;
  br_task_args : gmap string value;
  br_test_indirect_selection : string;
  br_dbt_project_name : string;
  br_on_warning_callback : option string;
  br_render_config : loc
}.

Inductive event :=
  | Warn (d : deprecation)
  | LoggerWarning (text : string)
  | ValidateProject (project : loc)
  | ValidateProfilesYml (profile : loc)
  | DbtGraphLoad (req : GraphRequest)
  | BuildAirflowGraph (req : BuildRequest).

(** ** The monad: a store, the trace of effects so far, and exceptions *)

Record World := { heap : Heap; trace : list event }.

Inductive result (A : Type) :=
  | Ok (a : A)
  | Raise (e : exn).
Arguments Ok {A} a.
Arguments Raise {A} e.

Definition M (A : Type) : Type := World → result A * World.

#[global] Instance M_ret : MRet M := λ A a w, (Ok a, w).

#[global] Instance M_bind : MBind M := λ A B f m w,
  match m w with
  | (Ok a, w') => f a w'
  | (Raise e, w') => (Raise e, w')
  end.

Definition raise {A} (e : exn) : M A := λ w, (Raise e, w).

Definition emit (e : event) : M unit :=
  λ w, (Ok (), {| heap := heap w; trace := trace w ++ [e] |}).

Definition get_heap : M Heap := λ w, (Ok (heap w), w).

Definition modify_heap (f : Heap → Heap) : M unit :=
  λ w, (Ok (), {| heap := f (heap w); trace := trace w |}).

(** [if c: body]. *)
Definition when (c : bool) (body : M unit) : M unit :=
  if c then body else mret ().

(** [for x in xs: body]. *)
Fixpoint for_each {A} (xs : list A) (body : A → M unit) : M unit :=
  match xs with
  | [] => mret ()
  | x :: rest => body x ;; for_each rest body
  end.

(** Following a reference. *)
Definition deref {A} (cells : Heap → gmap loc A) (l : loc) : M A :=
  h ← get_heap;
  match cells h !! l with
  | Some a => mret a
  | None => raise NoSuchObject
  end.

Definition deref_opt {A} (cells : Heap → gmap loc A) (l : option loc) : M (option A) :=
  match l with
  | Some l => a ← deref cells l; mret (Some a)
  | None => mret None
  end.

(** ** External collaborators

    Everything the converter imports and calls: the host parsing context,
    the validation methods of the configuration classes, the default
    constructors [ExecutionConfig()] and [RenderConfig()], the selector
    parser, the project-graph loader and the graph builder.  They are
    oracles: a validation either passes or raises, the loader either raises
    or yields nodes.  None of them is given the means to write the store. *)
Record Externals := {
  parsing_context_dag_id : option string;
  validate_project : ProjectConfig → option exn;
  validate_profiles_yml : ProfileConfig → option exn;
  new_ExecutionConfig : ExecutionConfig;
  new_RenderConfig : RenderConfig;
  retrieve_by_label : list string → string → gset string;
  dbt_graph_load : Heap → GraphRequest → exn + Nodes;
  build_airflow_graph : Heap → BuildRequest → option exn
}.

(** ** migrate_to_new_interface *)

(** [copy.deepcopy] of a configuration object: a new cell, never one that
    is in use, holding an equal record. *)
Definition deepcopy_render (r : loc) : M loc :=
  v ← deref renders r;
  h ← get_heap;
  let l := fresh (dom (renders h)) in
  modify_heap (set_renders (insert l v));;
  mret l.

Definition deepcopy_execution (e : loc) : M loc :=
  v ← deref executions e;
  h ← get_heap;
  let l := fresh (dom (executions h)) in
  modify_heap (set_executions (insert l v));;
  mret l.

Definition with_render_project_path (p : option string) (r : RenderConfig) : RenderConfig :=
  {| render_project_path := p; select := select r; exclude := exclude r;
     render_env_vars := render_env_vars r; load_method := load_method r;
     emit_datasets := emit_datasets r |}.

Definition with_execution_project_path (p : option string) (e : ExecutionConfig) : ExecutionConfig :=
  {| execution_mode := execution_mode e; execution_project_path := p;
     dbt_executable_path := dbt_executable_path e;
     invocation_mode := invocation_mode e;
     test_indirect_selection := test_indirect_selection e |}.

(** [obj.project_path = p]. *)
Definition set_render_project_path (r : loc) (p : option string) : M unit :=
  v ← deref renders r;
  modify_heap (set_renders (insert r (with_render_project_path p v))).

Definition set_execution_project_path (e : loc) (p : option string) : M unit :=
  v ← deref executions e;
  modify_heap (set_executions (insert e (with_execution_project_path p v))).

Definition migrate_to_new_interface
    (execution_config project_config render_config : loc) : M (loc * loc) :=
  render_config ← deepcopy_render render_config;
  execution_config ← deepcopy_execution execution_config;
  project ← deref projects project_config;
  set_render_project_path render_config (dbt_project_path project);;
  project ← deref projects project_config;
  set_execution_project_path execution_config (dbt_project_path project);;
  mret (execution_config, render_config).

(** ** specific_kwargs and airflow_kwargs *)

(** [inspect.getfullargspec(DbtToAirflowConverter.__init__).args]: the named
    parameters of the constructor (lines 199-209), [self] first; the starred
    parameters are reported apart and are not among them. *)
Definition specific_args_keys : list string :=
  ["self"; "project_config"; "profile_config"; "execution_config"; "render_config";
   "dag"; "task_group"; "operator_args"; "on_warning_callback"; "parse_all_dags"].

(** The loop over [kwargs.items()] that copies the entries whose key is a
    named parameter of the constructor.  The values are never looked at. *)
Definition specific_kwargs {V} (kwargs : gmap string V) : gmap string V :=
  map_fold
    (λ arg_key arg_value new_kwargs,
       if bool_decide (arg_key ∈ specific_args_keys)
       then <[arg_key := arg_value]> new_kwargs
       else new_kwargs)
    ∅ kwargs.

(** The loop that keeps the entries whose key is not among the specific
    ones of the same [kwargs], and the entry of ["dag"]. *)
Definition airflow_kwargs {V} (kwargs : gmap string V) : gmap string V :=
  let non_airflow_kwargs := specific_kwargs kwargs in
  map_fold
    (λ arg_key arg_value new_kwargs,
       if negb (bool_decide (is_Some (non_airflow_kwargs !! arg_key)))
          || String.eqb arg_key "dag"
       then <[arg_key := arg_value]> new_kwargs
       else new_kwargs)
    ∅ kwargs.

(** ** validate_arguments *)

(** [s[:-1]]: the string without its last character.  The code takes this
    slice of the two attribute names of the loop, which are ASCII; a
    character of a [string] is a byte here. *)
Fixpoint drop_last (s : string) : string :=
  match s with
  | EmptyString => EmptyString
  | String c EmptyString => EmptyString
  | String c rest => String c (drop_last rest)
  end.

(** The labels the selector check walks over, [("tags", "paths")]. *)
Definition watched_fields : list string := ["tags"; "paths"].

(** [set(select_items).intersection(exclude_items)], each item through
    [str]; the selector parser already yields the items' strings. *)
Definition selector_intersection (ext : Externals)
    (select exclude : list string) (field : string) : gset string :=
  let select_items := retrieve_by_label ext select field in
  let exclude_items := retrieve_by_label ext exclude field in
  select_items ∩ exclude_items.

(** The body of the loop over the watched labels. *)
Definition check_field (ext : Externals)
    (select exclude : list string) (field : string) : M unit :=
  let intersection := selector_intersection ext select exclude field in
  when (negb (bool_decide (intersection = ∅)))
    (raise (CosmosValueError (SameInSelectAndExclude (drop_last field) intersection))).

(** The first statement of [validate_arguments]: the selector validation. *)
Definition validate_selectors (ext : Externals) (select exclude : list string) : M unit :=
  for_each watched_fields (check_field ext select exclude).

Definition with_profile_arg (k : string) (v : value) (p : ProfileConfig) : ProfileConfig :=
  {| profile_name := profile_name p; target_name := target_name p;
     profile_mapping :=
       (λ m, {| profile_args := <[k := v]> (profile_args m) |}) <$> profile_mapping p |}.

(** [profile_config.profile_mapping.profile_args[k] = v], in place.  A
    profile config holds its mapping by value: a mapping object shared by
    two profile configs is outside this model. *)
Definition set_profile_arg (p : loc) (k : string) (v : value) : M unit :=
  modify_heap (set_profiles (alter (with_profile_arg k v) p)).

Definition schema_deprecated : string :=
  "Specifying a schema in the `task_args` is deprecated. Please use the `profile_args` instead.".

(** [profile_config.validate_profiles_yml()]. *)
Definition call_validate_profiles_yml (ext : Externals) (profile_config : option loc) : M unit :=
  match profile_config with
  | None => raise (AttributeError "validate_profiles_yml")
  | Some p =>
      profile ← deref profiles p;
      emit (ValidateProfilesYml p);;
      match validate_profiles_yml ext profile with
      | Some e => raise e
      | None => mret ()
      end
  end.

Definition validate_arguments (ext : Externals)
    (select exclude : list string) (profile_config : option loc)
    (task_args : gmap string value) (execution_mode : ExecutionMode) : M unit :=
  validate_selectors ext select exclude;;
  when (dict_contains task_args "schema")
    (emit (LoggerWarning schema_deprecated);;
     match profile_config with
     | None => raise (AttributeError "profile_mapping")
     | Some p =>
         profile ← deref profiles p;
         when (bool_decide (is_Some (profile_mapping profile)))
           (set_profile_arg p "schema" (dict_get task_args "schema"))
     end);;
  when (bool_decide (execution_mode ∈ [LOCAL; VIRTUALENV]))
    (call_validate_profiles_yml ext profile_config).

(** ** validate_initial_user_config *)

Definition is_set {A} (x : option A) : bool :=
  match x with Some _ => true | None => false end.

Definition is_none {A} (x : option A) : bool :=
  match x with Some _ => false | None => true end.

(** The five statements of the function, in source order. *)

(** Lines 116-120: a profile is mandatory outside KUBERNETES and DOCKER. *)
Definition check_profile_config
    (execution_config : ExecutionConfig) (profile_config : option ProfileConfig) : M unit :=
  when (is_none profile_config
        && negb (bool_decide (execution_mode execution_config ∈ [KUBERNETES; DOCKER])))
    (raise (CosmosValueError (ProfileConfigMandatory (execution_mode execution_config)))).

(** Lines 124-128: only one project-path interface may be in use. *)
Definition check_project_path_interface
    (project_config : ProjectConfig) (render_config : RenderConfig)
    (execution_config : ExecutionConfig) : M unit :=
  when (is_set (dbt_project_path project_config)
        && (is_set (render_project_path render_config)
            || is_set (execution_project_path execution_config)))
    (raise (CosmosValueError ProjectPathMutuallyExclusive)).

(** Lines 132-140: the deprecated ["env"] operator argument. *)
Definition check_operator_args_env
    (project_config : ProjectConfig) (operator_args : gmap string value) : M unit :=
  when (dict_contains operator_args "env")
    (emit (Warn OperatorArgsEnv);;
     when (truthy (of_dict (project_env_vars project_config)))
       (raise (CosmosValueError EnvMutuallyExclusive))).

(** Lines 141-149: the deprecated ["vars"] operator argument. *)
Definition check_operator_args_vars
    (project_config : ProjectConfig) (operator_args : gmap string value) : M unit :=
  when (dict_contains operator_args "vars")
    (emit (Warn OperatorArgsVars);;
     when (truthy (of_dict (dbt_vars project_config)))
       (raise (CosmosValueError VarsMutuallyExclusive))).

(** Lines 151-155: [env_vars] given on both the project and the render config. *)
Definition check_env_vars_channels
    (project_config : ProjectConfig) (render_config : RenderConfig) : M unit :=
  when (truthy (of_dict (project_env_vars project_config))
        && truthy (of_dict (render_env_vars render_config)))
    (raise (CosmosValueError BothEnvVarsProvided)).

Definition validate_initial_user_config
    (execution_config : ExecutionConfig) (profile_config : option ProfileConfig)
    (project_config : ProjectConfig) (render_config : RenderConfig)
    (operator_args : gmap string value) : M unit :=
  check_profile_config execution_config profile_config;;
  check_project_path_interface project_config render_config execution_config;;
  check_operator_args_env project_config operator_args;;
  check_operator_args_vars project_config operator_args;;
  check_env_vars_channels project_config render_config.

(** ** validate_adapted_user_config *)

Definition validate_adapted_user_config
    (execution_config : option ExecutionConfig) (project_config : ProjectConfig)
    (render_config : option RenderConfig) : M unit :=
  match execution_config with
  | None => raise (AttributeError "project_path")
  | Some execution_config =>
      when (negb (is_set (execution_project_path execution_config)))
        (raise (CosmosValueError ExecutionProjectPathRequired))
  end;;
  when (negb (is_set (manifest_path project_config)))
    match render_config with
    | None => raise (AttributeError "project_path")
    | Some render_config =>
        when (negb (is_set (render_project_path render_config)))
          (raise (CosmosValueError RenderProjectPathRequired))
    end.

(** ** DbtToAirflowConverter.__init__ *)

(** How the constructor ends when it does not raise: by the early [return],
    or after the builder ran, with [self.dbt_graph] loaded. *)
Inductive outcome :=
  | Skipped
  | Built (dbt_graph : Nodes).

(** [ExecutionConfig()] and [RenderConfig()]: a new object in a new cell. *)
Definition alloc_execution (v : ExecutionConfig) : M loc :=
  h ← get_heap;
  let l := fresh (dom (executions h)) in
  modify_heap (set_executions (insert l v));;
  mret l.

Definition alloc_render (v : RenderConfig) : M loc :=
  h ← get_heap;
  let l := fresh (dom (renders h)) in
  modify_heap (set_renders (insert l v));;
  mret l.

(** [project_config.validate_project()]. *)
Definition call_validate_project (ext : Externals) (project_config : loc) : M unit :=
  project ← deref projects project_config;
  emit (ValidateProject project_config);;
  match validate_project ext project with
  | Some e => raise e
  | None => mret ()
  end.

(** [DbtGraph(...)] followed by [.load(...)]. *)
Definition call_dbt_graph_load (ext : Externals) (req : GraphRequest) : M Nodes :=
  emit (DbtGraphLoad req);;
  h ← get_heap;
  match dbt_graph_load ext h req with
  | inl e => raise e
  | inr nodes => mret nodes
  end.

(** [build_airflow_graph(...)]. *)
Definition call_build_airflow_graph (ext : Externals) (req : BuildRequest) : M unit :=
  emit (BuildAirflowGraph req);;
  h ← get_heap;
  match build_airflow_graph ext h req with
  | Some e => raise e
  | None => mret ()
  end.

(** The effective maps: [project_config.env_vars or operator_args.get("env")]
    and [project_config.dbt_vars or operator_args.get("vars")]. *)
Definition effective_env_vars (project_config : ProjectConfig)
    (operator_args : gmap string value) : value :=
  py_or (of_dict (project_env_vars project_config)) (dict_get operator_args "env").

Definition effective_dbt_vars (project_config : ProjectConfig)
    (operator_args : gmap string value) : value :=
  py_or (of_dict (dbt_vars project_config)) (dict_get operator_args "vars").

(** The [task_args] dictionary: the display [{**operator_args, ...}], whose
    later entries replace earlier ones, and the two conditional stores. *)
Definition task_args_of (operator_args : gmap string value)
    (execution_config : ExecutionConfig) (project_config : ProjectConfig)
    (profile_config : option loc) (render_config : RenderConfig)
    (env_vars dbt_vars : value) : gmap string value :=
  let task_args :=
    <["vars" := dbt_vars]>
    (<["env" := env_vars]>
    (<["emit_datasets" := VBool (emit_datasets render_config)]>
    (<["profile_config" := of_profile profile_config]>
    (<["partial_parse" := VBool (partial_parse project_config)]>
    (<["project_dir" := of_path (execution_project_path execution_config)]>
     operator_args))))) in
  let task_args :=
    if truthy (dbt_executable_path execution_config)
    then <["dbt_executable_path" := dbt_executable_path execution_config]> task_args
    else task_args in
  let task_args :=
    if is_set (invocation_mode execution_config)
    then <["invocation_mode" := of_invocation (invocation_mode execution_config)]> task_args
    else task_args in
  task_args.

(** [dag.dag_id != current_dag_id and current_dag_id is not None], under
    [if not parse_all_dags]. *)
Definition not_the_parsed_dag (ext : Externals) (parse_all_dags : bool) (dag : DAG) : bool :=
  negb parse_all_dags
  && (let current_dag_id := parsing_context_dag_id ext in
      negb (bool_decide (Some (dag_id dag) = current_dag_id)) && is_set current_dag_id).

(** Lines 234-297 of the constructor: from the initial validation to the
    builder, once the optional arguments have their defaults. *)
Definition convert_with (ext : Externals)
    (project_config : loc) (profile_config : option loc)
    (execution_config render_config : loc)
    (dag : DAG) (task_group : option TaskGroup)
    (operator_args : gmap string value)
    (on_warning_callback : option string) : M outcome :=
  execution ← deref executions execution_config;
  profile ← deref_opt profiles profile_config;
  project ← deref projects project_config;
  render ← deref renders render_config;
  validate_initial_user_config execution profile project render operator_args;;
  '(execution_config, render_config) ←
    (if is_set (dbt_project_path project)
     then migrate_to_new_interface execution_config project_config render_config
     else mret (execution_config, render_config));
  execution ← deref executions execution_config;
  render ← deref renders render_config;
  validate_adapted_user_config (Some execution) project (Some render);;
  let env_vars := effective_env_vars project operator_args in
  let dbt_vars := effective_dbt_vars project operator_args in
  nodes ← call_dbt_graph_load ext
    {| gr_project := project_config; gr_render_config := render_config;
       gr_execution_config := execution_config; gr_profile_config := profile_config;
       gr_dbt_vars := dbt_vars; gr_method := load_method render;
       gr_execution_mode := execution_mode execution |};
  let task_args :=
    task_args_of operator_args execution project profile_config render env_vars dbt_vars in
  validate_arguments ext (select render) (exclude render) profile_config task_args
    (execution_mode execution);;
  call_build_airflow_graph ext
    {| br_nodes := nodes; br_dag := dag; br_task_group := task_group;
       br_execution_mode := execution_mode execution; br_task_args := task_args;
       br_test_indirect_selection := test_indirect_selection execution;
       br_dbt_project_name := project_name project;
       br_on_warning_callback := on_warning_callback;
       br_render_config := render_config |};;
  mret (Built nodes).

(** The constructor after the early-return test (lines 228-232, then the
    rest): project validation and the defaults of the optional arguments. *)
Definition convert (ext : Externals)
    (project_config : loc) (profile_config execution_config render_config : option loc)
    (dag : DAG) (task_group : option TaskGroup)
    (operator_args : option (gmap string value))
    (on_warning_callback : option string) : M outcome :=
  call_validate_project ext project_config;;
  execution_config ←
    match execution_config with
    | Some l => mret l
    | None => alloc_execution (new_ExecutionConfig ext)
    end;
  render_config ←
    match render_config with
    | Some l => mret l
    | None => alloc_render (new_RenderConfig ext)
    end;
  let operator_args := default ∅ operator_args in
  convert_with ext project_config profile_config execution_config render_config
    dag task_group operator_args on_warning_callback.

(** [if not dag and task_group: dag = task_group.dag]. *)
Definition resolve_dag (dag : option DAG) (task_group : option TaskGroup) : option DAG :=
  match dag, task_group with
  | None, Some tg => task_group_dag tg
  | _, _ => dag
  end.

Definition DbtToAirflowConverter_init (ext : Externals)
    (project_config : loc) (profile_config execution_config render_config : option loc)
    (dag : option DAG) (task_group : option TaskGroup)
    (operator_args : option (gmap string value))
    (on_warning_callback : option string) (parse_all_dags : bool) : M outcome :=
  match resolve_dag dag task_group with
  | None => raise (CosmosValueError EitherDagOrTaskGroup)
  | Some dag =>
      if not_the_parsed_dag ext parse_all_dags dag
      then mret Skipped
      else convert ext project_config profile_config execution_config render_config
             dag task_group operator_args on_warning_callback
  end.

(** ** A concrete environment, for running the model *)

(** [strip_prefix p s] is [Some rest] when [s = p ++ rest]. *)
Fixpoint strip_prefix (p s : string) : option string :=
  match p, s with
  | EmptyString, _ => Some s
  | String a p', String b s' => if Ascii.eqb a b then strip_prefix p' s' else None
  | String _ _, EmptyString => None
  end.

(** Modelled from the spec: [cosmos.dbt.selector.retrieve_by_label], which
    is imported and not part of this module.  A selector item is a
    [label:value] string; the values under a label are those of the items
    carrying it.  The converter passes the plural attribute names ["tags"]
    and ["paths"], whose items are written [tag:...] and [path:...]. *)
Definition spec_retrieve_by_label (statement_list : list string) (label : string)
    : gset string :=
  list_to_set (omap (strip_prefix (drop_last label ++ ":")) statement_list).

Module Demo.

Definition execution0 : ExecutionConfig :=
  {| execution_mode := LOCAL; execution_project_path := None;
     dbt_executable_path := VStr "dbt"; invocation_mode := None;
     test_indirect_selection := "eager" |}.

Definition render0 : RenderConfig :=
  {| render_project_path := None; select := []; exclude := [];
     render_env_vars := None; load_method := "automatic";
     emit_datasets := true |}.

(** Every validation passes, the loader yields two nodes, the host is
    parsing the DAG [current]. *)
Definition ext (current : option string) : Externals :=
  {| parsing_context_dag_id := current;
     validate_project := λ _, None;
     validate_profiles_yml := λ _, None;
     new_ExecutionConfig := execution0;
     new_RenderConfig := render0;
     retrieve_by_label := spec_retrieve_by_label;
     dbt_graph_load := λ _ _, inr ["model.a"; "model.b"];
     build_airflow_graph := λ _ _, None |}.

Definition project (path : option string) (env : option (gmap string string))
    : ProjectConfig :=
  {| dbt_project_path := path; manifest_path := None; project_name := "jaffle_shop";
     project_env_vars := env; dbt_vars := None; partial_parse := true |}.

Definition profile : ProfileConfig :=
  {| profile_name := "default"; target_name := "dev";
     profile_mapping := Some {| profile_args := {[ "schema" := VStr "public" ]} |} |}.

Definition render (path : option string) (sel exc : list string) : RenderConfig :=
  {| render_project_path := path; select := sel; exclude := exc;
     render_env_vars := None; load_method := "automatic";
     emit_datasets := true |}.

(** A caller's store: one object of each class, at address 1. *)
Definition store (p : ProjectConfig) (r : RenderConfig) : Heap :=
  {| projects := {[ 1%positive := p ]};
     profiles := {[ 1%positive := profile ]};
     executions := {[ 1%positive := execution0 ]};
     renders := {[ 1%positive := r ]} |}.

Definition world (p : ProjectConfig) (r : RenderConfig) : World :=
  {| heap := store p r; trace := [] |}.

Definition my_dag : DAG := {| dag_id := "my_dag" |}.

End Demo.

(** Collaborators that fail. *)
Module Failing.

(** The project validation raises. *)
Definition project_validation : Externals :=
  {| parsing_context_dag_id := None;
     validate_project := λ _, Some (ExternalError "validate_project");
     validate_profiles_yml := λ _, None;
     new_ExecutionConfig := Demo.execution0;
     new_RenderConfig := Demo.render0;
     retrieve_by_label := spec_retrieve_by_label;
     dbt_graph_load := λ _ _, inr ["model.a"; "model.b"];
     build_airflow_graph := λ _ _, None |}.

(** The loader raises. *)
Definition loader : Externals :=
  {| parsing_context_dag_id := None;
     validate_project := λ _, None;
     validate_profiles_yml := λ _, None;
     new_ExecutionConfig := Demo.execution0;
     new_RenderConfig := Demo.render0;
     retrieve_by_label := spec_retrieve_by_label;
     dbt_graph_load := λ _ _, inl (ExternalError "load");
     build_airflow_graph := λ _ _, None |}.

End Failing.

(** ** Vocabulary of the statements *)

(** The run ended in a [CosmosValueError]. *)
Definition is_config_error {A} (r : result A) : Prop :=
  ∃ m, r = Raise (CosmosValueError m).

(** A field is "set" when Python takes it for true: an optional path that
    is there, an optional map that is there and not empty. *)
Definition map_set (d : option (gmap string string)) : Prop :=
  truthy (of_dict d) = true.

(** The events that are calls to the project-graph loader or the builder. *)
Definition graph_call (ev : event) : Prop :=
  match ev with
  | DbtGraphLoad _ | BuildAirflowGraph _ => True
  | _ => False
  end.

(** [w'] is [w] with the events [evs] added and the same store. *)
Definition logged (evs : list event) (w : World) : World :=
  {| heap := heap w; trace := trace w ++ evs |}.

(** The configurations the constructor works from: the caller's object, or
    the default one when the argument is [None]. *)
Definition caller_execution (ext : Externals) (h : Heap) (execution_config : option loc)
    : option ExecutionConfig :=
  match execution_config with
  | Some l => executions h !! l
  | None => Some (new_ExecutionConfig ext)
  end.

Definition caller_render (ext : Externals) (h : Heap) (render_config : option loc)
    : option RenderConfig :=
  match render_config with
  | Some l => renders h !! l
  | None => Some (new_RenderConfig ext)
  end.

Definition caller_profile (h : Heap) (profile_config : option loc)
    : option (option ProfileConfig) :=
  match profile_config with
  | Some l => Some <$> profiles h !! l
  | None => Some None
  end.

(** The configurations after [migrate_to_new_interface], which runs only
    when [project.dbt_project_path] is set. *)
Definition adapted_execution (project : ProjectConfig) (e : ExecutionConfig) : ExecutionConfig :=
  if is_set (dbt_project_path project)
  then with_execution_project_path (dbt_project_path project) e
  else e.

Definition adapted_render (project : ProjectConfig) (r : RenderConfig) : RenderConfig :=
  if is_set (dbt_project_path project)
  then with_render_project_path (dbt_project_path project) r
  else r.

(** What a call to the loader or the builder carries, in terms of the
    caller's objects in the store [h]: both validations passed on them, and
    the arguments are the ones computed from them. *)
Definition call_as_computed (ext : Externals)
    (project_config : loc) (profile_config execution_config render_config : option loc)
    (dag : DAG) (task_group : option TaskGroup) (operator_args : gmap string value)
    (on_warning_callback : option string) (h : Heap) (ev : event) : Prop :=
  ∃ project e0 r0 profile,
    projects h !! project_config = Some project
    ∧ caller_execution ext h execution_config = Some e0
    ∧ caller_render ext h render_config = Some r0
    ∧ caller_profile h profile_config = Some profile
    ∧ (∀ w, (validate_initial_user_config e0 profile project r0 operator_args w).1 = Ok ())
    ∧ (∀ w, (validate_adapted_user_config (Some (adapted_execution project e0)) project
               (Some (adapted_render project r0)) w).1 = Ok ())
    ∧ match ev with
      | DbtGraphLoad req =>
          gr_project req = project_config
          ∧ gr_profile_config req = profile_config
          ∧ gr_dbt_vars req = effective_dbt_vars project operator_args
          ∧ gr_method req = load_method (adapted_render project r0)
          ∧ gr_execution_mode req = execution_mode (adapted_execution project e0)
      | BuildAirflowGraph req =>
          br_dag req = dag
          ∧ br_task_group req = task_group
          ∧ br_execution_mode req = execution_mode (adapted_execution project e0)
          ∧ br_task_args req
            = task_args_of operator_args (adapted_execution project e0) project
                profile_config (adapted_render project r0)
                (effective_env_vars project operator_args)
                (effective_dbt_vars project operator_args)
          ∧ br_test_indirect_selection req
            = test_indirect_selection (adapted_execution project e0)
          ∧ br_dbt_project_name req = project_name project
          ∧ br_on_warning_callback req = on_warning_callback
      | _ => True
      end.

(** The one write to a caller's object: the ["schema"] operator argument
    folded into the profile mapping of the caller's profile config. *)
Definition schema_folded (profile_config : option loc) (operator_args : gmap string value)
    (before after : gmap loc ProfileConfig) : Prop :=
  ∃ l profile,
    profile_config = Some l
    ∧ is_Some (operator_args !! "schema")
    ∧ before !! l = Some profile
    ∧ is_Some (profile_mapping profile)
    ∧ after = <[l := with_profile_arg "schema" (dict_get operator_args "schema") profile]> before.

(** How a run may change the world: events [evs] are added, each satisfying
    [ok]; no project changes; execution and render configs are only added;
    the profile configs are related by [pr]. *)
Definition evolves (ok : event → Prop)
    (pr : gmap loc ProfileConfig → gmap loc ProfileConfig → Prop)
    (w w' : World) : Prop :=
  ∃ evs,
    trace w' = (trace w ++ evs)%list
    ∧ Forall ok evs
    ∧ projects (heap w') = projects (heap w)
    ∧ executions (heap w) ⊆ executions (heap w')
    ∧ renders (heap w) ⊆ renders (heap w')
    ∧ pr (profiles (heap w)) (profiles (heap w')).

(** The keys the constructor writes into the task arguments. *)
Definition canonical_keys : list string :=
  ["project_dir"; "partial_parse"; "profile_config"; "emit_datasets"; "env"; "vars";
   "dbt_executable_path"; "invocation_mode"].

(** The run of the constructor from the adapted validation on, written out:
    the adapted configurations [execution] and [render] sit at [e'] and
    [r'] in the world [w2]. *)
Definition from_adapted_validation (ext : Externals)
    (project_config : loc) (profile_config : option loc)
    (dag : DAG) (task_group : option TaskGroup) (operator_args : gmap string value)
    (on_warning_callback : option string)
    (project : ProjectConfig) (execution : ExecutionConfig) (render : RenderConfig)
    (e' r' : loc) (w2 : World) : result outcome * World :=
  match validate_adapted_user_config (Some execution) project (Some render) w2 with
  | (Raise err, _) => (Raise err, w2)
  | (Ok _, _) =>
    let load :=
      {| gr_project := project_config; gr_render_config := r';
         gr_execution_config := e'; gr_profile_config := profile_config;
         gr_dbt_vars := effective_dbt_vars project operator_args;
         gr_method := load_method render;
         gr_execution_mode := execution_mode execution |} in
    match dbt_graph_load ext (heap w2) load with
    | inl err => (Raise err, logged [DbtGraphLoad load] w2)
    | inr nodes =>
      let task_args :=
        task_args_of operator_args execution project profile_config render
          (effective_env_vars project operator_args)
          (effective_dbt_vars project operator_args) in
      match validate_arguments ext (select render) (exclude render) profile_config
              task_args (execution_mode execution)
              (logged [DbtGraphLoad load] w2) with
      | (Raise err, w3) => (Raise err, w3)
      | (Ok _, w3) =>
        let build :=
          {| br_nodes := nodes; br_dag := dag; br_task_group := task_group;
             br_execution_mode := execution_mode execution;
             br_task_args := task_args;
             br_test_indirect_selection := test_indirect_selection execution;
             br_dbt_project_name := project_name project;
             br_on_warning_callback := on_warning_callback;
             br_render_config := r' |} in
        (match build_airflow_graph ext (heap w3) build with
         | Some err => Raise err
         | None => Ok (Built nodes)
         end, logged [BuildAirflowGraph build] w3)
      end
    end
  end.

(** The request the constructor hands to the loader: the arguments of
    [DbtGraph(...)] and of its [load], with the adapted configurations at
    [e'] and [r']. *)
Definition loader_request (project_config : loc) (profile_config : option loc)
    (project : ProjectConfig) (execution : ExecutionConfig) (render : RenderConfig)
    (operator_args : gmap string value) (e' r' : loc) : GraphRequest :=
  {| gr_project := project_config; gr_render_config := r';
     gr_execution_config := e'; gr_profile_config := profile_config;
     gr_dbt_vars := effective_dbt_vars project operator_args;
     gr_method := load_method render;
     gr_execution_mode := execution_mode execution |}.

(** The bundle the constructor hands to [build_airflow_graph]. *)
Definition builder_request (profile_config : option loc)
    (dag : DAG) (task_group : option TaskGroup) (operator_args : gmap string value)
    (on_warning_callback : option string)
    (project : ProjectConfig) (execution : ExecutionConfig) (render : RenderConfig)
    (r' : loc) (nodes : Nodes) : BuildRequest :=
  {| br_nodes := nodes; br_dag := dag; br_task_group := task_group;
     br_execution_mode := execution_mode execution;
     br_task_args :=
       task_args_of operator_args execution project profile_config render
         (effective_env_vars project operator_args)
         (effective_dbt_vars project operator_args);
     br_test_indirect_selection := test_indirect_selection execution;
     br_dbt_project_name := project_name project;
     br_on_warning_callback := on_warning_callback;
     br_render_config := r' |}.

(** What [validate_arguments] needs of the profile config once the selectors
    have passed.  With a profile config: in the modes LOCAL and VIRTUALENV,
    that [validate_profiles_yml] accepts it as the schema step leaves it
    (the one call that is made).  Without one: that the arguments hold no
    ["schema"]. *)
Definition profile_accepted (ext : Externals) (mode : ExecutionMode)
    (task_args : gmap string value) (profile : option ProfileConfig) : Prop :=
  match profile with
  | Some pr =>
      mode = LOCAL ∨ mode = VIRTUALENV →
      validate_profiles_yml ext
        (if dict_contains task_args "schema"
         then with_profile_arg "schema" (dict_get task_args "schema") pr
         else pr) = None
  | None => task_args !! "schema" = None
  end.

(** * Properties *)

Ltac unfold_monad :=
  cbv [mbind M_bind mret M_ret raise emit when get_heap modify_heap logged] in *.

Lemma logged_nil w : logged [] w = w.
Proof. destruct w; unfold logged; simpl. by rewrite app_nil_r. Qed.

Lemma map_set_spec d : map_set d ↔ ∃ m, d = Some m ∧ m ≠ ∅.
Proof.
  unfold map_set. destruct d as [m|]; simpl.
  - rewrite negb_true_iff, bool_decide_eq_false. naive_solver.
  - naive_solver.
Qed.

Lemma is_set_true {A} (x : option A) : is_set x = true ↔ is_Some x.
Proof. destruct x; simpl; split; (done || by inversion 1 || eauto). Qed.

Lemma is_set_false {A} (x : option A) : is_set x = false ↔ x = None.
Proof. by destruct x. Qed.

(** *** validate_adapted_user_config *)

(** C7: after migration, the adapted validation ends in a [CosmosValueError]
    exactly when [execution.project_path] is unset, or the project has no
    manifest path and [render.project_path] is unset; otherwise it passes.
    Either way it leaves the store and the trace alone. *)
Theorem validate_adapted_user_config_raises_iff
    (execution : ExecutionConfig) (project : ProjectConfig) (render : RenderConfig)
    (w : World) :
  let run := validate_adapted_user_config (Some execution) project (Some render) w in
  let unresolved :=
    execution_project_path execution = None
    ∨ (manifest_path project = None ∧ render_project_path render = None) in
  (is_config_error (run.1) ↔ unresolved)
  ∧ (run.1 = Ok () ↔ ¬ unresolved)
  ∧ run.2 = w.
Proof.
  unfold validate_adapted_user_config, is_config_error. unfold_monad.
  destruct (execution_project_path execution), (manifest_path project),
    (render_project_path render); simpl; naive_solver.
Qed.

(** The error names the field that is missing. *)
Lemma validate_adapted_user_config_message
    (execution : ExecutionConfig) (project : ProjectConfig) (render : RenderConfig)
    (w : World) (m : message) :
  (validate_adapted_user_config (Some execution) project (Some render) w).1
    = Raise (CosmosValueError m) →
  (m = ExecutionProjectPathRequired ∧ execution_project_path execution = None)
  ∨ (m = RenderProjectPathRequired ∧ manifest_path project = None
     ∧ render_project_path render = None).
Proof.
  unfold validate_adapted_user_config. unfold_monad.
  destruct (execution_project_path execution), (manifest_path project),
    (render_project_path render); simpl; naive_solver.
Qed.

Example validate_adapted_user_config_witness :
  let run := validate_adapted_user_config (Some Demo.execution0)
               (Demo.project (Some "/p") None) (Some Demo.render0)
               (Demo.world (Demo.project (Some "/p") None) Demo.render0) in
  is_config_error (run.1).
Proof.
  apply (validate_adapted_user_config_raises_iff Demo.execution0
           (Demo.project (Some "/p") None) Demo.render0).
  left. reflexivity.
Defined.

(** *** validate_initial_user_config *)

(** The function never touches the store: it only adds warnings. *)
Lemma validate_initial_user_config_heap execution profile project render operator_args w :
  heap (validate_initial_user_config execution profile project render operator_args w).2
  = heap w.
Proof.
  unfold validate_initial_user_config, check_profile_config,
    check_project_path_interface, check_operator_args_env,
    check_operator_args_vars, check_env_vars_channels.
  unfold_monad.
  repeat (case_match; simpl in *; simplify_eq; try done).
Qed.

(** Its verdict does not depend on the world it runs in. *)
Lemma validate_initial_user_config_verdict execution profile project render operator_args w1 w2 :
  (validate_initial_user_config execution profile project render operator_args w1).1
  = (validate_initial_user_config execution profile project render operator_args w2).1.
Proof.
  unfold validate_initial_user_config, check_profile_config,
    check_project_path_interface, check_operator_args_env,
    check_operator_args_vars, check_env_vars_channels.
  unfold_monad.
  repeat (case_match; simpl in *; simplify_eq; try done).
Qed.

(** C4: the missing-profile error is raised exactly when no profile config
    is given and the execution mode is neither KUBERNETES nor DOCKER; it is
    the first check, so nothing has been emitted by then.  With KUBERNETES
    or DOCKER and no profile config the check passes. *)
Theorem profile_config_mandatory_iff
    (execution : ExecutionConfig) (profile : option ProfileConfig)
    (project : ProjectConfig) (render : RenderConfig)
    (operator_args : gmap string value) (w : World) :
  let run := validate_initial_user_config execution profile project render operator_args w in
  let mode := execution_mode execution in
  let missing := profile = None ∧ mode ≠ KUBERNETES ∧ mode ≠ DOCKER in
  ((∃ m, run.1 = Raise (CosmosValueError (ProfileConfigMandatory m))) ↔ missing)
  ∧ (run = (Raise (CosmosValueError (ProfileConfigMandatory mode)), w) ↔ missing)
  ∧ (check_profile_config execution profile w = (Ok (), w) ↔ ¬ missing).
Proof.
  unfold validate_initial_user_config, check_profile_config,
    check_project_path_interface, check_operator_args_env,
    check_operator_args_vars, check_env_vars_channels.
  unfold_monad. simpl.
  destruct profile as [pf|]; simpl.
  - split_and!; [split|split|split]; try naive_solver.
    + intros [m Hm]. repeat (case_match; simpl in *; simplify_eq).
    + intros Hm. repeat (case_match; simpl in *; simplify_eq).
  - case_bool_decide as Hmode; simpl.
    + assert (execution_mode execution = KUBERNETES ∨ execution_mode execution = DOCKER)
        as Hkd by set_solver.
      split_and!; [split|split|split]; try naive_solver.
      * intros [m Hm]. repeat (case_match; simpl in *; simplify_eq).
      * intros Hm. repeat (case_match; simpl in *; simplify_eq).
    + assert (execution_mode execution ≠ KUBERNETES ∧ execution_mode execution ≠ DOCKER)
        as Hkd by set_solver.
      split_and!; [split|split|split]; try naive_solver.
Qed.

Example profile_config_mandatory_witness :
  validate_initial_user_config Demo.execution0 None (Demo.project None None)
    Demo.render0 ∅ (Demo.world (Demo.project None None) Demo.render0)
  = (Raise (CosmosValueError (ProfileConfigMandatory LOCAL)),
     Demo.world (Demo.project None None) Demo.render0).
Proof.
  apply (profile_config_mandatory_iff Demo.execution0 None (Demo.project None None)
           Demo.render0 ∅).
  repeat split; discriminate.
Defined.

Lemma dict_contains_spec (d : gmap string value) (k : string) :
  dict_contains d k = true ↔ is_Some (d !! k).
Proof. unfold dict_contains. apply bool_decide_eq_true. Qed.

Ltac unfold_initial :=
  unfold validate_initial_user_config, check_profile_config,
    check_project_path_interface, check_operator_args_env,
    check_operator_args_vars, check_env_vars_channels, is_config_error, map_set in *;
  unfold_monad.

Lemma logged_neq ev evs w : logged (ev :: evs) w ≠ w.
Proof.
  intros Hw. apply (f_equal (λ x, length (trace x))) in Hw. simpl in Hw.
  rewrite length_app in Hw. simpl in Hw. lia.
Qed.

Lemma logged_logged evs1 evs2 w : logged evs2 (logged evs1 w) = logged (evs1 ++ evs2) w.
Proof. unfold logged. simpl. by rewrite <- app_assoc. Qed.

Lemma check_operator_args_env_run project operator_args w :
  check_operator_args_env project operator_args w =
  if dict_contains operator_args "env"
  then (if truthy (of_dict (project_env_vars project))
        then Raise (CosmosValueError EnvMutuallyExclusive) else Ok (),
        logged [Warn OperatorArgsEnv] w)
  else (Ok (), w).
Proof. unfold_initial. by repeat case_match. Qed.

Lemma check_operator_args_vars_run project operator_args w :
  check_operator_args_vars project operator_args w =
  if dict_contains operator_args "vars"
  then (if truthy (of_dict (dbt_vars project))
        then Raise (CosmosValueError VarsMutuallyExclusive) else Ok (),
        logged [Warn OperatorArgsVars] w)
  else (Ok (), w).
Proof. unfold_initial. by repeat case_match. Qed.

Lemma check_env_vars_channels_run project render w :
  check_env_vars_channels project render w =
  (if truthy (of_dict (project_env_vars project))
      && truthy (of_dict (render_env_vars render))
   then Raise (CosmosValueError BothEnvVarsProvided) else Ok (), w).
Proof. unfold_initial. by repeat case_match. Qed.

Lemma check_profile_config_run execution profile w :
  check_profile_config execution profile w =
  (if is_none profile
      && negb (bool_decide (execution_mode execution ∈ [KUBERNETES; DOCKER]))
   then Raise (CosmosValueError (ProfileConfigMandatory (execution_mode execution)))
   else Ok (), w).
Proof. unfold_initial. by repeat case_match. Qed.

Lemma check_project_path_interface_run project render execution w :
  check_project_path_interface project render execution w =
  (if is_set (dbt_project_path project)
      && (is_set (render_project_path render)
          || is_set (execution_project_path execution))
   then Raise (CosmosValueError ProjectPathMutuallyExclusive) else Ok (), w).
Proof. unfold_initial. by repeat case_match. Qed.

(** Sequencing, as equations. *)
Lemma bind_run {A B} (m : M A) (f : A → M B) w :
  (m ≫= f) w =
  match m w with
  | (Ok a, w') => f a w'
  | (Raise e, w') => (Raise e, w')
  end.
Proof. reflexivity. Qed.

Lemma ret_run {A} (a : A) (w : World) : (mret a : M A) w = (Ok a, w).
Proof. reflexivity. Qed.

Lemma validate_initial_user_config_unfold execution profile project render operator_args w :
  validate_initial_user_config execution profile project render operator_args w =
  match check_profile_config execution profile w with
  | (Raise e, w1) => (Raise e, w1)
  | (Ok _, w1) =>
    match check_project_path_interface project render execution w1 with
    | (Raise e, w2) => (Raise e, w2)
    | (Ok _, w2) =>
      match check_operator_args_env project operator_args w2 with
      | (Raise e, w3) => (Raise e, w3)
      | (Ok _, w3) =>
        match check_operator_args_vars project operator_args w3 with
        | (Raise e, w4) => (Raise e, w4)
        | (Ok _, w4) => check_env_vars_channels project render w4
        end
      end
    end
  end.
Proof.
  reflexivity.
Qed.

(** C6: in the initial validation the key ["env"] of the operator arguments
    is fatal exactly when [project.env_vars] is set too, and ["vars"] exactly
    when [project.dbt_vars] is set too; a deprecated key without its
    counterpart only leaves a deprecation warning; [project.env_vars]
    together with [render.env_vars] is fatal.  Stated for each check, and
    for the whole function: a conflict always ends in a [CosmosValueError],
    each of the three errors comes from its own conflict only, and with no
    conflict the function returns, having emitted the warning of every
    deprecated key that is present. *)
Theorem deprecated_operator_args_fatal_iff
    (execution : ExecutionConfig) (profile : option ProfileConfig)
    (project : ProjectConfig) (render : RenderConfig)
    (operator_args : gmap string value) (w : World) :
  let run := validate_initial_user_config execution profile project render operator_args w in
  let env_given := is_Some (operator_args !! "env") in
  let vars_given := is_Some (operator_args !! "vars") in
  let env_conflict := env_given ∧ map_set (project_env_vars project) in
  let vars_conflict := vars_given ∧ map_set (dbt_vars project) in
  let both_env_vars := map_set (project_env_vars project) ∧ map_set (render_env_vars render) in
  (* the check of "env" *)
  ((check_operator_args_env project operator_args w
      = (Raise (CosmosValueError EnvMutuallyExclusive), logged [Warn OperatorArgsEnv] w)
    ↔ env_conflict)
   ∧ (check_operator_args_env project operator_args w = (Ok (), logged [Warn OperatorArgsEnv] w)
      ↔ env_given ∧ ¬ map_set (project_env_vars project))
   ∧ (check_operator_args_env project operator_args w = (Ok (), w) ↔ ¬ env_given))
  (* the check of "vars" *)
  ∧ ((check_operator_args_vars project operator_args w
        = (Raise (CosmosValueError VarsMutuallyExclusive), logged [Warn OperatorArgsVars] w)
      ↔ vars_conflict)
     ∧ (check_operator_args_vars project operator_args w
          = (Ok (), logged [Warn OperatorArgsVars] w)
        ↔ vars_given ∧ ¬ map_set (dbt_vars project))
     ∧ (check_operator_args_vars project operator_args w = (Ok (), w) ↔ ¬ vars_given))
  (* the check of the two env_vars channels *)
  ∧ (check_env_vars_channels project render w
       = (Raise (CosmosValueError BothEnvVarsProvided), w) ↔ both_env_vars)
  (* the whole validation: every conflict is fatal *)
  ∧ (env_conflict ∨ vars_conflict ∨ both_env_vars → is_config_error (run.1))
  (* each error has its own cause *)
  ∧ (run.1 = Raise (CosmosValueError EnvMutuallyExclusive) → env_conflict)
  ∧ (run.1 = Raise (CosmosValueError VarsMutuallyExclusive) → vars_conflict)
  ∧ (run.1 = Raise (CosmosValueError BothEnvVarsProvided) → both_env_vars)
  (* without a conflict, past the profile and path checks: warnings only *)
  ∧ (check_profile_config execution profile w = (Ok (), w) →
     check_project_path_interface project render execution w = (Ok (), w) →
     ¬ env_conflict → ¬ vars_conflict → ¬ both_env_vars →
     run = (Ok (),
            logged ((if dict_contains operator_args "env" then [Warn OperatorArgsEnv] else [])
                    ++ (if dict_contains operator_args "vars" then [Warn OperatorArgsVars] else []))
                   w)).
Proof.
  cbv zeta. rewrite <- !dict_contains_spec. unfold map_set, is_config_error.
  rewrite validate_initial_user_config_unfold.
  rewrite check_profile_config_run, check_project_path_interface_run.
  rewrite check_operator_args_env_run, check_env_vars_channels_run.
  pose proof (logged_neq (Warn OperatorArgsEnv) [] w) as Hne1.
  pose proof (logged_neq (Warn OperatorArgsVars) [] w) as Hne2.
  split_and!.
  - destruct (dict_contains operator_args "env"),
      (truthy (of_dict (project_env_vars project))); intuition congruence.
  - destruct (dict_contains operator_args "env"),
      (truthy (of_dict (project_env_vars project))); intuition congruence.
  - destruct (dict_contains operator_args "env"),
      (truthy (of_dict (project_env_vars project))); intuition congruence.
  - rewrite check_operator_args_vars_run.
    destruct (dict_contains operator_args "vars"),
      (truthy (of_dict (dbt_vars project))); intuition congruence.
  - rewrite check_operator_args_vars_run.
    destruct (dict_contains operator_args "vars"),
      (truthy (of_dict (dbt_vars project))); intuition congruence.
  - rewrite check_operator_args_vars_run.
    destruct (dict_contains operator_args "vars"),
      (truthy (of_dict (dbt_vars project))); intuition congruence.
  - destruct (truthy (of_dict (project_env_vars project))),
      (truthy (of_dict (render_env_vars render))); simpl; intuition congruence.
  - intros Hconflict.
    destruct (is_none profile && _); [eauto|].
    destruct (is_set (dbt_project_path project) && _); [eauto|].
    destruct (dict_contains operator_args "env") eqn:He,
      (truthy (of_dict (project_env_vars project))) eqn:Hpe; simpl; eauto.
    all: rewrite check_operator_args_vars_run, ?check_env_vars_channels_run.
    all: destruct (dict_contains operator_args "vars") eqn:Hv,
      (truthy (of_dict (dbt_vars project))) eqn:Hpv; simpl; eauto.
    all: rewrite ?check_env_vars_channels_run, ?Hpe; simpl.
    all: destruct (truthy (of_dict (render_env_vars render))) eqn:Hre; simpl; eauto.
    all: exfalso; intuition congruence.
  - destruct (is_none profile && _); [done|].
    destruct (is_set (dbt_project_path project) && _); [done|].
    destruct (dict_contains operator_args "env") eqn:He,
      (truthy (of_dict (project_env_vars project))) eqn:Hpe; simpl; eauto.
    all: rewrite check_operator_args_vars_run, ?check_env_vars_channels_run.
    all: destruct (dict_contains operator_args "vars") eqn:Hv,
      (truthy (of_dict (dbt_vars project))) eqn:Hpv; simpl; try done.
    all: rewrite ?check_env_vars_channels_run, ?Hpe; simpl; try done.
    all: destruct (truthy (of_dict (render_env_vars render))) eqn:Hre; simpl; done.
  - destruct (is_none profile && _); [done|].
    destruct (is_set (dbt_project_path project) && _); [done|].
    destruct (dict_contains operator_args "env") eqn:He,
      (truthy (of_dict (project_env_vars project))) eqn:Hpe; simpl; try done.
    all: rewrite check_operator_args_vars_run, ?check_env_vars_channels_run.
    all: destruct (dict_contains operator_args "vars") eqn:Hv,
      (truthy (of_dict (dbt_vars project))) eqn:Hpv; simpl; try done.
    all: rewrite ?check_env_vars_channels_run, ?Hpe; simpl; try done.
    all: destruct (truthy (of_dict (render_env_vars render))) eqn:Hre; simpl; done.
  - destruct (is_none profile && _); [done|].
    destruct (is_set (dbt_project_path project) && _); [done|].
    destruct (dict_contains operator_args "env") eqn:He,
      (truthy (of_dict (project_env_vars project))) eqn:Hpe; simpl; try done.
    all: rewrite check_operator_args_vars_run, ?check_env_vars_channels_run.
    all: destruct (dict_contains operator_args "vars") eqn:Hv,
      (truthy (of_dict (dbt_vars project))) eqn:Hpv; simpl; try done.
    all: rewrite ?check_env_vars_channels_run, ?Hpe; simpl; try done.
    all: destruct (truthy (of_dict (render_env_vars render))) eqn:Hre; simpl; done.
  - destruct (is_none profile && _); [done|].
    destruct (is_set (dbt_project_path project) && _); [done|].
    intros _ _.
    destruct (dict_contains operator_args "env") eqn:He,
      (truthy (of_dict (project_env_vars project))) eqn:Hpe; simpl;
      try (intros []; done).
    all: rewrite check_operator_args_vars_run, ?check_env_vars_channels_run.
    all: destruct (dict_contains operator_args "vars") eqn:Hv,
      (truthy (of_dict (dbt_vars project))) eqn:Hpv; simpl;
      try (intros _ []; done).
    all: rewrite ?check_env_vars_channels_run, ?Hpe; simpl.
    all: destruct (truthy (of_dict (render_env_vars render))) eqn:Hre; simpl;
      try (intros _ _ []; done).
    all: intros _ _ _; rewrite ?logged_logged, ?logged_nil; done.
Qed.

Example deprecated_operator_args_witness :
  is_config_error
    (validate_initial_user_config Demo.execution0 (Some Demo.profile)
       (Demo.project None (Some {[ "B" := "2" ]})) Demo.render0
       {[ "env" := VDict {[ "A" := "1" ]} ]}
       (Demo.world (Demo.project None (Some {[ "B" := "2" ]})) Demo.render0)).1.
Proof.
  apply (deprecated_operator_args_fatal_iff Demo.execution0 (Some Demo.profile)
           (Demo.project None (Some {[ "B" := "2" ]})) Demo.render0
           {[ "env" := VDict {[ "A" := "1" ]} ]}).
  left. split; [by eexists | reflexivity].
Defined.

(** *** Selector validation *)

(** The loop over the watched labels stops at the first one that conflicts. *)
Lemma validate_selectors_unfold ext select exclude w :
  validate_selectors ext select exclude w =
  match check_field ext select exclude "tags" w with
  | (Ok _, w1) =>
      match check_field ext select exclude "paths" w1 with
      | (Ok _, w2) => (Ok (), w2)
      | (Raise e, w2) => (Raise e, w2)
      end
  | (Raise e, w1) => (Raise e, w1)
  end.
Proof.
  unfold validate_selectors, watched_fields. simpl. rewrite !bind_run.
  destruct (check_field ext select exclude "tags" w) as [[[]|e] w1]; [|done].
  rewrite bind_run.
  by destruct (check_field ext select exclude "paths" w1) as [[[]|e] w2].
Qed.

Lemma check_field_run ext select exclude field w :
  check_field ext select exclude field w =
  (if bool_decide (selector_intersection ext select exclude field = ∅)
   then Ok ()
   else Raise (CosmosValueError
                 (SameInSelectAndExclude (drop_last field)
                    (selector_intersection ext select exclude field))), w).
Proof. unfold check_field. unfold_monad. by case_bool_decide. Qed.

(** C8: for the select and exclude lists and each watched label (["tags"],
    named [tag] in the message, then ["paths"], named [path]), the selector
    validation takes the values retrieved under the label from both lists
    and intersects them.  A non-empty intersection raises the
    [CosmosValueError] that names the label and the intersecting values;
    the labels are tried in order, so the error is that of the first label
    in conflict.  When the values are disjoint under every watched label the
    validation passes.  Nothing else happens either way. *)
Theorem validate_selectors_intersection
    (ext : Externals) (select exclude : list string) (w : World) :
  let common field :=
    retrieve_by_label ext select field ∩ retrieve_by_label ext exclude field in
  (* what is computed under a label *)
  (∀ field x, x ∈ selector_intersection ext select exclude field
      ↔ x ∈ retrieve_by_label ext select field ∧ x ∈ retrieve_by_label ext exclude field)
  (* one turn of the loop *)
  ∧ (∀ field, field ∈ watched_fields →
       (common field ≠ ∅ →
        check_field ext select exclude field w
        = (Raise (CosmosValueError (SameInSelectAndExclude (drop_last field) (common field))), w))
       ∧ (common field = ∅ → check_field ext select exclude field w = (Ok (), w)))
  (* the whole loop *)
  ∧ (common "tags" ≠ ∅ →
     validate_selectors ext select exclude w
     = (Raise (CosmosValueError (SameInSelectAndExclude "tag" (common "tags"))), w))
  ∧ (common "tags" = ∅ → common "paths" ≠ ∅ →
     validate_selectors ext select exclude w
     = (Raise (CosmosValueError (SameInSelectAndExclude "path" (common "paths"))), w))
  ∧ (validate_selectors ext select exclude w = (Ok (), w)
     ↔ ∀ field, field ∈ watched_fields → common field = ∅)
  ∧ (is_config_error (validate_selectors ext select exclude w).1
     ↔ ∃ field, field ∈ watched_fields ∧ common field ≠ ∅).
Proof.
  cbv zeta.
  assert (∀ P : string → Prop,
            (∀ field, field ∈ watched_fields → P field) ↔ P "tags" ∧ P "paths") as Hall.
  { intros P. unfold watched_fields. split.
    - intros H. split; apply H; set_solver.
    - intros [Ht Hp] field Hf.
      apply elem_of_cons in Hf as [->|Hf]; [done|].
      apply elem_of_cons in Hf as [->|Hf]; [done|]. by apply elem_of_nil in Hf. }
  assert (∀ P : string → Prop,
            (∃ field, field ∈ watched_fields ∧ P field) ↔ P "tags" ∨ P "paths") as Hex.
  { intros P. unfold watched_fields. split.
    - intros (field & Hf & HP).
      apply elem_of_cons in Hf as [->|Hf]; [by left|].
      apply elem_of_cons in Hf as [->|Hf]; [by right|]. by apply elem_of_nil in Hf.
    - intros [H|H]; eexists; (split; [|exact H]); set_solver. }
  split; [intros field x; apply elem_of_intersection|].
  split.
  { intros field Hf. rewrite check_field_run. unfold selector_intersection.
    case_bool_decide; split; intros; congruence. }
  rewrite Hall, Hex. rewrite validate_selectors_unfold, !check_field_run.
  unfold selector_intersection, is_config_error. simpl.
  split_and!.
  - intros Ht. by rewrite bool_decide_eq_false_2.
  - intros Ht Hp. by rewrite bool_decide_eq_true_2, bool_decide_eq_false_2.
  - repeat case_bool_decide; split; intros; destruct_and?; simplify_eq; done.
  - repeat case_bool_decide; split.
    all: try (intros [m Hm]; simplify_eq; tauto).
    all: try (intros [|]; done).
    all: intros _; eauto.
Qed.

Example validate_selectors_witness :
  validate_selectors (Demo.ext None) ["tag:nightly"; "path:models/a"] ["tag:nightly"]
    (Demo.world (Demo.project None None) Demo.render0)
  = (Raise (CosmosValueError
       (SameInSelectAndExclude "tag"
          (retrieve_by_label (Demo.ext None) ["tag:nightly"; "path:models/a"] "tags"
           ∩ retrieve_by_label (Demo.ext None) ["tag:nightly"] "tags"))),
     Demo.world (Demo.project None None) Demo.render0).
Proof.
  apply (validate_selectors_intersection (Demo.ext None)
           ["tag:nightly"; "path:models/a"] ["tag:nightly"]).
  vm_compute. discriminate.
Defined.

(** *** Running the primitives *)

Lemma deref_run {A} (cells : Heap → gmap loc A) l w :
  deref cells l w =
  match cells (heap w) !! l with
  | Some a => (Ok a, w)
  | None => (Raise NoSuchObject, w)
  end.
Proof. unfold deref. unfold_monad. by destruct (cells (heap w) !! l). Qed.

Lemma deref_opt_run {A} (cells : Heap → gmap loc A) l w :
  deref_opt cells l w =
  match l with
  | None => (Ok None, w)
  | Some l =>
      match cells (heap w) !! l with
      | Some a => (Ok (Some a), w)
      | None => (Raise NoSuchObject, w)
      end
  end.
Proof.
  destruct l as [l|]; [|done]. unfold deref_opt. rewrite bind_run, deref_run.
  by destruct (cells (heap w) !! l).
Qed.

(** *** migrate_to_new_interface *)

(** The migration, run on a store that holds its three arguments: two new
    cells, the copies with the project's path written into them. *)
Lemma migrate_to_new_interface_run e p r w execution project render :
  executions (heap w) !! e = Some execution →
  projects (heap w) !! p = Some project →
  renders (heap w) !! r = Some render →
  let e' := fresh (dom (executions (heap w))) in
  let r' := fresh (dom (renders (heap w))) in
  migrate_to_new_interface e p r w =
  (Ok (e', r'),
   {| heap :=
        {| projects := projects (heap w);
           profiles := profiles (heap w);
           executions :=
             <[e' := with_execution_project_path (dbt_project_path project) execution]>
               (executions (heap w));
           renders :=
             <[r' := with_render_project_path (dbt_project_path project) render]>
               (renders (heap w)) |};
      trace := trace w |}).
Proof.
  intros He Hp Hr. cbv zeta.
  unfold migrate_to_new_interface, deepcopy_render, deepcopy_execution,
    set_render_project_path, set_execution_project_path.
  rewrite !bind_run, deref_run, Hr. unfold_monad. simpl.
  rewrite deref_run. simpl. rewrite He. simpl.
  rewrite deref_run. simpl. rewrite Hp. simpl.
  rewrite deref_run. simpl. rewrite lookup_insert_eq. simpl.
  rewrite deref_run. simpl. rewrite Hp. simpl.
  rewrite deref_run. simpl. rewrite lookup_insert_eq. simpl.
  unfold set_renders, set_executions. simpl.
  by rewrite !insert_insert_eq.
Qed.



(** *** How runs change the world *)

Lemma evolves_refl ok pr w : (∀ m, pr m m) → evolves ok pr w w.
Proof.
  intros Hpr. exists []. rewrite app_nil_r. split_and!; done.
Qed.

Lemma evolves_logged ok pr evs w :
  (∀ m, pr m m) → Forall ok evs → evolves ok pr w (logged evs w).
Proof. intros Hpr Hok. exists evs. simpl. split_and!; done. Qed.

Lemma evolves_eq_l ok pr w1 w2 w3 :
  evolves ok eq w1 w2 → evolves ok pr w2 w3 → evolves ok pr w1 w3.
Proof.
  intros (evs1 & Ht1 & Hok1 & Hp1 & He1 & Hr1 & Hpr1)
         (evs2 & Ht2 & Hok2 & Hp2 & He2 & Hr2 & Hpr2).
  exists (evs1 ++ evs2)%list. split_and!.
  - by rewrite Ht2, Ht1, app_assoc.
  - by apply Forall_app.
  - congruence.
  - by etrans.
  - by etrans.
  - by rewrite Hpr1.
Qed.

Lemma evolves_eq_r ok pr w1 w2 w3 :
  evolves ok pr w1 w2 → evolves ok eq w2 w3 → evolves ok pr w1 w3.
Proof.
  intros (evs1 & Ht1 & Hok1 & Hp1 & He1 & Hr1 & Hpr1)
         (evs2 & Ht2 & Hok2 & Hp2 & He2 & Hr2 & Hpr2).
  exists (evs1 ++ evs2)%list. split_and!.
  - by rewrite Ht2, Ht1, app_assoc.
  - by apply Forall_app.
  - congruence.
  - by etrans.
  - by etrans.
  - by rewrite <- Hpr2.
Qed.

Lemma evolves_weaken (ok ok' : event → Prop) pr pr' w w' :
  (∀ ev, ok ev → ok' ev) → (∀ a b, pr a b → pr' a b) →
  evolves ok pr w w' → evolves ok' pr' w w'.
Proof.
  intros Hok Hpr (evs & Ht & Hall & Hp & He & Hr & Hprof).
  exists evs. split_and!; try done; [|by apply Hpr].
  eapply Forall_impl; [exact Hall|]. done.
Qed.

Lemma evolves_eq ok (pr : gmap loc ProfileConfig → gmap loc ProfileConfig → Prop) w w' :
  (∀ m, pr m m) → evolves ok eq w w' → evolves ok pr w w'.
Proof. intros Hpr. apply evolves_weaken; [done|]. by intros a b ->. Qed.

Lemma validate_initial_user_config_logged execution profile project render operator_args w :
  ∃ evs,
    (validate_initial_user_config execution profile project render operator_args w).2
    = logged evs w
    ∧ Forall (λ ev, ¬ graph_call ev) evs.
Proof.
  rewrite validate_initial_user_config_unfold.
  rewrite check_profile_config_run, check_project_path_interface_run.
  destruct (is_none profile && _); [exists []; by rewrite logged_nil|].
  destruct (is_set (dbt_project_path project) && _); [exists []; by rewrite logged_nil|].
  rewrite check_operator_args_env_run.
  destruct (dict_contains operator_args "env"),
    (truthy (of_dict (project_env_vars project))); simpl.
  all: try (eexists; split; [reflexivity|]; repeat constructor; by intros []).
  all: rewrite check_operator_args_vars_run.
  all: destruct (dict_contains operator_args "vars"),
    (truthy (of_dict (dbt_vars project))); simpl.
  all: rewrite ?check_env_vars_channels_run; simpl; rewrite ?logged_logged.
  all: try (eexists; split; [reflexivity|]; repeat constructor; by intros []).
  all: exists []; by rewrite logged_nil.
Qed.

Lemma validate_adapted_user_config_world execution project render w :
  (validate_adapted_user_config execution project render w).2 = w.
Proof.
  unfold validate_adapted_user_config. unfold_monad.
  repeat (case_match; simpl in *; simplify_eq; try done).
Qed.

Lemma validate_selectors_world ext select exclude w :
  (validate_selectors ext select exclude w).2 = w.
Proof.
  rewrite validate_selectors_unfold, !check_field_run.
  by repeat case_bool_decide.
Qed.

Lemma alter_as_insert {A} (f : A → A) (m : gmap loc A) l x :
  m !! l = Some x → alter f l m = <[l := f x]> m.
Proof.
  intros Hl. apply map_eq. intros i. destruct (decide (l = i)) as [->|Hne].
  - by rewrite lookup_alter_eq, lookup_insert_eq, Hl.
  - by rewrite lookup_alter_ne, lookup_insert_ne.
Qed.

Lemma call_validate_profiles_yml_run ext profile_config w :
  call_validate_profiles_yml ext profile_config w =
  match profile_config with
  | None => (Raise (AttributeError "validate_profiles_yml"), w)
  | Some p =>
      match profiles (heap w) !! p with
      | None => (Raise NoSuchObject, w)
      | Some profile =>
          (match validate_profiles_yml ext profile with
           | Some e => Raise e
           | None => Ok ()
           end, logged [ValidateProfilesYml p] w)
      end
  end.
Proof.
  unfold call_validate_profiles_yml. destruct profile_config as [p|]; [|done].
  rewrite bind_run, deref_run. destruct (profiles (heap w) !! p); [|done].
  unfold_monad. by destruct (validate_profiles_yml ext _).
Qed.

Lemma evolves_bind_l {A B} ok pr (m : M A) (f : A → M B) w :
  (∀ x, pr x x) →
  evolves ok eq w (m w).2 → (∀ a w1, evolves ok pr w1 (f a w1).2) →
  evolves ok pr w ((m ≫= f) w).2.
Proof.
  intros Hpr Hm Hf. rewrite bind_run. specialize (Hf).
  destruct (m w) as [[a|e] w1]; simpl in *.
  - eapply evolves_eq_l; [exact Hm|apply Hf].
  - by apply evolves_eq.
Qed.

Lemma evolves_bind_r {A B} ok pr (m : M A) (f : A → M B) w :
  evolves ok pr w (m w).2 → (∀ a w1, evolves ok eq w1 (f a w1).2) →
  evolves ok pr w ((m ≫= f) w).2.
Proof.
  intros Hm Hf. rewrite bind_run.
  destruct (m w) as [[a|e] w1]; simpl in *.
  - eapply evolves_eq_r; [exact Hm|apply Hf].
  - done.
Qed.

(** [validate_arguments] calls neither the loader nor the builder, and
    writes nothing but the ["schema"] entry of the profile arguments. *)
Lemma validate_arguments_evolves ext select exclude profile_config task_args mode w :
  evolves (λ ev, ¬ graph_call ev)
    (λ a b, b = a ∨ schema_folded profile_config task_args a b)
    w (validate_arguments ext select exclude profile_config task_args mode w).2.
Proof.
  unfold validate_arguments.
  apply evolves_bind_l; [by left| |intros _ w1].
  { rewrite validate_selectors_world. by apply evolves_refl. }
  apply evolves_bind_r; [|intros _ w2].
  - unfold when. destruct (dict_contains task_args "schema") eqn:Hschema.
    2:{ apply evolves_refl. by left. }
    apply dict_contains_spec in Hschema.
    rewrite bind_run. unfold emit at 1.
    destruct profile_config as [p|].
    2:{ simpl. apply (evolves_logged _ _ [_]); [by left|].
        repeat constructor. by intros []. }
    rewrite bind_run, deref_run. simpl.
    destruct (profiles (heap w1) !! p) as [profile|] eqn:Hp.
    2:{ simpl. apply (evolves_logged _ _ [_]); [by left|].
        repeat constructor. by intros []. }
    case_bool_decide as Hmap.
    2:{ simpl. apply (evolves_logged _ _ [_]); [by left|].
        repeat constructor. by intros []. }
    unfold set_profile_arg, modify_heap. simpl.
    exists [LoggerWarning schema_deprecated]. simpl. split_and!; try done.
    + repeat constructor. by intros [].
    + right. exists p, profile. split_and!; try done.
      by apply alter_as_insert.
  - unfold when. case_bool_decide; [|by apply evolves_refl].
    rewrite call_validate_profiles_yml_run.
    destruct profile_config as [p|]; [|by apply evolves_refl].
    destruct (profiles (heap w2) !! p); [|by apply evolves_refl].
    simpl. apply evolves_logged; [done|]. repeat constructor. by intros [].
Qed.

(** *** The constructor, step by step *)

Lemma call_validate_project_run ext project_config w :
  call_validate_project ext project_config w =
  match projects (heap w) !! project_config with
  | None => (Raise NoSuchObject, w)
  | Some project =>
      (match validate_project ext project with
       | Some e => Raise e
       | None => Ok ()
       end, logged [ValidateProject project_config] w)
  end.
Proof.
  unfold call_validate_project. rewrite bind_run, deref_run.
  destruct (projects (heap w) !! project_config); [|done].
  unfold_monad. by destruct (validate_project ext _).
Qed.

Lemma call_dbt_graph_load_run ext req w :
  call_dbt_graph_load ext req w =
  (match dbt_graph_load ext (heap w) req with
   | inl e => Raise e
   | inr nodes => Ok nodes
   end, logged [DbtGraphLoad req] w).
Proof.
  unfold call_dbt_graph_load. unfold_monad. simpl.
  by destruct (dbt_graph_load ext (heap w) req).
Qed.

Lemma call_build_airflow_graph_run ext req w :
  call_build_airflow_graph ext req w =
  (match build_airflow_graph ext (heap w) req with
   | Some e => Raise e
   | None => Ok ()
   end, logged [BuildAirflowGraph req] w).
Proof.
  unfold call_build_airflow_graph. unfold_monad. simpl.
  by destruct (build_airflow_graph ext (heap w) req).
Qed.

Lemma validate_adapted_user_config_verdict execution project render w1 w2 :
  (validate_adapted_user_config execution project render w1).1
  = (validate_adapted_user_config execution project render w2).1.
Proof.
  unfold validate_adapted_user_config. unfold_monad.
  repeat (case_match; simpl in *; simplify_eq; try done).
Qed.

Lemma task_args_of_other operator_args execution project profile_config render env vars k :
  k ∉ canonical_keys →
  task_args_of operator_args execution project profile_config render env vars !! k
  = operator_args !! k.
Proof.
  unfold canonical_keys. intros Hk.
  assert (k ≠ "project_dir" ∧ k ≠ "partial_parse" ∧ k ≠ "profile_config"
          ∧ k ≠ "emit_datasets" ∧ k ≠ "env" ∧ k ≠ "vars"
          ∧ k ≠ "dbt_executable_path" ∧ k ≠ "invocation_mode") as Hne.
  { split_and!; intros ->; apply Hk; set_solver. }
  destruct_and!. unfold task_args_of.
  destruct (truthy _), (is_set _); by rewrite !lookup_insert_ne.
Qed.

Lemma schema_folded_task_args operator_args execution project profile_config render env vars a b :
  schema_folded profile_config
    (task_args_of operator_args execution project profile_config render env vars) a b →
  schema_folded profile_config operator_args a b.
Proof.
  assert ("schema" ∉ canonical_keys) as Hk.
  { unfold canonical_keys. intros Hin. repeat (apply elem_of_cons in Hin as [?|Hin]; [done|]).
    by apply elem_of_nil in Hin. }
  unfold schema_folded, dict_get. rewrite task_args_of_other; done.
Qed.

Lemma fresh_lookup_None {A} (m : gmap loc A) : m !! fresh (dom m) = None.
Proof. apply not_elem_of_dom. apply is_fresh. Qed.

(** From the initial validation on: every call to the loader or the builder
    carries the computed arguments, and the store changes by new cells and
    the folded schema only. *)
Lemma convert_with_evolves ext project_config profile_config e_ref r_ref
    dag task_group operator_args on_warning_callback w :
  evolves
    (λ ev, graph_call ev →
       call_as_computed ext project_config profile_config (Some e_ref) (Some r_ref)
         dag task_group operator_args on_warning_callback (heap w) ev)
    (λ a b, b = a ∨ schema_folded profile_config operator_args a b)
    w
    (convert_with ext project_config profile_config e_ref r_ref dag task_group
       operator_args on_warning_callback w).2.
Proof.
  set (OK := λ ev, graph_call ev → call_as_computed _ _ _ _ _ _ _ _ _ (heap w) ev).
  set (PR := λ a b : gmap loc ProfileConfig, b = a ∨ schema_folded _ operator_args a b).
  assert (∀ x, PR x x) as HPR by (by left).
  unfold convert_with.
  rewrite bind_run, deref_run.
  destruct (executions (heap w) !! e_ref) as [e0|] eqn:He; [|by apply evolves_refl].
  rewrite bind_run.
  pose proof (deref_opt_run profiles profile_config w) as Hd.
  destruct (deref_opt profiles profile_config w) as [[profile|err] w'].
  2:{ assert (w' = w) as ->; [|by apply evolves_refl].
      destruct profile_config as [p|]; [destruct (profiles (heap w) !! p)|];
        by simplify_eq. }
  assert (w' = w ∧ caller_profile (heap w) profile_config = Some profile)
    as [-> Hprofile].
  { destruct profile_config as [p|]; simpl; [destruct (profiles (heap w) !! p)|];
      by simplify_eq. }
  clear Hd.
  rewrite bind_run, deref_run.
  destruct (projects (heap w) !! project_config) as [project|] eqn:Hp;
    [|by apply evolves_refl].
  rewrite bind_run, deref_run.
  destruct (renders (heap w) !! r_ref) as [r0|] eqn:Hr; [|by apply evolves_refl].
  rewrite bind_run.
  destruct (validate_initial_user_config_logged e0 profile project r0 operator_args w)
    as (evs0 & Hw0 & Hevs0).
  assert (evolves OK eq w (logged evs0 w)) as Hstep0.
  { apply evolves_logged; [done|]. eapply Forall_impl; [exact Hevs0|].
    intros ev Hev Hg. done. }
  destruct (validate_initial_user_config e0 profile project r0 operator_args w)
    as [[[]|err] w1] eqn:Hinit; simpl in Hw0; subst w1; [|by apply evolves_eq].
  assert (∀ w', (validate_initial_user_config e0 profile project r0 operator_args w').1 = Ok ())
    as Hinit_ok.
  { intros w'. rewrite (validate_initial_user_config_verdict _ _ _ _ _ w' w).
    by rewrite Hinit. }
  eapply evolves_eq_l; [exact Hstep0|].
  (* migration or not: the adapted configurations sit at the current references *)
  rewrite bind_run.
  assert (∃ e' r' w2,
    (if is_set (dbt_project_path project)
     then migrate_to_new_interface e_ref project_config r_ref
     else mret (e_ref, r_ref)) (logged evs0 w) = (Ok (e', r'), w2)
    ∧ evolves OK eq (logged evs0 w) w2
    ∧ executions (heap w2) !! e' = Some (adapted_execution project e0)
    ∧ renders (heap w2) !! r' = Some (adapted_render project r0)) as (e' & r' & w2 & -> & Hstep1 & He' & Hr').
  { unfold adapted_execution, adapted_render.
    destruct (is_set (dbt_project_path project)).
    - rewrite (migrate_to_new_interface_run _ _ _ _ e0 project r0) by done.
      eexists _, _, _. split; [reflexivity|]. simpl. split_and!.
      + exists []. simpl. rewrite app_nil_r. split_and!; try done.
        * apply insert_subseteq, fresh_lookup_None.
        * apply insert_subseteq, fresh_lookup_None.
      + by rewrite lookup_insert_eq.
      + by rewrite lookup_insert_eq.
    - eexists _, _, _. split; [reflexivity|]. split_and!; try done.
      by apply evolves_refl. }
  cbv beta iota.
  eapply evolves_eq_l; [exact Hstep1|].
  rewrite bind_run, deref_run, He'. rewrite bind_run, deref_run, Hr'.
  rewrite bind_run.
  pose proof (validate_adapted_user_config_world (Some (adapted_execution project e0))
                project (Some (adapted_render project r0)) w2) as Hw3.
  destruct (validate_adapted_user_config _ project _ w2) as [[[]|err] w3] eqn:Hadapted;
    simpl in Hw3; subst w3; [|by apply evolves_refl].
  assert (∀ w', (validate_adapted_user_config (Some (adapted_execution project e0))
                   project (Some (adapted_render project r0)) w').1 = Ok ())
    as Hadapted_ok.
  { intros w'. rewrite (validate_adapted_user_config_verdict _ _ _ w' w2).
    by rewrite Hadapted. }
  assert (∀ ev, match ev with
                | DbtGraphLoad req =>
                    gr_project req = project_config
                    ∧ gr_profile_config req = profile_config
                    ∧ gr_dbt_vars req = effective_dbt_vars project operator_args
                    ∧ gr_method req = load_method (adapted_render project r0)
                    ∧ gr_execution_mode req = execution_mode (adapted_execution project e0)
                | BuildAirflowGraph req =>
                    br_dag req = dag
                    ∧ br_task_group req = task_group
                    ∧ br_execution_mode req = execution_mode (adapted_execution project e0)
                    ∧ br_task_args req
                      = task_args_of operator_args (adapted_execution project e0) project
                          profile_config (adapted_render project r0)
                          (effective_env_vars project operator_args)
                          (effective_dbt_vars project operator_args)
                    ∧ br_test_indirect_selection req
                      = test_indirect_selection (adapted_execution project e0)
                    ∧ br_dbt_project_name req = project_name project
                    ∧ br_on_warning_callback req = on_warning_callback
                | _ => True
                end → OK ev) as HOK.
  { intros ev Hev _. exists project, e0, r0, profile. split_and!; done. }
  rewrite bind_run, call_dbt_graph_load_run.
  match goal with
  | |- context [logged [DbtGraphLoad ?req] w2] =>
      apply (evolves_eq_l _ _ _ (logged [DbtGraphLoad req] w2))
  end.
  { apply evolves_logged; [done|].
    constructor; [|done]. apply HOK. split_and!; reflexivity. }
  destruct (dbt_graph_load ext (heap w2) _) as [err|nodes]; [by apply evolves_refl|].
  rewrite bind_run.
  match goal with
  | |- context [validate_arguments ?a ?b ?c ?d ?e ?f ?g] =>
      pose proof (validate_arguments_evolves a b c d e f g) as Hva;
      destruct (validate_arguments a b c d e f g) as [[[]|err] w4]
  end; simpl in Hva.
  all: apply (evolves_weaken _ OK _ PR) in Hva;
    [|by intros ev Hev Hg
     |intros a b [->|Hf]; [by left|right; by eapply schema_folded_task_args]].
  2: done.
  eapply evolves_eq_r; [exact Hva|].
  rewrite bind_run, call_build_airflow_graph_run.
  assert (evolves OK eq w4 (logged [BuildAirflowGraph
    {| br_nodes := nodes; br_dag := dag; br_task_group := task_group;
       br_execution_mode := execution_mode (adapted_execution project e0);
       br_task_args :=
         task_args_of operator_args (adapted_execution project e0) project
           profile_config (adapted_render project r0)
           (effective_env_vars project operator_args)
           (effective_dbt_vars project operator_args);
       br_test_indirect_selection := test_indirect_selection (adapted_execution project e0);
       br_dbt_project_name := project_name project;
       br_on_warning_callback := on_warning_callback;
       br_render_config := r' |}] w4)) as Hbuild.
  { apply evolves_logged; [done|]. constructor; [|done]. apply HOK.
    split_and!; reflexivity. }
  by destruct (build_airflow_graph ext (heap w4) _).
Qed.

Lemma alloc_execution_run v w :
  alloc_execution v w =
  (Ok (fresh (dom (executions (heap w)))),
   {| heap := set_executions (insert (fresh (dom (executions (heap w)))) v) (heap w);
      trace := trace w |}).
Proof. reflexivity. Qed.

Lemma alloc_render_run v w :
  alloc_render v w =
  (Ok (fresh (dom (renders (heap w)))),
   {| heap := set_renders (insert (fresh (dom (renders (heap w)))) v) (heap w);
      trace := trace w |}).
Proof. reflexivity. Qed.

Lemma call_as_computed_transport ext project_config profile_config ec rc ec' rc'
    dag task_group operator_args on_warning_callback h h' ev :
  projects h' = projects h → profiles h' = profiles h →
  caller_execution ext h' ec' = caller_execution ext h ec →
  caller_render ext h' rc' = caller_render ext h rc →
  call_as_computed ext project_config profile_config ec' rc' dag task_group
    operator_args on_warning_callback h' ev →
  call_as_computed ext project_config profile_config ec rc dag task_group
    operator_args on_warning_callback h ev.
Proof.
  intros Hp Hpf He Hr (project & e0 & r0 & profile & H1 & H2 & H3 & H4 & H5).
  exists project, e0, r0, profile.
  unfold caller_profile in *. rewrite Hp, He, Hr, Hpf in *. done.
Qed.

(** The constructor past the early return. *)
Lemma convert_evolves ext project_config profile_config execution_config render_config
    dag task_group operator_args on_warning_callback w :
  evolves
    (λ ev, graph_call ev →
       call_as_computed ext project_config profile_config execution_config render_config
         dag task_group (default ∅ operator_args) on_warning_callback (heap w) ev)
    (λ a b, b = a ∨ schema_folded profile_config (default ∅ operator_args) a b)
    w
    (convert ext project_config profile_config execution_config render_config
       dag task_group operator_args on_warning_callback w).2.
Proof.
  set (OK := λ ev, graph_call ev → call_as_computed _ _ _ _ _ _ _ _ _ (heap w) ev).
  set (PR := λ a b : gmap loc ProfileConfig, b = a ∨ schema_folded _ _ a b).
  assert (∀ x, PR x x) as HPR by (by left).
  unfold convert. rewrite bind_run, call_validate_project_run.
  destruct (projects (heap w) !! project_config) as [project|] eqn:Hp;
    [|by apply evolves_refl].
  assert (evolves OK eq w (logged [ValidateProject project_config] w)) as Hstep0.
  { apply evolves_logged; [done|]. constructor; [|done]. by intros []. }
  destruct (validate_project ext project) as [err|]; [by apply evolves_eq|].
  eapply evolves_eq_l; [exact Hstep0|]. clear Hstep0.
  set (w1 := logged [ValidateProject project_config] w).
  assert (heap w1 = heap w) as Hw1 by done. clearbody w1.
  rewrite bind_run.
  assert (∃ e_ref w2,
    match execution_config with
    | Some l => mret l
    | None => alloc_execution (new_ExecutionConfig ext)
    end w1 = (Ok e_ref, w2)
    ∧ evolves OK eq w1 w2
    ∧ renders (heap w2) = renders (heap w)
    ∧ profiles (heap w2) = profiles (heap w)
    ∧ caller_execution ext (heap w2) (Some e_ref) = caller_execution ext (heap w) execution_config)
    as (e_ref & w2 & -> & Hstep1 & Hr2 & Hpf2 & He2).
  { destruct execution_config as [l|].
    - exists l, w1. rewrite Hw1. split_and!; try done. by apply evolves_refl.
    - rewrite alloc_execution_run.
      eexists _, _. split; [reflexivity|]. simpl. rewrite Hw1. split_and!; try done.
      + exists []. simpl. rewrite app_nil_r, Hw1. split_and!; try done.
        apply insert_subseteq, fresh_lookup_None.
      + by rewrite lookup_insert_eq. }
  eapply evolves_eq_l; [exact Hstep1|].
  rewrite bind_run.
  assert (∃ r_ref w3,
    match render_config with
    | Some l => mret l
    | None => alloc_render (new_RenderConfig ext)
    end w2 = (Ok r_ref, w3)
    ∧ evolves OK eq w2 w3
    ∧ executions (heap w3) = executions (heap w2)
    ∧ profiles (heap w3) = profiles (heap w)
    ∧ caller_render ext (heap w3) (Some r_ref) = caller_render ext (heap w) render_config)
    as (r_ref & w3 & -> & Hstep2 & He3 & Hpf3 & Hr3).
  { destruct render_config as [l|].
    - exists l, w2. simpl. rewrite Hr2. split_and!; try done. by apply evolves_refl.
    - rewrite alloc_render_run.
      eexists _, _. split; [reflexivity|]. simpl. split_and!; try done.
      + exists []. simpl. rewrite app_nil_r. split_and!; try done.
        apply insert_subseteq, fresh_lookup_None.
      + by rewrite lookup_insert_eq. }
  eapply evolves_eq_l; [exact Hstep2|].
  cbv zeta.
  eapply evolves_weaken; [| |apply convert_with_evolves]; [|done].
  intros ev Hev Hg. specialize (Hev Hg).
  eapply call_as_computed_transport; [| | | |exact Hev].
  - destruct Hstep1 as (_ & _ & _ & Hp1 & _), Hstep2 as (_ & _ & _ & Hp2 & _).
    rewrite Hp2, Hp1. by rewrite Hw1.
  - done.
  - simpl in *. by rewrite He3.
  - done.
Qed.

(** The whole constructor. *)
Lemma init_evolves ext project_config profile_config execution_config render_config
    dag task_group operator_args on_warning_callback parse_all_dags w :
  evolves
    (λ ev, graph_call ev →
       ∃ d, resolve_dag dag task_group = Some d
            ∧ not_the_parsed_dag ext parse_all_dags d = false
            ∧ call_as_computed ext project_config profile_config execution_config
                render_config d task_group (default ∅ operator_args)
                on_warning_callback (heap w) ev)
    (λ a b, b = a ∨ schema_folded profile_config (default ∅ operator_args) a b)
    w
    (DbtToAirflowConverter_init ext project_config profile_config execution_config
       render_config dag task_group operator_args on_warning_callback parse_all_dags w).2.
Proof.
  unfold DbtToAirflowConverter_init.
  destruct (resolve_dag dag task_group) as [d|]; [|apply evolves_refl; by left].
  destruct (not_the_parsed_dag ext parse_all_dags d) eqn:Hskip;
    [apply evolves_refl; by left|].
  eapply evolves_weaken; [| |apply convert_evolves]; [|done].
  intros ev Hev Hg. exists d. split_and!; try done. by apply Hev.
Qed.

(** Every event of a run is either old or satisfies what the run promises. *)
Lemma init_new_events ext project_config profile_config execution_config render_config
    dag task_group operator_args on_warning_callback parse_all_dags w ev :
  ev ∈ trace (DbtToAirflowConverter_init ext project_config profile_config
                execution_config render_config dag task_group operator_args
                on_warning_callback parse_all_dags w).2 →
  ev ∈ trace w
  ∨ (graph_call ev →
     ∃ d, resolve_dag dag task_group = Some d
          ∧ not_the_parsed_dag ext parse_all_dags d = false
          ∧ call_as_computed ext project_config profile_config execution_config
              render_config d task_group (default ∅ operator_args)
              on_warning_callback (heap w) ev).
Proof.
  destruct (init_evolves ext project_config profile_config execution_config
              render_config dag task_group operator_args on_warning_callback
              parse_all_dags w) as (evs & -> & Hok & _).
  intros [Hin|Hin]%elem_of_app; [by left|right].
  by apply (proj1 (Forall_forall _ _) Hok).
Qed.

Lemma task_args_of_canonical operator_args execution project profile_config render env vars :
  let task_args :=
    task_args_of operator_args execution project profile_config render env vars in
  task_args !! "project_dir" = Some (of_path (execution_project_path execution))
  ∧ task_args !! "partial_parse" = Some (VBool (partial_parse project))
  ∧ task_args !! "profile_config" = Some (of_profile profile_config)
  ∧ task_args !! "emit_datasets" = Some (VBool (emit_datasets render))
  ∧ task_args !! "env" = Some env
  ∧ task_args !! "vars" = Some vars.
Proof.
  cbv zeta. unfold task_args_of.
  destruct (truthy _), (is_set _); split_and!.
  all: repeat (rewrite lookup_insert_ne by done); by rewrite lookup_insert_eq.
Qed.

(** *** The early return *)

(** C1: with [parse_all_dags] left [False], a target DAG, and a parsing
    context that reports a DAG identifier other than the target's, the
    constructor returns at once: the outcome is the early return, not an
    exception, and the world is the one it started in, so no validation
    ran, the loader and the builder were not called, and the store is
    untouched. *)
Theorem init_skips_other_dag
    (ext : Externals) (project_config : loc)
    (profile_config execution_config render_config : option loc)
    (dag : option DAG) (task_group : option TaskGroup)
    (operator_args : option (gmap string value)) (on_warning_callback : option string)
    (w : World) (target : DAG) (current : string) :
  resolve_dag dag task_group = Some target →
  parsing_context_dag_id ext = Some current →
  current ≠ dag_id target →
  DbtToAirflowConverter_init ext project_config profile_config execution_config
    render_config dag task_group operator_args on_warning_callback false w
  = (Ok Skipped, w).
Proof.
  intros Hdag Hctx Hne. unfold DbtToAirflowConverter_init, not_the_parsed_dag.
  rewrite Hdag, Hctx. simpl.
  rewrite bool_decide_eq_false_2; [done|]. intros [= Heq]. by apply Hne.
Qed.

Example init_skips_other_dag_witness :
  DbtToAirflowConverter_init (Demo.ext (Some "other_dag")) 1%positive
    (Some 1%positive) (Some 1%positive) (Some 1%positive) (Some Demo.my_dag) None
    None None false (Demo.world (Demo.project (Some "/p") None) Demo.render0)
  = (Ok Skipped, Demo.world (Demo.project (Some "/p") None) Demo.render0).
Proof.
  apply (init_skips_other_dag (Demo.ext (Some "other_dag")) 1%positive
           (Some 1%positive) (Some 1%positive) (Some 1%positive) (Some Demo.my_dag)
           None None None _ Demo.my_dag "other_dag").
  - reflexivity.
  - reflexivity.
  - discriminate.
Defined.

(** *** What the constructor writes *)

(** C3, as the code has it: whether the constructor returns or raises, no
    project config changes, and every execution and render config that was
    in the store is still there unchanged (the migration writes to new
    copies).  The profile configs are unchanged as well, with one exception:
    when the operator arguments carry ["schema"] and the caller's profile
    config has a profile mapping, that mapping's arguments get the
    ["schema"] entry, written in place in the caller's object. *)
Theorem init_frame
    (ext : Externals) (project_config : loc)
    (profile_config execution_config render_config : option loc)
    (dag : option DAG) (task_group : option TaskGroup)
    (operator_args : option (gmap string value)) (on_warning_callback : option string)
    (parse_all_dags : bool) (w : World) :
  let w' := (DbtToAirflowConverter_init ext project_config profile_config
               execution_config render_config dag task_group operator_args
               on_warning_callback parse_all_dags w).2 in
  projects (heap w') = projects (heap w)
  ∧ (∀ l x, executions (heap w) !! l = Some x → executions (heap w') !! l = Some x)
  ∧ (∀ l x, renders (heap w) !! l = Some x → renders (heap w') !! l = Some x)
  ∧ (profiles (heap w') = profiles (heap w)
     ∨ schema_folded profile_config (default ∅ operator_args)
         (profiles (heap w)) (profiles (heap w'))).
Proof.
  cbv zeta.
  destruct (init_evolves ext project_config profile_config execution_config
              render_config dag task_group operator_args on_warning_callback
              parse_all_dags w) as (evs & _ & _ & Hp & He & Hr & Hpf).
  split_and!; try done.
  - intros l x Hl. by eapply lookup_weaken.
  - intros l x Hl. by eapply lookup_weaken.
Qed.

(** C3 as stated fails: the run below leaves the caller's profile config
    with another ["schema"] argument than it had. *)
Lemma init_frame_counterexample :
  profiles (heap (Demo.world (Demo.project (Some "/p") None) Demo.render0)) !! 1%positive
  = Some Demo.profile
  ∧ profiles
      (heap (DbtToAirflowConverter_init (Demo.ext None) 1%positive
               (Some 1%positive) (Some 1%positive) (Some 1%positive)
               (Some Demo.my_dag) None (Some {[ "schema" := VStr "analytics" ]}) None false
               (Demo.world (Demo.project (Some "/p") None) Demo.render0)).2)
      !! 1%positive
    = Some (with_profile_arg "schema" (VStr "analytics") Demo.profile)
  ∧ with_profile_arg "schema" (VStr "analytics") Demo.profile ≠ Demo.profile.
Proof.
  split_and!.
  - reflexivity.
  - vm_compute. reflexivity.
  - intros Heq.
    apply (f_equal (λ p, profile_mapping p ≫= λ m, profile_args m !! "schema")) in Heq.
    vm_compute in Heq. discriminate.
Qed.

(** *** The two path interfaces *)

Lemma ambiguous_paths_rejected execution profile project render operator_args w :
  is_Some (dbt_project_path project) →
  is_Some (render_project_path render) ∨ is_Some (execution_project_path execution) →
  ∃ m, validate_initial_user_config execution profile project render operator_args w
       = (Raise (CosmosValueError m), w)
       ∧ (m = ProfileConfigMandatory (execution_mode execution)
          ∨ m = ProjectPathMutuallyExclusive).
Proof.
  intros Hp%is_set_true Hre.
  assert (is_set (render_project_path render)
          || is_set (execution_project_path execution) = true) as Hor.
  { apply orb_true_iff. destruct Hre as [H%is_set_true|H%is_set_true]; eauto. }
  rewrite validate_initial_user_config_unfold.
  rewrite check_profile_config_run, check_project_path_interface_run, Hp, Hor. simpl.
  destruct (is_none profile && _); eauto.
Qed.

Lemma convert_with_raises_initial ext project_config profile_config e_ref r_ref
    dag task_group operator_args on_warning_callback w e0 profile project r0 err :
  executions (heap w) !! e_ref = Some e0 →
  caller_profile (heap w) profile_config = Some profile →
  projects (heap w) !! project_config = Some project →
  renders (heap w) !! r_ref = Some r0 →
  (validate_initial_user_config e0 profile project r0 operator_args w).1 = Raise err →
  (convert_with ext project_config profile_config e_ref r_ref dag task_group
     operator_args on_warning_callback w).1 = Raise err.
Proof.
  intros He Hpf Hp Hr Hinit. unfold convert_with.
  rewrite bind_run, deref_run, He.
  rewrite bind_run, deref_opt_run.
  assert (match profile_config with
          | Some l => match profiles (heap w) !! l with
                      | Some a => (Ok (Some a), w)
                      | None => (Raise NoSuchObject, w)
                      end
          | None => (Ok None, w)
          end = (Ok profile, w)) as ->.
  { destruct profile_config as [l|]; simpl in Hpf; [|by simplify_eq].
    destruct (profiles (heap w) !! l); simpl in Hpf; by simplify_eq. }
  rewrite bind_run, deref_run, Hp. rewrite bind_run, deref_run, Hr.
  rewrite bind_run.
  destruct (validate_initial_user_config e0 profile project r0 operator_args w)
    as [[[]|err'] w1]; simpl in *; congruence.
Qed.

Lemma convert_raises_initial ext project_config profile_config execution_config
    render_config dag task_group operator_args on_warning_callback w
    e0 profile project r0 err :
  caller_execution ext (heap w) execution_config = Some e0 →
  caller_profile (heap w) profile_config = Some profile →
  projects (heap w) !! project_config = Some project →
  caller_render ext (heap w) render_config = Some r0 →
  validate_project ext project = None →
  (∀ w', (validate_initial_user_config e0 profile project r0
            (default ∅ operator_args) w').1 = Raise err) →
  (convert ext project_config profile_config execution_config render_config
     dag task_group operator_args on_warning_callback w).1 = Raise err.
Proof.
  intros He Hpf Hp Hr Hvp Hinit. unfold convert.
  rewrite bind_run, call_validate_project_run, Hp, Hvp.
  rewrite bind_run.
  destruct execution_config as [e|], render_config as [r|]; simpl in He, Hr.
  - rewrite ret_run, bind_run, ret_run.
    eapply convert_with_raises_initial; done.
  - rewrite ret_run, bind_run, alloc_render_run.
    eapply convert_with_raises_initial; simpl; try done.
    simplify_eq. by rewrite lookup_insert_eq.
  - rewrite alloc_execution_run, bind_run, ret_run.
    eapply convert_with_raises_initial; simpl; try done.
    simplify_eq. by rewrite lookup_insert_eq.
  - rewrite alloc_execution_run, bind_run, alloc_render_run.
    eapply convert_with_raises_initial; simpl; try done.
    + simplify_eq. by rewrite lookup_insert_eq.
    + simplify_eq. by rewrite lookup_insert_eq.
Qed.

(** C5, as the code has it.  Let the caller's project config have
    [dbt_project_path] set, together with [project_path] of the render or of
    the execution config the constructor works from.  Then the initial
    validation raises a [CosmosValueError] on them; the constructor never
    calls the loader or the builder; and whenever it gets as far as the
    initial validation (there is a target DAG, the early return is not
    taken, the project validation passes) it raises that error. *)
Theorem init_rejects_ambiguous_paths
    (ext : Externals) (project_config : loc)
    (profile_config execution_config render_config : option loc)
    (dag : option DAG) (task_group : option TaskGroup)
    (operator_args : option (gmap string value)) (on_warning_callback : option string)
    (parse_all_dags : bool) (w : World)
    (project : ProjectConfig) (execution : ExecutionConfig) (render : RenderConfig)
    (profile : option ProfileConfig) :
  projects (heap w) !! project_config = Some project →
  caller_execution ext (heap w) execution_config = Some execution →
  caller_render ext (heap w) render_config = Some render →
  caller_profile (heap w) profile_config = Some profile →
  is_Some (dbt_project_path project) →
  is_Some (render_project_path render) ∨ is_Some (execution_project_path execution) →
  let run := DbtToAirflowConverter_init ext project_config profile_config
               execution_config render_config dag task_group operator_args
               on_warning_callback parse_all_dags w in
  (* the initial validation rejects these configurations *)
  (∀ w0, is_config_error
           (validate_initial_user_config execution profile project render
              (default ∅ operator_args) w0).1)
  (* neither the loader nor the builder is called *)
  ∧ (∃ evs, trace run.2 = (trace w ++ evs)%list ∧ Forall (λ ev, ¬ graph_call ev) evs)
  (* the constructor raises once it gets there *)
  ∧ (∀ target,
       resolve_dag dag task_group = Some target →
       not_the_parsed_dag ext parse_all_dags target = false →
       validate_project ext project = None →
       ∃ m, run.1 = Raise (CosmosValueError m)
            ∧ (m = ProfileConfigMandatory (execution_mode execution)
               ∨ m = ProjectPathMutuallyExclusive)).
Proof.
  intros Hp He Hr Hpf Hset Hother. cbv zeta.
  assert (∀ w0, ∃ m,
            validate_initial_user_config execution profile project render
              (default ∅ operator_args) w0 = (Raise (CosmosValueError m), w0)
            ∧ (m = ProfileConfigMandatory (execution_mode execution)
               ∨ m = ProjectPathMutuallyExclusive)) as Hrej.
  { intros w0. by apply ambiguous_paths_rejected. }
  split_and!.
  - intros w0. destruct (Hrej w0) as (m & -> & _). by exists m.
  - destruct (init_evolves ext project_config profile_config execution_config
                render_config dag task_group operator_args on_warning_callback
                parse_all_dags w) as (evs & Ht & Hok & _).
    exists evs. split; [done|].
    eapply Forall_impl; [exact Hok|]. intros ev Hev Hg.
    destruct (Hev Hg)
      as (d & _ & _ & project' & e0 & r0 & pf & Hp' & He' & Hr' & Hpf' & Hpass & _).
    simplify_eq. destruct (Hrej w) as (m & Hm & _).
    specialize (Hpass w). rewrite Hm in Hpass. done.
  - intros target Hdag Hskip Hvp. unfold DbtToAirflowConverter_init.
    rewrite Hdag, Hskip.
    destruct (Hrej w) as (m & Hm & Hcases). exists m. split; [|done].
    eapply convert_raises_initial; try done.
    intros w'. rewrite (validate_initial_user_config_verdict _ _ _ _ _ w' w).
    by rewrite Hm.
Qed.

Example init_rejects_ambiguous_paths_witness :
  ∃ m,
    (DbtToAirflowConverter_init (Demo.ext None) 1%positive
       (Some 1%positive) (Some 1%positive) (Some 1%positive) (Some Demo.my_dag) None
       None None false
       (Demo.world (Demo.project (Some "/p") None) (Demo.render (Some "/p") [] []))).1
    = Raise (CosmosValueError m)
    ∧ (m = ProfileConfigMandatory (execution_mode Demo.execution0)
       ∨ m = ProjectPathMutuallyExclusive).
Proof.
  pose proof (init_rejects_ambiguous_paths (Demo.ext None) 1%positive
           (Some 1%positive) (Some 1%positive) (Some 1%positive) (Some Demo.my_dag) None
           None None false
           (Demo.world (Demo.project (Some "/p") None) (Demo.render (Some "/p") [] []))
           (Demo.project (Some "/p") None) Demo.execution0
           (Demo.render (Some "/p") [] []) (Some Demo.profile)
           eq_refl eq_refl eq_refl eq_refl (ex_intro _ "/p" eq_refl)
           (or_introl (ex_intro _ "/p" eq_refl))) as Hthm.
  cbv zeta in Hthm. destruct Hthm as (_ & _ & Hraise).
  exact (Hraise Demo.my_dag eq_refl eq_refl eq_refl).
Defined.

(** C5 as stated fails: with both path interfaces in use, a constructor
    called for a DAG other than the one being parsed returns without any
    error. *)
Lemma init_rejects_ambiguous_paths_counterexample :
  dbt_project_path (Demo.project (Some "/p") None) = Some "/p"
  ∧ render_project_path (Demo.render (Some "/p") [] []) = Some "/p"
  ∧ DbtToAirflowConverter_init (Demo.ext (Some "other_dag")) 1%positive
      (Some 1%positive) (Some 1%positive) (Some 1%positive) (Some Demo.my_dag) None
      None None false
      (Demo.world (Demo.project (Some "/p") None) (Demo.render (Some "/p") [] []))
    = (Ok Skipped,
       Demo.world (Demo.project (Some "/p") None) (Demo.render (Some "/p") [] []))
  ∧ ¬ is_config_error
        (DbtToAirflowConverter_init (Demo.ext (Some "other_dag")) 1%positive
           (Some 1%positive) (Some 1%positive) (Some 1%positive) (Some Demo.my_dag) None
           None None false
           (Demo.world (Demo.project (Some "/p") None) (Demo.render (Some "/p") [] []))).1.
Proof.
  split_and!; try reflexivity.
  intros [m Hm]. vm_compute in Hm. discriminate.
Qed.

(** *** Runs of the whole constructor *)

(** A project with only [dbt_project_path] and empty render and execution
    configs: the builder is called once, with [project_dir] the project's
    path, and the caller's execution and render configs still have no path. *)
Example init_legacy_path_end_to_end :
  let w := Demo.world (Demo.project (Some "/p") None) Demo.render0 in
  let run := DbtToAirflowConverter_init (Demo.ext None) 1%positive
               (Some 1%positive) (Some 1%positive) (Some 1%positive)
               (Some Demo.my_dag) None
               (Some {[ "project_dir" := VStr "elsewhere" ]}) None false w in
  run.1 = Ok (Built ["model.a"; "model.b"])
  ∧ (∃ load build,
       trace run.2 = [ValidateProject 1%positive; DbtGraphLoad load;
                      ValidateProfilesYml 1%positive; BuildAirflowGraph build]
       ∧ br_task_args build !! "project_dir" = Some (VPath "/p")
       ∧ renders (heap run.2) !! br_render_config build
         = Some (with_render_project_path (Some "/p") Demo.render0))
  ∧ executions (heap run.2) !! 1%positive = Some Demo.execution0
  ∧ renders (heap run.2) !! 1%positive = Some Demo.render0.
Proof.
  cbv zeta. split_and!.
  - vm_compute. reflexivity.
  - eexists _, _. split_and!.
    + vm_compute. reflexivity.
    + vm_compute. reflexivity.
    + vm_compute. reflexivity.
  - vm_compute. reflexivity.
  - vm_compute. reflexivity.
Qed.

(** Operator arguments with ["env"] against a project with [env_vars]: the
    constructor raises before anything is loaded. *)
Example init_env_conflict_end_to_end :
  DbtToAirflowConverter_init (Demo.ext None) 1%positive
    (Some 1%positive) (Some 1%positive) (Some 1%positive) (Some Demo.my_dag) None
    (Some {[ "env" := VDict {[ "A" := "1" ]} ]}) None false
    (Demo.world (Demo.project (Some "/p") (Some {[ "B" := "2" ]})) Demo.render0)
  = (Raise (CosmosValueError EnvMutuallyExclusive),
     logged [ValidateProject 1%positive; Warn OperatorArgsEnv]
       (Demo.world (Demo.project (Some "/p") (Some {[ "B" := "2" ]})) Demo.render0)).
Proof. vm_compute. reflexivity. Qed.

(** * Further properties *)

(** *** specific_kwargs and airflow_kwargs *)

(** A loop that copies the entries a test accepts is the filter by that test. *)
Lemma copy_loop_lookup {V} (keep : string → bool) (kwargs : gmap string V) k :
  map_fold (λ arg_key arg_value (new_kwargs : gmap string V),
              if keep arg_key then <[arg_key := arg_value]> new_kwargs else new_kwargs)
    ∅ kwargs !! k
  = if keep k then kwargs !! k else None.
Proof.
  revert k. apply (map_fold_weak_ind (λ r m, ∀ k, r !! k = if keep k then m !! k else None)).
  - intros k. rewrite !lookup_empty. by destruct (keep k).
  - intros i x m r Hi IH k. destruct (decide (i = k)) as [->|Hne].
    + destruct (keep k) eqn:Hk.
      * by rewrite !lookup_insert_eq.
      * by rewrite IH, Hk.
    + rewrite (lookup_insert_ne m) by done.
      destruct (keep i); [rewrite lookup_insert_ne by done|]; apply IH.
Qed.

Lemma specific_kwargs_get {V} (kwargs : gmap string V) k :
  specific_kwargs kwargs !! k
  = if bool_decide (k ∈ specific_args_keys) then kwargs !! k else None.
Proof. unfold specific_kwargs. apply (copy_loop_lookup (λ k, bool_decide _)). Qed.

Lemma airflow_kwargs_get {V} (kwargs : gmap string V) k :
  airflow_kwargs kwargs !! k
  = if negb (bool_decide (k ∈ specific_args_keys)) || String.eqb k "dag"
    then kwargs !! k else None.
Proof.
  unfold airflow_kwargs. cbv zeta.
  rewrite (copy_loop_lookup
             (λ k, negb (bool_decide (is_Some (specific_kwargs kwargs !! k)))
                   || String.eqb k "dag")).
  rewrite specific_kwargs_get.
  destruct (bool_decide (k ∈ specific_args_keys)) eqn:Hk; simpl.
  - destruct (kwargs !! k) as [v|] eqn:Hv; simpl.
    + done.
    + by destruct (k =? "dag")%string.
  - done.
Qed.

Lemma is_dag_key k : (k =? "dag")%string = true ↔ k = "dag".
Proof. apply String.eqb_eq. Qed.

Lemma dag_is_specific : "dag" ∈ specific_args_keys.
Proof. unfold specific_args_keys. set_solver. Qed.

(** X1: [specific_kwargs] returns exactly the entries of [kwargs] whose key
    is a named parameter of the constructor ([self] counts as one), each
    with the value it had. *)
Theorem specific_kwargs_lookup {V} (kwargs : gmap string V) (k : string) (v : V) :
  specific_kwargs kwargs !! k = Some v
  ↔ kwargs !! k = Some v ∧ k ∈ specific_args_keys.
Proof.
  rewrite specific_kwargs_get. case_bool_decide; naive_solver.
Qed.

(** X2: [airflow_kwargs] returns exactly the entries of [kwargs] whose key
    is not a named parameter of the constructor, and the entry of ["dag"],
    each with the value it had. *)
Theorem airflow_kwargs_lookup {V} (kwargs : gmap string V) (k : string) (v : V) :
  airflow_kwargs kwargs !! k = Some v
  ↔ kwargs !! k = Some v ∧ (k ∉ specific_args_keys ∨ k = "dag").
Proof.
  rewrite airflow_kwargs_get.
  destruct (k =? "dag")%string eqn:Hdag.
  - apply is_dag_key in Hdag. rewrite orb_true_r. naive_solver.
  - assert (k ≠ "dag") as Hne.
    { intros Hk%is_dag_key. congruence. }
    rewrite orb_false_r. case_bool_decide; simpl; naive_solver.
Qed.

(** X3: the two functions split [kwargs] without loss: every entry goes to
    one of them, none is invented or changed, and the only key both can
    return is ["dag"]. *)
Theorem kwargs_split {V} (kwargs : gmap string V) :
  specific_kwargs kwargs ∪ airflow_kwargs kwargs = kwargs
  ∧ specific_kwargs kwargs ⊆ kwargs
  ∧ airflow_kwargs kwargs ⊆ kwargs
  ∧ (∀ k, is_Some (specific_kwargs kwargs !! k) → is_Some (airflow_kwargs kwargs !! k) →
          k = "dag").
Proof.
  split_and!.
  - apply map_eq. intros k. rewrite lookup_union.
    rewrite specific_kwargs_get, airflow_kwargs_get.
    destruct (bool_decide (k ∈ specific_args_keys)), (k =? "dag")%string,
      (kwargs !! k); done.
  - apply map_subseteq_spec. intros k v. rewrite specific_kwargs_get.
    by destruct (bool_decide _).
  - apply map_subseteq_spec. intros k v. rewrite airflow_kwargs_get.
    by destruct (_ || _).
  - intros k [v Hs] [v' Ha].
    rewrite specific_kwargs_get in Hs. rewrite airflow_kwargs_get in Ha.
    destruct (bool_decide (k ∈ specific_args_keys)); [|done]. simpl in Ha.
    destruct (k =? "dag")%string eqn:Hd; [|done]. by apply is_dag_key.
Qed.

(** X4: each function is idempotent, and applying one after the other, in
    either order, leaves the entry of ["dag"] and nothing else. *)
Theorem kwargs_split_compose {V} (kwargs : gmap string V) :
  specific_kwargs (specific_kwargs kwargs) = specific_kwargs kwargs
  ∧ airflow_kwargs (airflow_kwargs kwargs) = airflow_kwargs kwargs
  ∧ specific_kwargs (airflow_kwargs kwargs) = airflow_kwargs (specific_kwargs kwargs)
  ∧ (∀ k v, specific_kwargs (airflow_kwargs kwargs) !! k = Some v
            ↔ k = "dag" ∧ kwargs !! "dag" = Some v).
Proof.
  pose proof dag_is_specific as Hdag.
  assert (∀ k, (k =? "dag")%string = true → bool_decide (k ∈ specific_args_keys) = true)
    as Hdag'.
  { intros k ->%is_dag_key. by apply bool_decide_eq_true_2. }
  split_and!.
  - apply map_eq. intros k. rewrite !specific_kwargs_get.
    by destruct (bool_decide _).
  - apply map_eq. intros k. rewrite !airflow_kwargs_get.
    by destruct (_ || _).
  - apply map_eq. intros k.
    rewrite specific_kwargs_get, !airflow_kwargs_get, specific_kwargs_get.
    destruct (bool_decide (k ∈ specific_args_keys)) eqn:Hk,
      (k =? "dag")%string eqn:Hd; simpl; try done.
  - intros k v.
    rewrite specific_kwargs_get, airflow_kwargs_get.
    destruct (bool_decide (k ∈ specific_args_keys)) eqn:Hk,
      (k =? "dag")%string eqn:Hd; simpl.
    + apply is_dag_key in Hd as ->. naive_solver.
    + split; [done|]. intros [Hd'%is_dag_key _]. congruence.
    + by rewrite Hdag' in Hk.
    + split; [done|]. intros [Hd'%is_dag_key _]. congruence.
Qed.

Example kwargs_split_run :
  specific_kwargs
    ({[ "dag" := 1; "operator_args" := 2; "schedule" := 3; "self" := 4 ]} : gmap string nat)
  = {[ "dag" := 1; "operator_args" := 2; "self" := 4 ]}
  ∧ airflow_kwargs
      ({[ "dag" := 1; "operator_args" := 2; "schedule" := 3; "self" := 4 ]} : gmap string nat)
    = {[ "dag" := 1; "schedule" := 3 ]}.
Proof. split; vm_compute; reflexivity. Qed.

(** *** The target DAG and the early return *)

(** X5: the target DAG is [dag] when given, else the task group's DAG; when
    neither yields one the constructor raises "Either a dag or task_group
    must be provided" before doing anything else. *)
Theorem init_requires_dag_or_task_group
    (ext : Externals) (project_config : loc)
    (profile_config execution_config render_config : option loc)
    (dag : option DAG) (task_group : option TaskGroup)
    (operator_args : option (gmap string value)) (on_warning_callback : option string)
    (parse_all_dags : bool) (w : World) :
  (resolve_dag dag task_group = None
   ↔ dag = None ∧ (task_group = None
                   ∨ ∃ tg, task_group = Some tg ∧ task_group_dag tg = None))
  ∧ (∀ d, dag = Some d → resolve_dag dag task_group = Some d)
  ∧ (∀ tg, dag = None → task_group = Some tg →
           resolve_dag dag task_group = task_group_dag tg)
  ∧ (resolve_dag dag task_group = None →
     DbtToAirflowConverter_init ext project_config profile_config execution_config
       render_config dag task_group operator_args on_warning_callback parse_all_dags w
     = (Raise (CosmosValueError EitherDagOrTaskGroup), w)).
Proof.
  split_and!.
  - destruct dag as [d|], task_group as [tg|]; simpl; naive_solver.
  - intros d ->. by destruct task_group.
  - by intros tg -> ->.
  - intros Hnone. unfold DbtToAirflowConverter_init. by rewrite Hnone.
Qed.

Example init_requires_dag_or_task_group_witness :
  DbtToAirflowConverter_init (Demo.ext None) 1%positive (Some 1%positive) None None
    None (Some {| group_id := "g"; task_group_dag := None |}) None None false
    (Demo.world (Demo.project None None) Demo.render0)
  = (Raise (CosmosValueError EitherDagOrTaskGroup),
     Demo.world (Demo.project None None) Demo.render0).
Proof.
  apply (init_requires_dag_or_task_group (Demo.ext None) 1%positive (Some 1%positive)
           None None None (Some {| group_id := "g"; task_group_dag := None |})
           None None false).
  reflexivity.
Defined.

Lemma bind_fst_ok {A B} (m : M A) (f : A → M B) w b :
  ((m ≫= f) w).1 = Ok b → ∃ a w1, m w = (Ok a, w1) ∧ (f a w1).1 = Ok b.
Proof.
  rewrite bind_run. destruct (m w) as [[a|e] w1]; [eauto|done].
Qed.

(** Past the early return the constructor ends with the builder's run. *)
Lemma convert_with_result ext project_config profile_config e_ref r_ref dag task_group
    operator_args on_warning_callback w o :
  (convert_with ext project_config profile_config e_ref r_ref dag task_group
     operator_args on_warning_callback w).1 = Ok o →
  ∃ nodes, o = Built nodes.
Proof.
  unfold convert_with. intros H.
  repeat (apply bind_fst_ok in H as (? & ? & _ & H); cbv beta zeta in H;
          try match type of H with
              | context [let '(_, _) := ?x in _] => destruct x
              end).
  eexists. by injection H as <-.
Qed.

Lemma convert_result ext project_config profile_config execution_config render_config
    dag task_group operator_args on_warning_callback w o :
  (convert ext project_config profile_config execution_config render_config dag
     task_group operator_args on_warning_callback w).1 = Ok o →
  ∃ nodes, o = Built nodes.
Proof.
  unfold convert. intros H.
  do 3 (apply bind_fst_ok in H as (? & ? & _ & H); cbv beta zeta in H).
  by eapply convert_with_result.
Qed.

(** X6: the constructor returns early exactly when there is a target DAG,
    [parse_all_dags] is [False], and the parsing context reports a DAG
    identifier that is not [None] and differs from the target's.  With
    [parse_all_dags] set, with no identifier reported, or with the target's
    own identifier, it goes on to the project validation. *)
Theorem init_skipped_iff
    (ext : Externals) (project_config : loc)
    (profile_config execution_config render_config : option loc)
    (dag : option DAG) (task_group : option TaskGroup)
    (operator_args : option (gmap string value)) (on_warning_callback : option string)
    (parse_all_dags : bool) (w : World) :
  let run := DbtToAirflowConverter_init ext project_config profile_config
               execution_config render_config dag task_group operator_args
               on_warning_callback parse_all_dags w in
  let other_dag_parsed :=
    ∃ target current,
      resolve_dag dag task_group = Some target
      ∧ parse_all_dags = false
      ∧ parsing_context_dag_id ext = Some current
      ∧ current ≠ dag_id target in
  (run.1 = Ok Skipped ↔ other_dag_parsed)
  ∧ (∀ target, resolve_dag dag task_group = Some target → ¬ other_dag_parsed →
       run = convert ext project_config profile_config execution_config render_config
               target task_group operator_args on_warning_callback w).
Proof.
  cbv zeta. unfold DbtToAirflowConverter_init.
  assert (∀ d, not_the_parsed_dag ext parse_all_dags d = true
               ↔ parse_all_dags = false
                 ∧ ∃ current, parsing_context_dag_id ext = Some current
                              ∧ current ≠ dag_id d) as Hskip.
  { intros d. unfold not_the_parsed_dag.
    destruct parse_all_dags; simpl; [naive_solver|].
    destruct (parsing_context_dag_id ext) as [c|]; simpl.
    - rewrite andb_true_r, negb_true_iff, bool_decide_eq_false. naive_solver.
    - rewrite ?andb_false_r. naive_solver. }
  destruct (resolve_dag dag task_group) as [d|]; [|naive_solver].
  destruct (not_the_parsed_dag ext parse_all_dags d) eqn:Hd.
  - apply Hskip in Hd as (Hp & c & Hc & Hne). split.
    + split; [|done]. intros _. by exists d, c.
    + intros target [= <-] Hnot. destruct Hnot. by exists d, c.
  - split; [|by intros target [= <-] _].
    split.
    + intros Hrun. apply convert_result in Hrun as [nodes Hn]. done.
    + intros (target & c & [= <-] & Hp & Hc & Hne).
      assert (not_the_parsed_dag ext parse_all_dags d = true) as Hd'.
      { apply Hskip. eauto. }
      congruence.
Qed.

(** *** The path check of the initial validation *)

(** The checks of the deprecated arguments raise their own errors only. *)
Lemma deprecated_checks_messages project render operator_args w e :
  (match check_operator_args_env project operator_args w with
   | (Raise e, w3) => (Raise e, w3)
   | (Ok _, w3) =>
       match check_operator_args_vars project operator_args w3 with
       | (Raise e, w4) => (Raise e, w4)
       | (Ok _, w4) => check_env_vars_channels project render w4
       end
   end).1 = Raise e →
  e = CosmosValueError EnvMutuallyExclusive
  ∨ e = CosmosValueError VarsMutuallyExclusive
  ∨ e = CosmosValueError BothEnvVarsProvided.
Proof.
  rewrite check_operator_args_env_run.
  destruct (dict_contains operator_args "env"),
    (truthy (of_dict (project_env_vars project))); simpl.
  all: try (intros [= <-]; eauto; fail).
  all: rewrite check_operator_args_vars_run.
  all: destruct (dict_contains operator_args "vars"),
    (truthy (of_dict (dbt_vars project))); simpl.
  all: try (intros [= <-]; eauto; fail).
  all: rewrite check_env_vars_channels_run; simpl.
  all: destruct (_ && truthy (of_dict (render_env_vars render))); simpl.
  all: try (intros [= <-]; eauto; fail).
  all: done.
Qed.

(** X7: the initial validation ends in the "mutually exclusive" path error
    exactly when the profile check passes and [project.dbt_project_path] is
    set together with [render.project_path] or [execution.project_path];
    the error is raised before any deprecation warning is emitted. *)
Theorem project_path_mutually_exclusive_iff
    (execution : ExecutionConfig) (profile : option ProfileConfig)
    (project : ProjectConfig) (render : RenderConfig)
    (operator_args : gmap string value) (w : World) :
  let run := validate_initial_user_config execution profile project render operator_args w in
  let profile_missing :=
    profile = None ∧ execution_mode execution ≠ KUBERNETES
    ∧ execution_mode execution ≠ DOCKER in
  let two_interfaces :=
    is_Some (dbt_project_path project)
    ∧ (is_Some (render_project_path render)
       ∨ is_Some (execution_project_path execution)) in
  (run.1 = Raise (CosmosValueError ProjectPathMutuallyExclusive)
   ↔ ¬ profile_missing ∧ two_interfaces)
  ∧ (run.1 = Raise (CosmosValueError ProjectPathMutuallyExclusive) → run.2 = w).
Proof.
  cbv zeta. rewrite <- !is_set_true.
  rewrite validate_initial_user_config_unfold.
  rewrite check_profile_config_run, check_project_path_interface_run.
  assert (is_none profile
          && negb (bool_decide (execution_mode execution ∈ [KUBERNETES; DOCKER])) = true
          ↔ profile = None ∧ execution_mode execution ≠ KUBERNETES
            ∧ execution_mode execution ≠ DOCKER) as Hmissing.
  { rewrite andb_true_iff, negb_true_iff, bool_decide_eq_false.
    destruct profile; simpl; [naive_solver|]. set_solver. }
  destruct (is_none profile && _) eqn:Hm.
  { split; [|done]. split; [done|]. intros [Hnot _]. destruct Hnot. by apply Hmissing. }
  assert (¬ (profile = None ∧ execution_mode execution ≠ KUBERNETES
             ∧ execution_mode execution ≠ DOCKER)) as Hnot.
  { intros H%Hmissing. congruence. }
  destruct (is_set (dbt_project_path project)
            && (is_set (render_project_path render)
                || is_set (execution_project_path execution))) eqn:Hp; simpl.
  - apply andb_true_iff in Hp as [Hp Hor%orb_true_iff]. done.
  - assert (¬ (is_set (dbt_project_path project) = true
               ∧ (is_set (render_project_path render) = true
                  ∨ is_set (execution_project_path execution) = true))) as Hnone.
    { intros [H1 H2%orb_true_iff]. rewrite H1, H2 in Hp. done. }
    split; [split; [|naive_solver]|].
    all: intros Hrun%deprecated_checks_messages; naive_solver.
Qed.

(** *** Migration, then the adapted validation *)

(** X8: after [migrate_to_new_interface] for a project whose
    [dbt_project_path] is set, the adapted validation cannot fail: the two
    copies it returns pass [validate_adapted_user_config], whatever paths
    the originals had and whether or not there is a manifest. *)
Theorem migrated_configs_pass_adapted_validation
    (e p r : loc) (w : World)
    (execution : ExecutionConfig) (project : ProjectConfig) (render : RenderConfig) :
  executions (heap w) !! e = Some execution →
  projects (heap w) !! p = Some project →
  renders (heap w) !! r = Some render →
  is_Some (dbt_project_path project) →
  ∃ e' r' w' execution' render',
    migrate_to_new_interface e p r w = (Ok (e', r'), w')
    ∧ executions (heap w') !! e' = Some execution'
    ∧ renders (heap w') !! r' = Some render'
    ∧ validate_adapted_user_config (Some execution') project (Some render') w'
      = (Ok (), w').
Proof.
  intros He Hp Hr [path Hpath].
  eexists _, _, _, _, _. split_and!.
  - by apply (migrate_to_new_interface_run e p r w execution project render).
  - simpl. by rewrite lookup_insert_eq.
  - simpl. by rewrite lookup_insert_eq.
  - unfold validate_adapted_user_config. unfold_monad. simpl. rewrite Hpath. simpl.
    by destruct (manifest_path project).
Qed.

Example migrated_configs_pass_adapted_validation_witness :
  ∃ e' r' w' execution' render',
    migrate_to_new_interface 1%positive 1%positive 1%positive
      (Demo.world (Demo.project (Some "/p") None) Demo.render0) = (Ok (e', r'), w')
    ∧ executions (heap w') !! e' = Some execution'
    ∧ renders (heap w') !! r' = Some render'
    ∧ validate_adapted_user_config (Some execution') (Demo.project (Some "/p") None)
        (Some render') w'
      = (Ok (), w').
Proof.
  exact (migrated_configs_pass_adapted_validation 1%positive 1%positive 1%positive
           (Demo.world (Demo.project (Some "/p") None) Demo.render0)
           Demo.execution0 (Demo.project (Some "/p") None) Demo.render0
           eq_refl eq_refl eq_refl (ex_intro _ "/p" eq_refl)).
Defined.

(** *** The task arguments *)

(** X9: besides the six canonical entries, the task arguments hold
    ["dbt_executable_path"] and ["invocation_mode"] of the execution config
    when these are set; when they are not, no entry is added, so an entry of
    the operator arguments under that key stays.  Every other key of the
    operator arguments is passed through unchanged, and no other key
    appears. *)
Theorem task_args_optional_and_passed_through
    (operator_args : gmap string value) (execution : ExecutionConfig)
    (project : ProjectConfig) (profile_config : option loc) (render : RenderConfig)
    (env vars : value) :
  let task_args :=
    task_args_of operator_args execution project profile_config render env vars in
  task_args !! "dbt_executable_path"
  = (if truthy (dbt_executable_path execution)
     then Some (dbt_executable_path execution)
     else operator_args !! "dbt_executable_path")
  ∧ task_args !! "invocation_mode"
    = match invocation_mode execution with
      | Some mode => Some (VInvocation mode)
      | None => operator_args !! "invocation_mode"
      end
  ∧ (∀ k, k ∉ canonical_keys → task_args !! k = operator_args !! k)
  ∧ (∀ k, is_Some (task_args !! k) → is_Some (operator_args !! k) ∨ k ∈ canonical_keys).
Proof.
  cbv zeta. split_and!.
  - unfold task_args_of.
    destruct (truthy (dbt_executable_path execution)), (invocation_mode execution); simpl.
    all: repeat (rewrite lookup_insert_ne by done); by rewrite ?lookup_insert_eq.
  - unfold task_args_of.
    destruct (truthy (dbt_executable_path execution)), (invocation_mode execution); simpl.
    all: repeat (rewrite lookup_insert_ne by done); by rewrite ?lookup_insert_eq.
  - intros k Hk. by apply task_args_of_other.
  - intros k Hk. destruct (decide (k ∈ canonical_keys)) as [|Hout]; [by right|left].
    by rewrite task_args_of_other in Hk.
Qed.

(** *** validate_arguments past the selector validation *)

Lemma validate_selectors_pass ext select exclude w :
  selector_intersection ext select exclude "tags" = ∅ →
  selector_intersection ext select exclude "paths" = ∅ →
  validate_selectors ext select exclude w = (Ok (), w).
Proof.
  intros Ht Hp. rewrite validate_selectors_unfold, !check_field_run.
  by rewrite !bool_decide_eq_true_2.
Qed.

Lemma validate_selectors_cases ext select exclude w :
  (validate_selectors ext select exclude w = (Ok (), w)
   ∧ selector_intersection ext select exclude "tags" = ∅
   ∧ selector_intersection ext select exclude "paths" = ∅)
  ∨ (∃ m, validate_selectors ext select exclude w = (Raise (CosmosValueError m), w)
          ∧ (selector_intersection ext select exclude "tags" ≠ ∅
             ∨ selector_intersection ext select exclude "paths" ≠ ∅)).
Proof.
  rewrite validate_selectors_unfold, !check_field_run.
  repeat case_bool_decide; eauto 10.
Qed.

(** The call of [validate_profiles_yml] that ends [validate_arguments]. *)
Lemma profiles_yml_step_run ext l profile mode w :
  profiles (heap w) !! l = Some profile →
  when (bool_decide (mode ∈ [LOCAL; VIRTUALENV]))
    (call_validate_profiles_yml ext (Some l)) w
  = if bool_decide (mode ∈ [LOCAL; VIRTUALENV])
    then (match validate_profiles_yml ext profile with
          | Some e => Raise e
          | None => Ok ()
          end, logged [ValidateProfilesYml l] w)
    else (Ok (), w).
Proof.
  intros Hl. unfold when. case_bool_decide; [|done].
  by rewrite call_validate_profiles_yml_run, Hl.
Qed.

(** [validate_arguments] on passing selectors and a profile config that is
    there: the schema step, then the profile validation. *)
Lemma validate_arguments_run ext select exclude l task_args mode w profile :
  selector_intersection ext select exclude "tags" = ∅ →
  selector_intersection ext select exclude "paths" = ∅ →
  profiles (heap w) !! l = Some profile →
  validate_arguments ext select exclude (Some l) task_args mode w
  = when (bool_decide (mode ∈ [LOCAL; VIRTUALENV]))
      (call_validate_profiles_yml ext (Some l))
      (if dict_contains task_args "schema"
       then {| heap :=
                 if bool_decide (is_Some (profile_mapping profile))
                 then set_profiles
                        (alter (with_profile_arg "schema" (dict_get task_args "schema")) l)
                        (heap w)
                 else heap w;
               trace := trace w ++ [LoggerWarning schema_deprecated] |}
       else w).
Proof.
  intros Ht Hp Hl. unfold validate_arguments.
  rewrite bind_run, validate_selectors_pass by done.
  rewrite bind_run.
  destruct (dict_contains task_args "schema") eqn:Hschema; cbn [when]; [|done].
  rewrite bind_run. unfold emit at 1.
  rewrite bind_run, deref_run. cbn [heap]. rewrite Hl.
  destruct (bool_decide (is_Some (profile_mapping profile))); cbn [when]; [|done].
  unfold set_profile_arg, modify_heap. done.
Qed.

(** X10: when the selectors pass, the task arguments hold ["schema"] and the
    caller's profile config has a profile mapping, [validate_arguments]
    leaves that profile config with the same names and a mapping whose
    arguments are the old ones with ["schema"] set to the task argument; it
    logs the deprecation; the project, execution and render configs are
    as before.  This holds also when the profile validation that follows
    raises. *)
Theorem validate_arguments_folds_schema
    (ext : Externals) (select exclude : list string) (l : loc)
    (task_args : gmap string value) (mode : ExecutionMode) (w : World)
    (profile : ProfileConfig) (mapping : ProfileMapping) (schema : value) :
  selector_intersection ext select exclude "tags" = ∅ →
  selector_intersection ext select exclude "paths" = ∅ →
  task_args !! "schema" = Some schema →
  profiles (heap w) !! l = Some profile →
  profile_mapping profile = Some mapping →
  let w' := (validate_arguments ext select exclude (Some l) task_args mode w).2 in
  profiles (heap w') !! l
  = Some {| profile_name := profile_name profile;
            target_name := target_name profile;
            profile_mapping :=
              Some {| profile_args := <["schema" := schema]> (profile_args mapping) |} |}
  ∧ projects (heap w') = projects (heap w)
  ∧ executions (heap w') = executions (heap w)
  ∧ renders (heap w') = renders (heap w)
  ∧ LoggerWarning schema_deprecated ∈ trace w'.
Proof.
  intros Ht Hp Hschema Hl Hmap. cbv zeta.
  rewrite (validate_arguments_run ext select exclude l task_args mode w profile Ht Hp Hl).
  assert (dict_contains task_args "schema" = true) as ->.
  { apply dict_contains_spec. eauto. }
  rewrite Hmap, (bool_decide_eq_true_2 (is_Some (Some mapping))) by eauto.
  set (w1 := {| heap := _; trace := _ |}).
  assert (with_profile_arg "schema" (dict_get task_args "schema") profile
          = {| profile_name := profile_name profile;
               target_name := target_name profile;
               profile_mapping :=
                 Some {| profile_args := <["schema" := schema]> (profile_args mapping) |} |})
    as Hfold.
  { unfold with_profile_arg, dict_get. by rewrite Hmap, Hschema. }
  assert (profiles (heap w1) !! l
          = Some (with_profile_arg "schema" (dict_get task_args "schema") profile)) as Hl1.
  { subst w1. simpl. by rewrite lookup_alter_eq, Hl. }
  rewrite (profiles_yml_step_run ext l _ mode w1 Hl1).
  assert (heap (if bool_decide (mode ∈ [LOCAL; VIRTUALENV])
                then (match validate_profiles_yml ext
                              (with_profile_arg "schema" (dict_get task_args "schema") profile)
                      with Some e => Raise e | None => Ok () end,
                      logged [ValidateProfilesYml l] w1)
                else (Ok (), w1)).2 = heap w1) as ->.
  { by case_bool_decide. }
  rewrite Hl1, Hfold. split_and!; try done.
  case_bool_decide; subst w1; simpl; set_solver.
Qed.

Example validate_arguments_folds_schema_witness :
  profiles
    (heap (validate_arguments (Demo.ext None) [] [] (Some 1%positive)
             {[ "schema" := VStr "analytics" ]} LOCAL
             (Demo.world (Demo.project None None) Demo.render0)).2) !! 1%positive
  = Some {| profile_name := "default"; target_name := "dev";
            profile_mapping :=
              Some {| profile_args :=
                        <["schema" := VStr "analytics"]> {[ "schema" := VStr "public" ]} |} |}.
Proof.
  pose proof (validate_arguments_folds_schema (Demo.ext None) [] [] 1%positive
           {[ "schema" := VStr "analytics" ]} LOCAL
           (Demo.world (Demo.project None None) Demo.render0)
           Demo.profile {| profile_args := {[ "schema" := VStr "public" ]} |}
           (VStr "analytics") eq_refl eq_refl eq_refl eq_refl eq_refl) as Hthm.
  cbv zeta in Hthm. destruct Hthm as [Hprofile _]. exact Hprofile.
Defined.

Lemma local_mode_spec mode :
  bool_decide (mode ∈ [LOCAL; VIRTUALENV]) = true ↔ mode = LOCAL ∨ mode = VIRTUALENV.
Proof. rewrite bool_decide_eq_true. set_solver. Qed.

(** X11: without a profile config, [validate_arguments] does not raise a
    [CosmosValueError] for it but fails with an [AttributeError], exactly
    when the selectors pass and either the task arguments hold ["schema"]
    (the failure comes after the deprecation is logged) or the mode is LOCAL
    or VIRTUALENV.  In the other modes and without ["schema"] it passes and
    does nothing. *)
Theorem validate_arguments_without_profile
    (ext : Externals) (select exclude : list string)
    (task_args : gmap string value) (mode : ExecutionMode) (w : World) :
  let run := validate_arguments ext select exclude None task_args mode w in
  let selectors_pass :=
    selector_intersection ext select exclude "tags" = ∅
    ∧ selector_intersection ext select exclude "paths" = ∅ in
  let local := mode = LOCAL ∨ mode = VIRTUALENV in
  ((∃ attr, run.1 = Raise (AttributeError attr))
   ↔ selectors_pass ∧ (is_Some (task_args !! "schema") ∨ local))
  ∧ (selectors_pass → is_Some (task_args !! "schema") →
     run = (Raise (AttributeError "profile_mapping"),
            logged [LoggerWarning schema_deprecated] w))
  ∧ (selectors_pass → task_args !! "schema" = None → local →
     run = (Raise (AttributeError "validate_profiles_yml"), w))
  ∧ (selectors_pass → task_args !! "schema" = None → ¬ local → run = (Ok (), w)).
Proof.
  cbv zeta. unfold validate_arguments. rewrite bind_run.
  rewrite <- dict_contains_spec, <- local_mode_spec.
  assert (task_args !! "schema" = None ↔ dict_contains task_args "schema" = false) as ->.
  { unfold dict_contains. rewrite bool_decide_eq_false, eq_None_not_Some. done. }
  destruct (validate_selectors_cases ext select exclude w)
    as [(-> & Ht & Hp)|(m & -> & Hconflict)].
  2:{ simpl. split_and!; try (intros [? ?]; tauto). split; [by intros [? ?]|]. tauto. }
  rewrite bind_run.
  destruct (dict_contains task_args "schema"); cbn [when].
  - rewrite bind_run. unfold emit at 1. unfold_monad. simpl.
    split_and!; try done. split; eauto.
  - rewrite ret_run.
    destruct (bool_decide (mode ∈ [LOCAL; VIRTUALENV])); cbn [when].
    + rewrite call_validate_profiles_yml_run. simpl. split_and!; try done.
      split; eauto.
    + rewrite ret_run. simpl. split_and!; try done.
      split; [by intros [? ?]|]. intros (_ & [?|?]); done.
Qed.

Example validate_arguments_without_profile_witness :
  validate_arguments (Demo.ext None) [] [] None {[ "schema" := VStr "analytics" ]}
    KUBERNETES (Demo.world (Demo.project None None) Demo.render0)
  = (Raise (AttributeError "profile_mapping"),
     logged [LoggerWarning schema_deprecated]
       (Demo.world (Demo.project None None) Demo.render0)).
Proof.
  pose proof (validate_arguments_without_profile (Demo.ext None) [] [] 
                {[ "schema" := VStr "analytics" ]} KUBERNETES
                (Demo.world (Demo.project None None) Demo.render0)) as Hthm.
  cbv zeta in Hthm. destruct Hthm as (_ & Hschema & _).
  apply Hschema; [split; reflexivity|]. by eexists.
Defined.

(** X12: with passing selectors and a profile config,
    [validate_arguments] calls [validate_profiles_yml] in the modes LOCAL and
    VIRTUALENV and in no other; the call comes after the schema step, on
    the profile config as that step left it, and its outcome is the outcome
    of [validate_arguments]. *)
Theorem validate_arguments_profiles_yml
    (ext : Externals) (select exclude : list string) (l : loc)
    (task_args : gmap string value) (mode : ExecutionMode) (w : World)
    (profile : ProfileConfig) :
  selector_intersection ext select exclude "tags" = ∅ →
  selector_intersection ext select exclude "paths" = ∅ →
  profiles (heap w) !! l = Some profile →
  let run := validate_arguments ext select exclude (Some l) task_args mode w in
  let schema_log :=
    if dict_contains task_args "schema" then [LoggerWarning schema_deprecated] else [] in
  let validated :=
    if dict_contains task_args "schema"
    then with_profile_arg "schema" (dict_get task_args "schema") profile
    else profile in
  (mode = LOCAL ∨ mode = VIRTUALENV →
   run.1 = match validate_profiles_yml ext validated with
           | Some e => Raise e
           | None => Ok ()
           end
   ∧ trace run.2 = (trace w ++ schema_log ++ [ValidateProfilesYml l])%list)
  ∧ (mode ≠ LOCAL → mode ≠ VIRTUALENV →
     run.1 = Ok () ∧ trace run.2 = (trace w ++ schema_log)%list)
  ∧ profiles (heap run.2) !! l = Some validated.
Proof.
  intros Ht Hp Hl. cbv zeta.
  rewrite (validate_arguments_run ext select exclude l task_args mode w profile Ht Hp Hl).
  set (w1 := if dict_contains task_args "schema" then _ else w).
  set (validated := if dict_contains task_args "schema" then _ else profile).
  assert (profiles (heap w1) !! l = Some validated) as Hl1.
  { subst w1 validated. destruct (dict_contains task_args "schema"); [|done]. simpl.
    case_bool_decide as Hmap.
    - simpl. by rewrite lookup_alter_eq, Hl.
    - rewrite Hl. f_equal. unfold with_profile_arg.
      destruct profile as [? ? [m|]]; simpl in *; [|done]. destruct Hmap. eauto. }
  assert (trace w1
          = (trace w ++ (if dict_contains task_args "schema"
                         then [LoggerWarning schema_deprecated] else []))%list) as Ht1.
  { subst w1. destruct (dict_contains task_args "schema"); simpl; [done|].
    by rewrite app_nil_r. }
  rewrite (profiles_yml_step_run ext l validated mode w1 Hl1).
  rewrite <- local_mode_spec.
  destruct (bool_decide (mode ∈ [LOCAL; VIRTUALENV])) eqn:Hmode; simpl.
  - split_and!; try done.
    + intros _. by rewrite Ht1, app_assoc.
    + intros H1 H2. exfalso. apply local_mode_spec in Hmode as [?|?]; done.
  - split_and!; done.
Qed.

Example validate_arguments_profiles_yml_witness :
  (validate_arguments (Demo.ext None) [] [] (Some 1%positive) ∅ DOCKER
     (Demo.world (Demo.project None None) Demo.render0)).1 = Ok ()
  ∧ trace (validate_arguments (Demo.ext None) [] [] (Some 1%positive) ∅ DOCKER
             (Demo.world (Demo.project None None) Demo.render0)).2
    = (trace (Demo.world (Demo.project None None) Demo.render0) ++ [])%list.
Proof.
  pose proof (validate_arguments_profiles_yml (Demo.ext None) [] [] 1%positive ∅ DOCKER
                (Demo.world (Demo.project None None) Demo.render0) Demo.profile
                eq_refl eq_refl eq_refl) as Hthm.
  cbv zeta in Hthm. destruct Hthm as (_ & Hother & _).
  apply Hother; discriminate.
Defined.

(** *** Reusing the caller's configurations *)

Lemma validate_initial_user_config_profile execution profile profile' project render
    operator_args w :
  is_none profile = is_none profile' →
  validate_initial_user_config execution profile project render operator_args w
  = validate_initial_user_config execution profile' project render operator_args w.
Proof.
  intros Hnone. unfold validate_initial_user_config, check_profile_config.
  by rewrite Hnone.
Qed.

(** X13: whatever a run of the constructor did, returned or raised, a
    second construction from the same arguments starts from the same
    project, execution and render configurations, and its initial
    validation gives the verdict it would have given before the run.  In
    particular the paths written by the migration of the first run do not
    make the second run fail the path check. *)
Theorem init_leaves_configs_reusable
    (ext : Externals) (project_config : loc)
    (profile_config execution_config render_config : option loc)
    (dag : option DAG) (task_group : option TaskGroup)
    (operator_args : option (gmap string value)) (on_warning_callback : option string)
    (parse_all_dags : bool) (w : World)
    (project : ProjectConfig) (execution : ExecutionConfig) (render : RenderConfig)
    (profile : option ProfileConfig) :
  projects (heap w) !! project_config = Some project →
  caller_execution ext (heap w) execution_config = Some execution →
  caller_render ext (heap w) render_config = Some render →
  caller_profile (heap w) profile_config = Some profile →
  let w' := (DbtToAirflowConverter_init ext project_config profile_config
               execution_config render_config dag task_group operator_args
               on_warning_callback parse_all_dags w).2 in
  projects (heap w') !! project_config = Some project
  ∧ caller_execution ext (heap w') execution_config = Some execution
  ∧ caller_render ext (heap w') render_config = Some render
  ∧ ∃ profile',
      caller_profile (heap w') profile_config = Some profile'
      ∧ ∀ args w0,
          validate_initial_user_config execution profile' project render args w0
          = validate_initial_user_config execution profile project render args w0.
Proof.
  intros Hp He Hr Hpf. cbv zeta.
  destruct (init_evolves ext project_config profile_config execution_config
              render_config dag task_group operator_args on_warning_callback
              parse_all_dags w) as (evs & _ & _ & Hp' & He' & Hr' & Hpf').
  split_and!.
  - by rewrite Hp'.
  - destruct execution_config as [l|]; simpl in *; [|done]. by eapply lookup_weaken.
  - destruct render_config as [l|]; simpl in *; [|done]. by eapply lookup_weaken.
  - unfold caller_profile in *.
    destruct Hpf' as [Heq|(l & pr & -> & _ & Hl & _ & Heq)]; rewrite Heq.
    + by exists profile.
    + rewrite lookup_insert_eq. rewrite Hl in Hpf. simpl in *. simplify_eq.
      eexists. split; [reflexivity|]. intros args w0.
      by apply validate_initial_user_config_profile.
Qed.

Example init_leaves_configs_reusable_witness :
  caller_execution (Demo.ext None)
    (heap (DbtToAirflowConverter_init (Demo.ext None) 1%positive
             (Some 1%positive) (Some 1%positive) (Some 1%positive) (Some Demo.my_dag) None
             None None false
             (Demo.world (Demo.project (Some "/p") None) Demo.render0)).2)
    (Some 1%positive)
  = Some Demo.execution0.
Proof.
  pose proof (init_leaves_configs_reusable (Demo.ext None) 1%positive
                (Some 1%positive) (Some 1%positive) (Some 1%positive) (Some Demo.my_dag)
                None None None false
                (Demo.world (Demo.project (Some "/p") None) Demo.render0)
                (Demo.project (Some "/p") None) Demo.execution0 Demo.render0
                (Some Demo.profile) eq_refl eq_refl eq_refl eq_refl) as Hthm.
  cbv zeta in Hthm. destruct Hthm as (_ & Hexecution & _). exact Hexecution.
Defined.

(** *** The constructor, run forward *)

(** What [convert_with] does once the initial validation has passed. *)
Lemma convert_with_forward ext project_config profile_config e_ref r_ref dag task_group
    operator_args on_warning_callback w e0 profile project r0 w1 :
  executions (heap w) !! e_ref = Some e0 →
  caller_profile (heap w) profile_config = Some profile →
  projects (heap w) !! project_config = Some project →
  renders (heap w) !! r_ref = Some r0 →
  validate_initial_user_config e0 profile project r0 operator_args w = (Ok (), w1) →
  let execution := adapted_execution project e0 in
  let render := adapted_render project r0 in
  ∃ e' r' w2,
    trace w2 = trace w1
    ∧ projects (heap w2) = projects (heap w)
    ∧ profiles (heap w2) = profiles (heap w)
    ∧ executions (heap w) ⊆ executions (heap w2)
    ∧ renders (heap w) ⊆ renders (heap w2)
    ∧ executions (heap w2) !! e' = Some execution
    ∧ renders (heap w2) !! r' = Some render
    ∧ (if is_set (dbt_project_path project)
       then executions (heap w) !! e' = None ∧ renders (heap w) !! r' = None
       else e' = e_ref ∧ r' = r_ref)
    ∧ convert_with ext project_config profile_config e_ref r_ref dag task_group
        operator_args on_warning_callback w
      = from_adapted_validation ext project_config profile_config dag task_group
          operator_args on_warning_callback project execution render e' r' w2.
Proof.
  intros He Hpf Hp Hr Hinit. cbv zeta.
  assert (heap w1 = heap w) as Hheap.
  { pose proof (validate_initial_user_config_heap e0 profile project r0 operator_args w)
      as Hh. by rewrite Hinit in Hh. }
  assert (∃ e' r' w2,
    (if is_set (dbt_project_path project)
     then migrate_to_new_interface e_ref project_config r_ref
     else mret (e_ref, r_ref)) w1 = (Ok (e', r'), w2)
    ∧ trace w2 = trace w1
    ∧ projects (heap w2) = projects (heap w)
    ∧ profiles (heap w2) = profiles (heap w)
    ∧ executions (heap w) ⊆ executions (heap w2)
    ∧ renders (heap w) ⊆ renders (heap w2)
    ∧ executions (heap w2) !! e' = Some (adapted_execution project e0)
    ∧ renders (heap w2) !! r' = Some (adapted_render project r0)
    ∧ (if is_set (dbt_project_path project)
       then executions (heap w) !! e' = None ∧ renders (heap w) !! r' = None
       else e' = e_ref ∧ r' = r_ref))
    as (e' & r' & w2 & Hmig & Ht2 & Hp2 & Hpf2 & He2 & Hr2 & He' & Hr' & Hrefs).
  { unfold adapted_execution, adapted_render.
    destruct (is_set (dbt_project_path project)).
    - rewrite (migrate_to_new_interface_run _ _ _ _ e0 project r0)
        by (by rewrite Hheap).
      eexists _, _, _. split; [reflexivity|]. simpl. rewrite Hheap. split_and!; try done.
      + apply insert_subseteq, fresh_lookup_None.
      + apply insert_subseteq, fresh_lookup_None.
      + by rewrite lookup_insert_eq.
      + by rewrite lookup_insert_eq.
      + apply fresh_lookup_None.
      + apply fresh_lookup_None.
    - eexists _, _, _. split; [reflexivity|]. rewrite Hheap. split_and!; done. }
  exists e', r', w2. split_and!; try done.
  unfold convert_with, from_adapted_validation.
  rewrite bind_run, deref_run, He.
  rewrite bind_run, deref_opt_run.
  assert (match profile_config with
          | Some l => match profiles (heap w) !! l with
                      | Some a => (Ok (Some a), w)
                      | None => (Raise NoSuchObject, w)
                      end
          | None => (Ok None, w)
          end = (Ok profile, w)) as ->.
  { destruct profile_config as [l|]; simpl in Hpf; [|by simplify_eq].
    destruct (profiles (heap w) !! l); simpl in Hpf; by simplify_eq. }
  rewrite bind_run, deref_run, Hp. rewrite bind_run, deref_run, Hr.
  rewrite bind_run, Hinit. rewrite bind_run, Hmig.
  rewrite bind_run, deref_run, He'. rewrite bind_run, deref_run, Hr'.
  rewrite bind_run.
  pose proof (validate_adapted_user_config_world (Some (adapted_execution project e0))
                project (Some (adapted_render project r0)) w2) as Hw3.
  destruct (validate_adapted_user_config _ project _ w2) as [[[]|err] w3];
    simpl in Hw3; subst w3; [|done].
  rewrite bind_run, call_dbt_graph_load_run.
  destruct (dbt_graph_load ext (heap w2) _) as [err|nodes]; [done|].
  rewrite bind_run.
  destruct (validate_arguments _ _ _ _ _ _ _) as [[[]|err] w3]; [|done].
  rewrite bind_run, call_build_airflow_graph_run.
  by destruct (build_airflow_graph ext (heap w3) _).
Qed.

(** The constructor up to [convert_with]: project validation passed, the
    optional configurations defaulted. *)
Lemma convert_to_convert_with ext project_config profile_config execution_config
    render_config dag task_group operator_args on_warning_callback w project e0 r0 :
  projects (heap w) !! project_config = Some project →
  validate_project ext project = None →
  caller_execution ext (heap w) execution_config = Some e0 →
  caller_render ext (heap w) render_config = Some r0 →
  ∃ e_ref r_ref w3,
    convert ext project_config profile_config execution_config render_config dag
      task_group operator_args on_warning_callback w
    = convert_with ext project_config profile_config e_ref r_ref dag task_group
        (default ∅ operator_args) on_warning_callback w3
    ∧ trace w3 = (trace w ++ [ValidateProject project_config])%list
    ∧ projects (heap w3) = projects (heap w)
    ∧ profiles (heap w3) = profiles (heap w)
    ∧ executions (heap w) ⊆ executions (heap w3)
    ∧ renders (heap w) ⊆ renders (heap w3)
    ∧ executions (heap w3) !! e_ref = Some e0
    ∧ renders (heap w3) !! r_ref = Some r0
    ∧ (∀ l, execution_config = Some l → e_ref = l)
    ∧ (∀ l, render_config = Some l → r_ref = l).
Proof.
  intros Hp Hvp He Hr. unfold convert.
  rewrite bind_run, call_validate_project_run, Hp, Hvp. rewrite bind_run.
  destruct execution_config as [e|], render_config as [r|]; simpl in He, Hr.
  - rewrite ret_run, bind_run, ret_run.
    eexists _, _, _. split; [reflexivity|]. simpl. split_and!; try done; by intros ? [= ->].
  - rewrite ret_run, bind_run, alloc_render_run.
    eexists _, _, _. split; [reflexivity|]. simpl. split_and!; try done.
    + apply insert_subseteq, fresh_lookup_None.
    + simplify_eq. by rewrite lookup_insert_eq.
    + by intros ? [= ->].
  - rewrite alloc_execution_run, bind_run, ret_run.
    eexists _, _, _. split; [reflexivity|]. simpl. split_and!; try done.
    + apply insert_subseteq, fresh_lookup_None.
    + simplify_eq. by rewrite lookup_insert_eq.
    + by intros ? [= ->].
  - rewrite alloc_execution_run, bind_run, alloc_render_run.
    eexists _, _, _. split; [reflexivity|]. simpl. split_and!; try done.
    + apply insert_subseteq, fresh_lookup_None.
    + apply insert_subseteq, fresh_lookup_None.
    + simplify_eq. by rewrite lookup_insert_eq.
    + simplify_eq. by rewrite lookup_insert_eq.
Qed.

(** The constructor up to the adapted validation: a target DAG, no early
    return, project and initial validation passed. *)
Lemma init_forward ext project_config profile_config execution_config render_config
    dag task_group operator_args on_warning_callback parse_all_dags w
    target project e0 r0 profile :
  resolve_dag dag task_group = Some target →
  not_the_parsed_dag ext parse_all_dags target = false →
  projects (heap w) !! project_config = Some project →
  validate_project ext project = None →
  caller_execution ext (heap w) execution_config = Some e0 →
  caller_render ext (heap w) render_config = Some r0 →
  caller_profile (heap w) profile_config = Some profile →
  (validate_initial_user_config e0 profile project r0 (default ∅ operator_args) w).1
  = Ok () →
  ∃ evs0 e' r' w2,
    DbtToAirflowConverter_init ext project_config profile_config execution_config
      render_config dag task_group operator_args on_warning_callback parse_all_dags w
    = from_adapted_validation ext project_config profile_config target task_group
        (default ∅ operator_args) on_warning_callback project
        (adapted_execution project e0) (adapted_render project r0) e' r' w2
    ∧ trace w2 = (trace w ++ ValidateProject project_config :: evs0)%list
    ∧ Forall (λ ev, ¬ graph_call ev) evs0
    ∧ projects (heap w2) = projects (heap w)
    ∧ profiles (heap w2) = profiles (heap w)
    ∧ executions (heap w) ⊆ executions (heap w2)
    ∧ renders (heap w) ⊆ renders (heap w2)
    ∧ executions (heap w2) !! e' = Some (adapted_execution project e0)
    ∧ renders (heap w2) !! r' = Some (adapted_render project r0)
    ∧ (if is_set (dbt_project_path project)
       then executions (heap w) !! e' = None ∧ renders (heap w) !! r' = None
       else (∀ l, execution_config = Some l → e' = l)
            ∧ (∀ l, render_config = Some l → r' = l)).
Proof.
  intros Hdag Hskip Hp Hvp He Hr Hpf Hinit.
  unfold DbtToAirflowConverter_init. rewrite Hdag, Hskip.
  destruct (convert_to_convert_with ext project_config profile_config execution_config
              render_config target task_group operator_args on_warning_callback w
              project e0 r0 Hp Hvp He Hr)
    as (e_ref & r_ref & w3 & -> & Ht3 & Hp3 & Hpf3 & He3 & Hr3 & Hle & Hlr & Hec & Hrc).
  destruct (validate_initial_user_config_logged e0 profile project r0
              (default ∅ operator_args) w3) as (evs0 & Hw1 & Hevs0).
  assert (validate_initial_user_config e0 profile project r0 (default ∅ operator_args) w3
          = (Ok (), logged evs0 w3)) as Hinit3.
  { rewrite (validate_initial_user_config_verdict _ _ _ _ _ w w3) in Hinit.
    destruct (validate_initial_user_config _ _ _ _ _ w3) as [res w1].
    simpl in *. by subst. }
  assert (caller_profile (heap w3) profile_config = Some profile) as Hpf3'.
  { unfold caller_profile in *. by rewrite Hpf3. }
  assert (projects (heap w3) !! project_config = Some project) as Hp3'.
  { by rewrite Hp3. }
  destruct (convert_with_forward ext project_config profile_config e_ref r_ref target
              task_group (default ∅ operator_args) on_warning_callback w3 e0 profile
              project r0 _ Hle Hpf3' Hp3' Hlr Hinit3)
    as (e' & r' & w2 & Ht2 & Hp2 & Hpf2 & He2 & Hr2 & He' & Hr' & Hrefs & ->).
  exists evs0, e', r', w2. split_and!; try done.
  - rewrite Ht2. simpl. rewrite Ht3. by rewrite <- app_assoc.
  - congruence.
  - congruence.
  - by etrans.
  - by etrans.
  - destruct (is_set (dbt_project_path project)).
    + destruct Hrefs as [Hne Hnr]. split.
      * destruct (executions (heap w) !! e') eqn:Hl; [|done].
        eapply lookup_weaken in Hl; [|exact He3]. congruence.
      * destruct (renders (heap w) !! r') eqn:Hl; [|done].
        eapply lookup_weaken in Hl; [|exact Hr3]. congruence.
    + destruct Hrefs as [-> ->]. done.
Qed.

(** X14: with a target DAG and no early return, the first thing the
    constructor does is the project validation; when that raises, the
    exception is the constructor's, and nothing else has happened: no
    default configuration was created, nothing was validated or loaded. *)
Theorem init_project_validation_first
    (ext : Externals) (project_config : loc)
    (profile_config execution_config render_config : option loc)
    (dag : option DAG) (task_group : option TaskGroup)
    (operator_args : option (gmap string value)) (on_warning_callback : option string)
    (parse_all_dags : bool) (w : World)
    (target : DAG) (project : ProjectConfig) (err : exn) :
  resolve_dag dag task_group = Some target →
  not_the_parsed_dag ext parse_all_dags target = false →
  projects (heap w) !! project_config = Some project →
  validate_project ext project = Some err →
  DbtToAirflowConverter_init ext project_config profile_config execution_config
    render_config dag task_group operator_args on_warning_callback parse_all_dags w
  = (Raise err, logged [ValidateProject project_config] w).
Proof.
  intros Hdag Hskip Hp Hvp. unfold DbtToAirflowConverter_init, convert.
  rewrite Hdag, Hskip. by rewrite bind_run, call_validate_project_run, Hp, Hvp.
Qed.

Example init_project_validation_first_witness :
  DbtToAirflowConverter_init Failing.project_validation 1%positive (Some 1%positive)
    None None (Some Demo.my_dag) None None None false
    (Demo.world (Demo.project (Some "/p") None) Demo.render0)
  = (Raise (ExternalError "validate_project"),
     logged [ValidateProject 1%positive]
       (Demo.world (Demo.project (Some "/p") None) Demo.render0)).
Proof.
  exact (init_project_validation_first Failing.project_validation 1%positive
           (Some 1%positive) None None (Some Demo.my_dag) None None None false
           (Demo.world (Demo.project (Some "/p") None) Demo.render0)
           Demo.my_dag (Demo.project (Some "/p") None) (ExternalError "validate_project")
           eq_refl eq_refl eq_refl eq_refl).
Defined.

Lemma adapted_render_selectors project r :
  select (adapted_render project r) = select r
  ∧ exclude (adapted_render project r) = exclude r.
Proof. unfold adapted_render. by destruct (is_set _). Qed.

Lemma adapted_execution_mode project e :
  execution_mode (adapted_execution project e) = execution_mode e.
Proof. unfold adapted_execution. by destruct (is_set _). Qed.

(** X15: when the adapted validation fails the constructor raises its
    error without having called the loader or the builder.  This is what
    happens with the split interface (no [project.dbt_project_path]) when
    [execution.project_path] is unset, or when there is neither a manifest
    nor [render.project_path]. *)
Theorem init_rejects_unresolved_paths
    (ext : Externals) (project_config : loc)
    (profile_config execution_config render_config : option loc)
    (dag : option DAG) (task_group : option TaskGroup)
    (operator_args : option (gmap string value)) (on_warning_callback : option string)
    (parse_all_dags : bool) (w : World)
    (target : DAG) (project : ProjectConfig) (execution : ExecutionConfig)
    (render : RenderConfig) (profile : option ProfileConfig) :
  resolve_dag dag task_group = Some target →
  not_the_parsed_dag ext parse_all_dags target = false →
  projects (heap w) !! project_config = Some project →
  validate_project ext project = None →
  caller_execution ext (heap w) execution_config = Some execution →
  caller_render ext (heap w) render_config = Some render →
  caller_profile (heap w) profile_config = Some profile →
  (validate_initial_user_config execution profile project render
     (default ∅ operator_args) w).1 = Ok () →
  dbt_project_path project = None →
  execution_project_path execution = None
  ∨ (manifest_path project = None ∧ render_project_path render = None) →
  let run := DbtToAirflowConverter_init ext project_config profile_config
               execution_config render_config dag task_group operator_args
               on_warning_callback parse_all_dags w in
  (run.1 = Raise (CosmosValueError ExecutionProjectPathRequired)
   ∨ run.1 = Raise (CosmosValueError RenderProjectPathRequired))
  ∧ (execution_project_path execution = None →
     run.1 = Raise (CosmosValueError ExecutionProjectPathRequired))
  ∧ (∃ evs, trace run.2 = (trace w ++ evs)%list ∧ Forall (λ ev, ¬ graph_call ev) evs)
  ∧ profiles (heap run.2) = profiles (heap w).
Proof.
  intros Hdag Hskip Hp Hvp He Hr Hpf Hinit Hlegacy Hunresolved. cbv zeta.
  destruct (init_forward ext project_config profile_config execution_config render_config
              dag task_group operator_args on_warning_callback parse_all_dags w
              target project execution render profile Hdag Hskip Hp Hvp He Hr Hpf Hinit)
    as (evs0 & e' & r' & w2 & -> & Ht2 & Hevs0 & _ & Hpf2 & _).
  unfold from_adapted_validation, adapted_execution, adapted_render.
  rewrite Hlegacy. simpl.
  unfold validate_adapted_user_config. unfold_monad.
  destruct (execution_project_path execution) as [path|] eqn:Hpath; simpl.
  - destruct Hunresolved as [|[-> ->]]; [done|]. simpl. split_and!; try done.
    + by right.
    + eexists. split; [exact Ht2|]. constructor; [by intros []|done].
  - split_and!; try done.
    + by left.
    + eexists. split; [exact Ht2|]. constructor; [by intros []|done].
Qed.

Example init_rejects_unresolved_paths_witness :
  (DbtToAirflowConverter_init (Demo.ext None) 1%positive (Some 1%positive)
     (Some 1%positive) (Some 1%positive) (Some Demo.my_dag) None None None false
     (Demo.world (Demo.project None None) (Demo.render (Some "/p") [] []))).1
  = Raise (CosmosValueError ExecutionProjectPathRequired).
Proof.
  pose proof (init_rejects_unresolved_paths (Demo.ext None) 1%positive (Some 1%positive)
                (Some 1%positive) (Some 1%positive) (Some Demo.my_dag) None None None
                false
                (Demo.world (Demo.project None None) (Demo.render (Some "/p") [] []))
                Demo.my_dag (Demo.project None None) Demo.execution0
                (Demo.render (Some "/p") [] []) (Some Demo.profile)
                eq_refl eq_refl eq_refl eq_refl eq_refl eq_refl eq_refl eq_refl eq_refl
                (or_introl eq_refl)) as Hthm.
  cbv zeta in Hthm. destruct Hthm as (_ & Hexecution & _). by apply Hexecution.
Defined.

(** *** What the constructor hands to the loader and to the builder *)

Lemma py_or_dict (d : option (gmap string string)) (v : value) :
  (∀ m, d = Some m → m ≠ ∅ → py_or (of_dict d) v = VDict m)
  ∧ (d = None ∨ d = Some ∅ → py_or (of_dict d) v = v).
Proof.
  unfold py_or. split.
  - intros m -> Hm. simpl. by rewrite bool_decide_eq_false_2.
  - intros [->| ->]; simpl; [done|]. by rewrite bool_decide_eq_true_2.
Qed.

Lemma initial_validation_without_profile execution project render operator_args w :
  (validate_initial_user_config execution None project render operator_args w).1 = Ok () →
  execution_mode execution = KUBERNETES ∨ execution_mode execution = DOCKER.
Proof.
  rewrite validate_initial_user_config_unfold, check_profile_config_run. simpl.
  case_bool_decide as Hmode; simpl; [|done]. intros _. set_solver.
Qed.

Lemma schema_not_canonical : "schema" ∉ canonical_keys.
Proof.
  unfold canonical_keys. intros Hin.
  repeat (apply elem_of_cons in Hin as [?|Hin]; [done|]). by apply elem_of_nil in Hin.
Qed.

(** [profile_accepted] looks at the arguments under ["schema"] only. *)
Lemma profile_accepted_schema ext mode d d' profile :
  d !! "schema" = d' !! "schema" →
  profile_accepted ext mode d profile → profile_accepted ext mode d' profile.
Proof.
  intros Heq. unfold profile_accepted, dict_contains, dict_get. by rewrite Heq.
Qed.

(** [validate_arguments] passes when the selectors do, the profile config is
    accepted, and a missing profile config is not asked to validate. *)
Lemma validate_arguments_passes ext select exclude profile_config task_args mode w profile :
  selector_intersection ext select exclude "tags" = ∅ →
  selector_intersection ext select exclude "paths" = ∅ →
  caller_profile (heap w) profile_config = Some profile →
  profile_accepted ext mode task_args profile →
  (profile = None → mode ≠ LOCAL ∧ mode ≠ VIRTUALENV) →
  (validate_arguments ext select exclude profile_config task_args mode w).1 = Ok ().
Proof.
  intros Ht Hp Hpf Hacc Hnone.
  destruct profile_config as [l|]; simpl in Hpf.
  - destruct (profiles (heap w) !! l) as [pr|] eqn:Hl; [|done].
    simpl in Hpf. simplify_eq. simpl in Hacc.
    rewrite (validate_arguments_run ext select exclude l task_args mode w pr Ht Hp Hl).
    unfold when. destruct (bool_decide (mode ∈ [LOCAL; VIRTUALENV])) eqn:Hmode; [|done].
    apply local_mode_spec in Hmode. specialize (Hacc Hmode).
    rewrite call_validate_profiles_yml_run.
    destruct (dict_contains task_args "schema"); simpl.
    + case_bool_decide as Hmap; simpl.
      * rewrite lookup_alter_eq, Hl. simpl. by rewrite Hacc.
      * rewrite Hl.
        replace (with_profile_arg "schema" (dict_get task_args "schema") pr) with pr in Hacc.
        { by rewrite Hacc. }
        unfold with_profile_arg.
        destruct pr as [? ? [m|]]; simpl in *; [|done]. destruct Hmap. eauto.
    + rewrite Hl. by rewrite Hacc.
  - simplify_eq. simpl in Hacc. destruct Hnone as [Hl Hv]; [done|].
    unfold validate_arguments.
    rewrite bind_run, validate_selectors_pass by done.
    rewrite bind_run. unfold dict_contains.
    rewrite (bool_decide_eq_false_2 (is_Some (task_args !! "schema")))
      by (rewrite Hacc; by intros [? ?]).
    cbn [when]. rewrite ret_run.
    rewrite bool_decide_eq_false_2 by set_solver. done.
Qed.

(** The constructor from the loader on.  When the project, initial and
    adapted validations pass, the loader is called on [load] in the store
    [h]; what follows depends on the loader's answer to that call, on the
    selectors and on the profile config. *)
Lemma init_hands_over ext project_config profile_config execution_config render_config
    dag task_group operator_args on_warning_callback parse_all_dags w
    target project e0 r0 profile :
  resolve_dag dag task_group = Some target →
  not_the_parsed_dag ext parse_all_dags target = false →
  projects (heap w) !! project_config = Some project →
  validate_project ext project = None →
  caller_execution ext (heap w) execution_config = Some e0 →
  caller_render ext (heap w) render_config = Some r0 →
  caller_profile (heap w) profile_config = Some profile →
  (validate_initial_user_config e0 profile project r0 (default ∅ operator_args) w).1
  = Ok () →
  (validate_adapted_user_config (Some (adapted_execution project e0)) project
     (Some (adapted_render project r0)) w).1 = Ok () →
  let args := default ∅ operator_args in
  let execution := adapted_execution project e0 in
  let render := adapted_render project r0 in
  let run := DbtToAirflowConverter_init ext project_config profile_config
               execution_config render_config dag task_group operator_args
               on_warning_callback parse_all_dags w in
  ∃ pre e' r' h rest,
    let load :=
      loader_request project_config profile_config project execution render args e' r' in
    trace run.2 = (trace w ++ pre ++ DbtGraphLoad load :: rest)%list
    ∧ Forall (λ ev, ¬ graph_call ev) pre
    ∧ projects h = projects (heap w)
    ∧ profiles h = profiles (heap w)
    ∧ executions (heap w) ⊆ executions h
    ∧ renders (heap w) ⊆ renders h
    ∧ executions h !! e' = Some execution
    ∧ renders h !! r' = Some render
    ∧ (if is_set (dbt_project_path project)
       then executions (heap w) !! e' = None ∧ renders (heap w) !! r' = None
       else (∀ l, execution_config = Some l → e' = l)
            ∧ (∀ l, render_config = Some l → r' = l))
    ∧ (∀ err, dbt_graph_load ext h load = inl err →
         run.1 = Raise err ∧ rest = [] ∧ heap run.2 = h)
    ∧ (∀ nodes, dbt_graph_load ext h load = inr nodes →
         selector_intersection ext (select r0) (exclude r0) "tags" = ∅ →
         selector_intersection ext (select r0) (exclude r0) "paths" = ∅ →
         profile_accepted ext (execution_mode e0) args profile →
         ∃ mid,
           let build :=
             builder_request profile_config target task_group args on_warning_callback
               project execution render r' nodes in
           rest = (mid ++ [BuildAirflowGraph build])%list
           ∧ Forall (λ ev, ¬ graph_call ev) mid
           ∧ projects (heap run.2) = projects (heap w)
           ∧ executions h ⊆ executions (heap run.2)
           ∧ renders h ⊆ renders (heap run.2)
           ∧ run.1 = match build_airflow_graph ext (heap run.2) build with
                     | Some err => Raise err
                     | None => Ok (Built nodes)
                     end).
Proof.
  intros Hdag Hskip Hp Hvp He Hr Hpf Hinit Hadapted. cbv zeta.
  destruct (init_forward ext project_config profile_config execution_config render_config
              dag task_group operator_args on_warning_callback parse_all_dags w
              target project e0 r0 profile Hdag Hskip Hp Hvp He Hr Hpf Hinit)
    as (evs0 & e' & r' & w2 & -> & Ht2 & Hevs0 & Hp2 & Hpf2 & He2 & Hr2 & He' & Hr' & Hrefs).
  assert (Forall (λ ev, ¬ graph_call ev) (ValidateProject project_config :: evs0)) as Hpre.
  { constructor; [by intros []|done]. }
  unfold from_adapted_validation.
  rewrite (validate_adapted_user_config_verdict _ _ _ w w2) in Hadapted.
  destruct (validate_adapted_user_config _ project _ w2) as [[[]|?] ?]; [|done].
  cbv zeta.
  change {| gr_project := project_config; gr_render_config := r';
            gr_execution_config := e'; gr_profile_config := profile_config;
            gr_dbt_vars := effective_dbt_vars project (default ∅ operator_args);
            gr_method := load_method (adapted_render project r0);
            gr_execution_mode := execution_mode (adapted_execution project e0) |}
    with (loader_request project_config profile_config project
            (adapted_execution project e0) (adapted_render project r0)
            (default ∅ operator_args) e' r').
  set (load := loader_request _ _ _ _ _ _ _ _).
  destruct (dbt_graph_load ext (heap w2) load) as [err|nodes] eqn:Hload.
  { exists (ValidateProject project_config :: evs0), e', r', (heap w2), [].
    fold load. simpl. rewrite Ht2, <- app_assoc. split_and!; try done.
    - intros err' Hl. rewrite Hload in Hl. by simplify_eq.
    - intros nodes Hl. rewrite Hload in Hl. done. }
  destruct (adapted_render_selectors project r0) as [Hsel Hexc].
  match goal with
  | |- context [validate_arguments ?a ?b ?c ?d ?e ?f ?g] =>
      pose proof (validate_arguments_evolves a b c d e f g) as Hva;
      pose proof (validate_arguments_passes a b c d e f g profile) as Hpass;
      destruct (validate_arguments a b c d e f g) as [res w3]
  end.
  simpl in Hva, Hpass. rewrite Hsel, Hexc, adapted_execution_mode in Hpass.
  destruct Hva as (mid & Ht3 & Hmid & Hp3 & He3 & Hr3 & _). simpl in *.
  destruct res as [[]|err].
  - exists (ValidateProject project_config :: evs0), e', r', (heap w2),
      (mid ++ [BuildAirflowGraph
                 (builder_request profile_config target task_group
                    (default ∅ operator_args) on_warning_callback project
                    (adapted_execution project e0) (adapted_render project r0) r' nodes)])%list.
    fold load. simpl. split_and!; try done.
    + rewrite Ht3, Ht2. by rewrite <- !app_assoc.
    + intros err' Hl. rewrite Hload in Hl. done.
    + intros nodes' Hl _ _ _. rewrite Hload in Hl. simplify_eq.
      exists mid. split_and!; try done. congruence.
  - exists (ValidateProject project_config :: evs0), e', r', (heap w2), mid.
    fold load. simpl. split_and!; try done.
    + rewrite Ht3, Ht2. by rewrite <- !app_assoc.
    + intros err' Hl. rewrite Hload in Hl. done.
    + intros nodes' _ Hst Hsp Hacc. exfalso.
      assert (Raise err = Ok ()) as Habs; [|done].
      apply Hpass; try done.
      * unfold caller_profile in *. by rewrite Hpf2.
      * eapply profile_accepted_schema; [|exact Hacc].
        symmetry. apply task_args_of_other, schema_not_canonical.
      * intros ->. apply initial_validation_without_profile in Hinit as [-> | ->]; done.
Qed.

(** C9: the effective environment map is [project.env_vars] when that map
    is there and not empty, and [operator_args.get("env")] otherwise, which
    is [None] for an absent key; the same for [project.dbt_vars] and
    ["vars"].  An empty map on the project falls back to the operator
    argument.  These are the values passed on.  Every call of the loader
    made by the constructor gets the effective variable map as [dbt_vars],
    and every call of the builder gets both maps under ["env"] and ["vars"]
    of the task arguments.  And the calls are made: when the project,
    initial and adapted validations pass on the caller's configurations,
    the loader is called with the effective variable map, as the first
    graph call of the run; and when the loader answers that call with nodes,
    the selectors pass and the profile config is accepted, the builder is
    called last, with those nodes and both maps in its task arguments. *)
Theorem effective_vars_passed_on
    (ext : Externals) (project_config : loc)
    (profile_config execution_config render_config : option loc)
    (dag : option DAG) (task_group : option TaskGroup)
    (operator_args : option (gmap string value)) (on_warning_callback : option string)
    (parse_all_dags : bool) (w : World)
    (project : ProjectConfig) (args : gmap string value) :
  let run := DbtToAirflowConverter_init ext project_config profile_config
               execution_config render_config dag task_group operator_args
               on_warning_callback parse_all_dags w in
  (* the precedence *)
  ((∀ m, project_env_vars project = Some m → m ≠ ∅ →
         effective_env_vars project args = VDict m)
   ∧ (project_env_vars project = None ∨ project_env_vars project = Some ∅ →
      effective_env_vars project args = dict_get args "env")
   ∧ (∀ m, dbt_vars project = Some m → m ≠ ∅ →
           effective_dbt_vars project args = VDict m)
   ∧ (dbt_vars project = None ∨ dbt_vars project = Some ∅ →
      effective_dbt_vars project args = dict_get args "vars")
   ∧ (∀ k, dict_get args k = match args !! k with Some v => v | None => VNone end))
  (* what is passed on *)
  ∧ (∀ ev, ev ∈ trace run.2 →
       ev ∈ trace w
       ∨ match ev with
         | DbtGraphLoad req =>
             ∃ p, projects (heap w) !! project_config = Some p
                  ∧ gr_dbt_vars req = effective_dbt_vars p (default ∅ operator_args)
         | BuildAirflowGraph req =>
             ∃ p, projects (heap w) !! project_config = Some p
                  ∧ br_task_args req !! "env"
                    = Some (effective_env_vars p (default ∅ operator_args))
                  ∧ br_task_args req !! "vars"
                    = Some (effective_dbt_vars p (default ∅ operator_args))
         | _ => True
         end)
  (* it is passed on *)
  ∧ (∀ target p e0 r0 pf,
       resolve_dag dag task_group = Some target →
       not_the_parsed_dag ext parse_all_dags target = false →
       projects (heap w) !! project_config = Some p →
       validate_project ext p = None →
       caller_execution ext (heap w) execution_config = Some e0 →
       caller_render ext (heap w) render_config = Some r0 →
       caller_profile (heap w) profile_config = Some pf →
       (validate_initial_user_config e0 pf p r0 (default ∅ operator_args) w).1 = Ok () →
       (validate_adapted_user_config (Some (adapted_execution p e0)) p
          (Some (adapted_render p r0)) w).1 = Ok () →
       ∃ pre load h rest,
         trace run.2 = (trace w ++ pre ++ DbtGraphLoad load :: rest)%list
         ∧ Forall (λ ev, ¬ graph_call ev) pre
         ∧ gr_project load = project_config
         ∧ gr_dbt_vars load = effective_dbt_vars p (default ∅ operator_args)
         ∧ projects h = projects (heap w)
         ∧ profiles h = profiles (heap w)
         ∧ executions h !! gr_execution_config load = Some (adapted_execution p e0)
         ∧ renders h !! gr_render_config load = Some (adapted_render p r0)
         ∧ (∀ nodes,
              dbt_graph_load ext h load = inr nodes →
              selector_intersection ext (select r0) (exclude r0) "tags" = ∅ →
              selector_intersection ext (select r0) (exclude r0) "paths" = ∅ →
              profile_accepted ext (execution_mode e0) (default ∅ operator_args) pf →
              ∃ mid build,
                rest = (mid ++ [BuildAirflowGraph build])%list
                ∧ Forall (λ ev, ¬ graph_call ev) mid
                ∧ br_nodes build = nodes
                ∧ br_task_args build !! "env"
                  = Some (effective_env_vars p (default ∅ operator_args))
                ∧ br_task_args build !! "vars"
                  = Some (effective_dbt_vars p (default ∅ operator_args))
                ∧ run.1 = match build_airflow_graph ext (heap run.2) build with
                          | Some err => Raise err
                          | None => Ok (Built nodes)
                          end)).
Proof.
  cbv zeta. split; [|split].
  - unfold effective_env_vars, effective_dbt_vars. split_and!.
    + apply py_or_dict.
    + apply py_or_dict.
    + apply py_or_dict.
    + apply py_or_dict.
    + intros k. unfold dict_get. by destruct (args !! k).
  - intros ev Hev. apply init_new_events in Hev as [Hold|Hnew]; [by left|right].
    destruct ev as [| | | |req|req]; try done.
    + destruct (Hnew I) as (d & _ & _ & p & e0 & r0 & pf & Hp & _ & _ & _ & _ & _ & Hreq).
      exists p. by destruct_and!.
    + destruct (Hnew I) as (d & _ & _ & p & e0 & r0 & pf & Hp & _ & _ & _ & _ & _ & Hreq).
      exists p. destruct Hreq as (_ & _ & _ & -> & _).
      split; [done|]. split; apply task_args_of_canonical.
  - intros target p e0 r0 pf Hdag Hskip Hp Hvp He Hr Hpf Hinit Hadapted.
    pose proof (init_hands_over ext project_config profile_config execution_config
                  render_config dag task_group operator_args on_warning_callback
                  parse_all_dags w target p e0 r0 pf
                  Hdag Hskip Hp Hvp He Hr Hpf Hinit Hadapted) as Hover.
    cbv zeta in Hover.
    destruct Hover as (pre & e' & r' & h & rest & Htrace & Hpre & Hph & Hpfh & _ & _
                       & He' & Hr' & _ & _ & Hbuild).
    eexists pre, _, h, rest. split_and!; try done.
    intros nodes Hload Hst Hsp Hacc.
    destruct (Hbuild nodes Hload Hst Hsp Hacc) as (mid & -> & Hmid & _ & _ & _ & Hres).
    eexists mid, _. split_and!; try done; apply task_args_of_canonical.
Qed.

Example effective_vars_passed_on_witness :
  ∃ pre load mid build,
    trace (DbtToAirflowConverter_init (Demo.ext None) 1%positive (Some 1%positive)
             (Some 1%positive) (Some 1%positive) (Some Demo.my_dag) None
             (Some {[ "env" := VDict {[ "A" := "1" ]}; "vars" := VDict {[ "x" := "y" ]} ]})
             None false
             (Demo.world (Demo.project (Some "/p") (Some ∅)) Demo.render0)).2
    = (pre ++ DbtGraphLoad load :: mid ++ [BuildAirflowGraph build])%list
    ∧ gr_dbt_vars load = VDict {[ "x" := "y" ]}
    ∧ br_nodes build = ["model.a"; "model.b"]
    ∧ br_task_args build !! "env" = Some (VDict {[ "A" := "1" ]})
    ∧ br_task_args build !! "vars" = Some (VDict {[ "x" := "y" ]}).
Proof.
  pose proof (effective_vars_passed_on (Demo.ext None) 1%positive (Some 1%positive)
                (Some 1%positive) (Some 1%positive) (Some Demo.my_dag) None
                (Some {[ "env" := VDict {[ "A" := "1" ]}; "vars" := VDict {[ "x" := "y" ]} ]})
                None false
                (Demo.world (Demo.project (Some "/p") (Some ∅)) Demo.render0)
                (Demo.project (Some "/p") (Some ∅))
                {[ "env" := VDict {[ "A" := "1" ]}; "vars" := VDict {[ "x" := "y" ]} ]})
    as Hthm.
  cbv zeta in Hthm. destruct Hthm as ((_ & _ & _ & Hvars & _) & _ & Hover).
  destruct (Hover Demo.my_dag (Demo.project (Some "/p") (Some ∅)) Demo.execution0
              Demo.render0 (Some Demo.profile)
              eq_refl eq_refl eq_refl eq_refl eq_refl eq_refl eq_refl eq_refl eq_refl)
    as (pre & load & h & rest & Htrace & _ & _ & Hload & _ & _ & _ & _ & Hbuild).
  destruct (Hbuild ["model.a"; "model.b"] eq_refl eq_refl eq_refl (λ _, eq_refl))
    as (mid & build & -> & _ & Hnodes & Hbenv & Hbvars & _).
  exists pre, load, mid, build. split_and!.
  - exact Htrace.
  - rewrite Hload. etrans; [apply Hvars; by left|]. reflexivity.
  - exact Hnodes.
  - rewrite Hbenv. reflexivity.
  - rewrite Hbvars. reflexivity.
Defined.

(** C10: in the task arguments the canonical entries replace whatever the
    operator arguments hold under the same key.  For any operator
    arguments, the dictionary built by the constructor maps ["project_dir"],
    ["partial_parse"], ["profile_config"], ["emit_datasets"], ["env"] and
    ["vars"] to the computed values; and the task arguments of every call of
    the builder made by the constructor hold, under these keys, the values
    computed from the adapted execution and render configs, the project
    config and the profile reference.  And the bundle is handed over: when
    the project, initial and adapted validations pass on the caller's
    configurations, the loader is called; and when it answers that call with
    nodes, the selectors pass and the profile config is accepted, the
    builder is called last, on a bundle with those nodes and the computed
    values under the six keys, and its outcome is the constructor's. *)
Theorem task_args_canonical_override
    (ext : Externals) (project_config : loc)
    (profile_config execution_config render_config : option loc)
    (dag : option DAG) (task_group : option TaskGroup)
    (operator_args : option (gmap string value)) (on_warning_callback : option string)
    (parse_all_dags : bool) (w : World)
    (args : gmap string value) (execution : ExecutionConfig) (project : ProjectConfig)
    (profile : option loc) (render : RenderConfig) (env vars : value) :
  let run := DbtToAirflowConverter_init ext project_config profile_config
               execution_config render_config dag task_group operator_args
               on_warning_callback parse_all_dags w in
  let canonical (task_args : gmap string value) execution project profile render env vars :=
    task_args !! "project_dir" = Some (of_path (execution_project_path execution))
    ∧ task_args !! "partial_parse" = Some (VBool (partial_parse project))
    ∧ task_args !! "profile_config" = Some (of_profile profile)
    ∧ task_args !! "emit_datasets" = Some (VBool (emit_datasets render))
    ∧ task_args !! "env" = Some env
    ∧ task_args !! "vars" = Some vars in
  (* the dictionary *)
  canonical (task_args_of args execution project profile render env vars)
    execution project profile render env vars
  (* what the builder gets *)
  ∧ (∀ req, BuildAirflowGraph req ∈ trace run.2 →
       BuildAirflowGraph req ∈ trace w
       ∨ ∃ p e0 r0,
           projects (heap w) !! project_config = Some p
           ∧ caller_execution ext (heap w) execution_config = Some e0
           ∧ caller_render ext (heap w) render_config = Some r0
           ∧ canonical (br_task_args req) (adapted_execution p e0) p profile_config
               (adapted_render p r0)
               (effective_env_vars p (default ∅ operator_args))
               (effective_dbt_vars p (default ∅ operator_args)))
  (* the builder gets it *)
  ∧ (∀ target p e0 r0 pf,
       resolve_dag dag task_group = Some target →
       not_the_parsed_dag ext parse_all_dags target = false →
       projects (heap w) !! project_config = Some p →
       validate_project ext p = None →
       caller_execution ext (heap w) execution_config = Some e0 →
       caller_render ext (heap w) render_config = Some r0 →
       caller_profile (heap w) profile_config = Some pf →
       (validate_initial_user_config e0 pf p r0 (default ∅ operator_args) w).1 = Ok () →
       (validate_adapted_user_config (Some (adapted_execution p e0)) p
          (Some (adapted_render p r0)) w).1 = Ok () →
       ∃ pre load h rest,
         trace run.2 = (trace w ++ pre ++ DbtGraphLoad load :: rest)%list
         ∧ Forall (λ ev, ¬ graph_call ev) pre
         ∧ gr_project load = project_config
         ∧ projects h = projects (heap w)
         ∧ profiles h = profiles (heap w)
         ∧ executions h !! gr_execution_config load = Some (adapted_execution p e0)
         ∧ renders h !! gr_render_config load = Some (adapted_render p r0)
         ∧ (∀ nodes,
              dbt_graph_load ext h load = inr nodes →
              selector_intersection ext (select r0) (exclude r0) "tags" = ∅ →
              selector_intersection ext (select r0) (exclude r0) "paths" = ∅ →
              profile_accepted ext (execution_mode e0) (default ∅ operator_args) pf →
              ∃ mid build,
                rest = (mid ++ [BuildAirflowGraph build])%list
                ∧ Forall (λ ev, ¬ graph_call ev) mid
                ∧ br_nodes build = nodes
                ∧ br_dag build = target
                ∧ canonical (br_task_args build) (adapted_execution p e0) p profile_config
                    (adapted_render p r0)
                    (effective_env_vars p (default ∅ operator_args))
                    (effective_dbt_vars p (default ∅ operator_args))
                ∧ run.1 = match build_airflow_graph ext (heap run.2) build with
                          | Some err => Raise err
                          | None => Ok (Built nodes)
                          end)).
Proof.
  cbv zeta. split; [apply task_args_of_canonical|]. split.
  - intros req Hev. apply init_new_events in Hev as [Hold|Hnew]; [by left|right].
    destruct (Hnew I) as (d & _ & _ & p & e0 & r0 & pf & Hp & He & Hr & _ & _ & _ & Hreq).
    exists p, e0, r0. destruct Hreq as (_ & _ & _ & -> & _).
    split_and!; try done; apply task_args_of_canonical.
  - intros target p e0 r0 pf Hdag Hskip Hp Hvp He Hr Hpf Hinit Hadapted.
    pose proof (init_hands_over ext project_config profile_config execution_config
                  render_config dag task_group operator_args on_warning_callback
                  parse_all_dags w target p e0 r0 pf
                  Hdag Hskip Hp Hvp He Hr Hpf Hinit Hadapted) as Hover.
    cbv zeta in Hover.
    destruct Hover as (pre & e' & r' & h & rest & Htrace & Hpre & Hph & Hpfh & _ & _
                       & He' & Hr' & _ & _ & Hbuild).
    eexists pre, _, h, rest. split_and!; try done.
    intros nodes Hload Hst Hsp Hacc.
    destruct (Hbuild nodes Hload Hst Hsp Hacc) as (mid & -> & Hmid & _ & _ & _ & Hres).
    eexists mid, _. split_and!; try done; apply task_args_of_canonical.
Qed.

Example task_args_canonical_override_witness :
  ∃ pre load mid build,
    trace (DbtToAirflowConverter_init (Demo.ext None) 1%positive (Some 1%positive)
             (Some 1%positive) (Some 1%positive) (Some Demo.my_dag) None
             (Some {[ "project_dir" := VStr "elsewhere"; "partial_parse" := VBool false ]})
             None false
             (Demo.world (Demo.project (Some "/p") None) Demo.render0)).2
    = (pre ++ DbtGraphLoad load :: mid ++ [BuildAirflowGraph build])%list
    ∧ br_nodes build = ["model.a"; "model.b"]
    ∧ br_task_args build !! "project_dir" = Some (VPath "/p")
    ∧ br_task_args build !! "partial_parse" = Some (VBool true).
Proof.
  pose proof (task_args_canonical_override (Demo.ext None) 1%positive (Some 1%positive)
                (Some 1%positive) (Some 1%positive) (Some Demo.my_dag) None
                (Some {[ "project_dir" := VStr "elsewhere"; "partial_parse" := VBool false ]})
                None false
                (Demo.world (Demo.project (Some "/p") None) Demo.render0)
                {[ "project_dir" := VStr "elsewhere"; "partial_parse" := VBool false ]}
                (with_execution_project_path (Some "/p") Demo.execution0)
                (Demo.project (Some "/p") None) (Some 1%positive) Demo.render0 VNone VNone)
    as Hthm.
  cbv zeta in Hthm. destruct Hthm as (_ & _ & Hover).
  destruct (Hover Demo.my_dag (Demo.project (Some "/p") None) Demo.execution0
              Demo.render0 (Some Demo.profile)
              eq_refl eq_refl eq_refl eq_refl eq_refl eq_refl eq_refl eq_refl eq_refl)
    as (pre & load & h & rest & Htrace & _ & _ & _ & _ & _ & _ & Hbuild).
  destruct (Hbuild ["model.a"; "model.b"] eq_refl eq_refl eq_refl (λ _, eq_refl))
    as (mid & build & -> & _ & Hnodes & _ & (Hdir & Hpartial & _) & _).
  exists pre, load, mid, build. split_and!.
  - exact Htrace.
  - exact Hnodes.
  - rewrite Hdir. reflexivity.
  - rewrite Hpartial. reflexivity.
Defined.

(** *** The loader and the builder *)

(** X16: when the project, initial and adapted validations pass, the
    constructor calls the loader, as its first graph call, with the
    effective variables and the adapted configurations.  When the loader
    raises at that call, the constructor raises the same exception and the
    call is the last thing that happened: the builder is not called, the
    store is the one the loader saw, and no profile config was written. *)
Theorem init_loader_failure
    (ext : Externals) (project_config : loc)
    (profile_config execution_config render_config : option loc)
    (dag : option DAG) (task_group : option TaskGroup)
    (operator_args : option (gmap string value)) (on_warning_callback : option string)
    (parse_all_dags : bool) (w : World)
    (target : DAG) (project : ProjectConfig) (execution : ExecutionConfig)
    (render : RenderConfig) (profile : option ProfileConfig) :
  resolve_dag dag task_group = Some target →
  not_the_parsed_dag ext parse_all_dags target = false →
  projects (heap w) !! project_config = Some project →
  validate_project ext project = None →
  caller_execution ext (heap w) execution_config = Some execution →
  caller_render ext (heap w) render_config = Some render →
  caller_profile (heap w) profile_config = Some profile →
  (validate_initial_user_config execution profile project render
     (default ∅ operator_args) w).1 = Ok () →
  (validate_adapted_user_config (Some (adapted_execution project execution)) project
     (Some (adapted_render project render)) w).1 = Ok () →
  let run := DbtToAirflowConverter_init ext project_config profile_config
               execution_config render_config dag task_group operator_args
               on_warning_callback parse_all_dags w in
  ∃ pre load h rest,
    trace run.2 = (trace w ++ pre ++ DbtGraphLoad load :: rest)%list
    ∧ Forall (λ ev, ¬ graph_call ev) pre
    ∧ gr_project load = project_config
    ∧ gr_profile_config load = profile_config
    ∧ gr_dbt_vars load = effective_dbt_vars project (default ∅ operator_args)
    ∧ projects h = projects (heap w)
    ∧ profiles h = profiles (heap w)
    ∧ executions h !! gr_execution_config load = Some (adapted_execution project execution)
    ∧ renders h !! gr_render_config load = Some (adapted_render project render)
    ∧ (∀ err, dbt_graph_load ext h load = inl err →
         run.1 = Raise err
         ∧ rest = []
         ∧ heap run.2 = h
         ∧ profiles (heap run.2) = profiles (heap w)).
Proof.
  intros Hdag Hskip Hp Hvp He Hr Hpf Hinit Hadapted.
  pose proof (init_hands_over ext project_config profile_config execution_config
                render_config dag task_group operator_args on_warning_callback
                parse_all_dags w target project execution render profile
                Hdag Hskip Hp Hvp He Hr Hpf Hinit Hadapted) as Hover.
  cbv zeta in *.
  destruct Hover as (pre & e' & r' & h & rest & Htrace & Hpre & Hph & Hpfh & _ & _
                     & He' & Hr' & _ & Hfail & _).
  eexists pre, _, h, rest. split_and!; try done.
  intros err Hload. destruct (Hfail err Hload) as (Hres & -> & Hheap).
  split_and!; try done. by rewrite Hheap.
Qed.

Example init_loader_failure_witness :
  (DbtToAirflowConverter_init Failing.loader 1%positive (Some 1%positive)
     (Some 1%positive) (Some 1%positive) (Some Demo.my_dag) None None None false
     (Demo.world (Demo.project (Some "/p") None) Demo.render0)).1
  = Raise (ExternalError "load").
Proof.
  pose proof (init_loader_failure Failing.loader 1%positive (Some 1%positive)
                (Some 1%positive) (Some 1%positive) (Some Demo.my_dag) None None None
                false (Demo.world (Demo.project (Some "/p") None) Demo.render0)
                Demo.my_dag (Demo.project (Some "/p") None) Demo.execution0
                Demo.render0 (Some Demo.profile)
                eq_refl eq_refl eq_refl eq_refl eq_refl eq_refl eq_refl eq_refl eq_refl)
    as Hthm.
  cbv zeta in Hthm.
  destruct Hthm as (pre & load & h & rest & _ & _ & _ & _ & _ & _ & _ & _ & _ & Hfail).
  destruct (Hfail (ExternalError "load") eq_refl) as (Hraise & _). exact Hraise.
Defined.

(** X17: the constructor builds.  With a target DAG and no early return,
    when the project, initial and adapted validations pass, the selectors
    do not conflict and the profile config is accepted ([validate_profiles_yml]
    passes on it as the schema step leaves it; a missing profile config comes
    without a ["schema"] argument), the constructor calls the loader; when
    the loader answers that call with nodes, it then calls the builder,
    last, with those nodes, the target DAG and the same render config
    reference; and when the builder returns from that call, the constructor
    returns with the loader's nodes as its graph.  The configurations it
    handed over are the adapted ones: new copies when
    [project.dbt_project_path] is set, the caller's own objects otherwise. *)
Theorem init_builds
    (ext : Externals) (project_config : loc)
    (profile_config execution_config render_config : option loc)
    (dag : option DAG) (task_group : option TaskGroup)
    (operator_args : option (gmap string value)) (on_warning_callback : option string)
    (parse_all_dags : bool) (w : World)
    (target : DAG) (project : ProjectConfig) (execution : ExecutionConfig)
    (render : RenderConfig) (profile : option ProfileConfig) :
  resolve_dag dag task_group = Some target →
  not_the_parsed_dag ext parse_all_dags target = false →
  projects (heap w) !! project_config = Some project →
  validate_project ext project = None →
  caller_execution ext (heap w) execution_config = Some execution →
  caller_render ext (heap w) render_config = Some render →
  caller_profile (heap w) profile_config = Some profile →
  (validate_initial_user_config execution profile project render
     (default ∅ operator_args) w).1 = Ok () →
  (validate_adapted_user_config (Some (adapted_execution project execution)) project
     (Some (adapted_render project render)) w).1 = Ok () →
  selector_intersection ext (select render) (exclude render) "tags" = ∅ →
  selector_intersection ext (select render) (exclude render) "paths" = ∅ →
  profile_accepted ext (execution_mode execution) (default ∅ operator_args) profile →
  let run := DbtToAirflowConverter_init ext project_config profile_config
               execution_config render_config dag task_group operator_args
               on_warning_callback parse_all_dags w in
  ∃ pre load h rest,
    trace run.2 = (trace w ++ pre ++ DbtGraphLoad load :: rest)%list
    ∧ Forall (λ ev, ¬ graph_call ev) pre
    ∧ projects h = projects (heap w)
    ∧ profiles h = profiles (heap w)
    ∧ executions h !! gr_execution_config load = Some (adapted_execution project execution)
    ∧ renders h !! gr_render_config load = Some (adapted_render project render)
    ∧ (is_Some (dbt_project_path project) →
       executions (heap w) !! gr_execution_config load = None
       ∧ renders (heap w) !! gr_render_config load = None)
    ∧ (dbt_project_path project = None →
       (∀ l, execution_config = Some l → gr_execution_config load = l)
       ∧ (∀ l, render_config = Some l → gr_render_config load = l))
    ∧ (∀ nodes, dbt_graph_load ext h load = inr nodes →
         ∃ mid build,
           rest = (mid ++ [BuildAirflowGraph build])%list
           ∧ Forall (λ ev, ¬ graph_call ev) mid
           ∧ br_nodes build = nodes
           ∧ br_dag build = target
           ∧ br_render_config build = gr_render_config load
           ∧ executions (heap run.2) !! gr_execution_config load
             = Some (adapted_execution project execution)
           ∧ renders (heap run.2) !! gr_render_config load
             = Some (adapted_render project render)
           ∧ (build_airflow_graph ext (heap run.2) build = None →
              run.1 = Ok (Built nodes))
           ∧ (∀ err, build_airflow_graph ext (heap run.2) build = Some err →
              run.1 = Raise err)).
Proof.
  intros Hdag Hskip Hp Hvp He Hr Hpf Hinit Hadapted Hst Hsp Hacc.
  pose proof (init_hands_over ext project_config profile_config execution_config
                render_config dag task_group operator_args on_warning_callback
                parse_all_dags w target project execution render profile
                Hdag Hskip Hp Hvp He Hr Hpf Hinit Hadapted) as Hover.
  cbv zeta in *.
  destruct Hover as (pre & e' & r' & h & rest & Htrace & Hpre & Hph & Hpfh & _ & _
                     & He' & Hr' & Hrefs & _ & Hbuild).
  eexists pre, _, h, rest. split_and!; try done.
  - intros Hset%is_set_true. by rewrite Hset in Hrefs.
  - intros Hnone%is_set_false. by rewrite Hnone in Hrefs.
  - intros nodes Hload.
    destruct (Hbuild nodes Hload Hst Hsp Hacc)
      as (mid & -> & Hmid & _ & He3 & Hr3 & Hres).
    eexists mid, _. split_and!; try done.
    + simpl. by eapply lookup_weaken.
    + simpl. by eapply lookup_weaken.
    + intros Hok. by rewrite Hok in Hres.
    + intros err Herr. by rewrite Herr in Hres.
Qed.

Example init_builds_witness :
  (DbtToAirflowConverter_init (Demo.ext None) 1%positive (Some 1%positive)
     (Some 1%positive) (Some 1%positive) (Some Demo.my_dag) None None None false
     (Demo.world (Demo.project (Some "/p") None) Demo.render0)).1
  = Ok (Built ["model.a"; "model.b"]).
Proof.
  pose proof (init_builds (Demo.ext None) 1%positive (Some 1%positive)
                (Some 1%positive) (Some 1%positive) (Some Demo.my_dag) None None None
                false (Demo.world (Demo.project (Some "/p") None) Demo.render0)
                Demo.my_dag (Demo.project (Some "/p") None) Demo.execution0
                Demo.render0 (Some Demo.profile)
                eq_refl eq_refl eq_refl eq_refl eq_refl eq_refl eq_refl eq_refl eq_refl
                eq_refl eq_refl (λ _, eq_refl)) as Hthm.
  cbv zeta in Hthm.
  destruct Hthm as (pre & load & h & rest & _ & _ & _ & _ & _ & _ & _ & _ & Hbuild).
  destruct (Hbuild ["model.a"; "model.b"] eq_refl)
    as (mid & build & _ & _ & _ & _ & _ & _ & _ & Hbuilt & _).
  exact (Hbuilt eq_refl).
Defined.
